(** * The content-generation core of the AI content creator backend

    A shallow embedding of [services/aiService.js] (class [AIService]):
    the cache key and its string hash, the prompt builder, the provider
    client with its response parser, the five fallback templates and the
    orchestrator [generateContent], together with the slice of JavaScript
    and of the [node-cache] and [axios] libraries that this code relies on.

    JavaScript strings are sequences of UTF-16 code units, promises are
    run to completion (one request is followed from its start to its
    result), and everything outside the process (the clock, the remote
    providers) is an explicit part of the state or an oracle.

    The handlers of the routes ([routes/content.js], [routes/ai.js] and
    [routes/auth.js]) follow in modules of their own, each as a function
    from the request and the stores of its module to the answer and the
    stores it leaves. *)

From Stdlib Require Import ZArith NArith Lia List Ascii String.
From stdpp Require Import base decidable option list gmap pretty.

Local Open Scope list_scope.
Set Warnings "-register-all".

(** ** JavaScript strings *)

Module JsString.

(** A JavaScript string: its UTF-16 code units, which is what [length],
    [charCodeAt] and [===] observe. *)
Abbreviation t := (list N).

(** Source literals are written as UTF-8 text and decoded here: UTF-8
    bytes to code points, code points to UTF-16 code units. *)
Fixpoint utf8_code_points (bs : list N) : list N :=
  match bs with
  | [] => []
  | b0 :: t0 =>
    if (b0 <? 128)%N then b0 :: utf8_code_points t0
    else match t0 with
    | [] => []
    | b1 :: t1 =>
      if (b0 <? 224)%N
      then ((b0 - 192) * 64 + (b1 - 128))%N :: utf8_code_points t1
      else match t1 with
      | [] => []
      | b2 :: t2 =>
        if (b0 <? 240)%N
        then ((b0 - 224) * 4096 + (b1 - 128) * 64 + (b2 - 128))%N
               :: utf8_code_points t2
        else match t2 with
        | [] => []
        | b3 :: t3 =>
          ((b0 - 240) * 262144 + (b1 - 128) * 4096
           + (b2 - 128) * 64 + (b3 - 128))%N :: utf8_code_points t3
        end
      end
    end
  end.

Definition utf16_units (cp : N) : list N :=
  if (cp <? 65536)%N then [cp]
  else [(55296 + (cp - 65536) / 1024)%N; (56320 + (cp - 65536) mod 1024)%N].

Definition lit (s : string) : t :=
  flat_map utf16_units
    (utf8_code_points (map (fun a => N_of_ascii a) (list_ascii_of_string s))).

(** The line feed of a template literal's line break and of [\n]. *)
Definition LF : t := [10%N].

(** [Array.prototype.join] on an array of strings. *)
Fixpoint join (sep : t) (parts : list t) : t :=
  match parts with
  | [] => []
  | [p] => p
  | p :: rest => p ++ sep ++ join sep rest
  end.

(** A multi-line template literal, given line by line. *)
Definition lines (ls : list t) : t := join LF ls.

(** [Number.prototype.toString] of an integer: decimal digits, with a
    leading minus sign for a negative number. *)
Definition of_Z (z : Z) : t := lit (pretty z).

(** Beyond [2 ^ 53] not every integer is a Number, and a Number is not
    printed with all its digits. The Number next to a positive integer
    is the integer itself when it has at most 53 significant bits, and
    else the integer rounded to 53 bits, a tie going to the even one;
    [None] when the rounding leaves the range of the finite Numbers (the
    Number is then [Infinity]). *)
Definition nearest_number (m : Z) : option Z :=
  let bits := (Z.log2 m + 1)%Z in
  if (bits <=? 53)%Z then Some m
  else
    let shift := (bits - 53)%Z in
    let q := Z.shiftr m shift in
    let r := (m - Z.shiftl q shift)%Z in
    let half := Z.shiftl 1 (shift - 1) in
    let q := if ((half <? r) || ((r =? half) && Z.odd q))%Z%bool
             then (q + 1)%Z else q in
    let x := Z.shiftl q shift in
    if (Z.shiftl 1 1024 <=? x)%Z then None else Some x.

(** The integer with the fewest significant digits that the Number [x]
    is next to, and among several the one closest to [x]. With [k]
    digits, the candidates are the two multiples of [10 ^ (d - k)]
    around [x], where [d] is the number of digits of [x]; 17 digits are
    enough for every Number. *)
Definition shortest_with (x : Z) (d k : nat) : option Z :=
  let unit := (10 ^ Z.of_nat (d - k))%Z in
  let low := (x / unit * unit)%Z in
  let high := (low + unit)%Z in
  let is_next (c : Z) := bool_decide (nearest_number c = Some x) in
  match is_next low, is_next high with
  | true, false => Some low
  | false, true => Some high
  | false, false => None
  | true, true =>
      if (x - low <? high - x)%Z then Some low
      else if (high - x <? x - low)%Z then Some high
      else if Z.even (low / unit) then Some low else Some high
  end.

Fixpoint shortest_from (x : Z) (d : nat) (ks : list nat) : Z :=
  match ks with
  | [] => x
  | k :: rest =>
    match shortest_with x d k with
    | Some c => c
    | None => shortest_from x d rest
    end
  end.

Definition shortest (x : Z) : Z :=
  shortest_from x (length (of_Z x)) (seq 1 17).

Fixpoint without_zeros_in_front (digits : t) : t :=
  match digits with
  | 48%N :: rest => without_zeros_in_front rest
  | _ => digits
  end.

(** [Number.prototype.toString] of the Number that the integer [z]
    stands for: the digits of the shortest integer that the Number is
    next to, in full up to 21 digits and in exponent notation beyond
    (so [1e+21] for [10 ^ 21]), and [Infinity] beyond the range. *)
Definition number_to_string (z : Z) : t :=
  match z with
  | Z0 => lit "0"
  | _ =>
    (if (z <? 0)%Z then lit "-" else []) ++
    match nearest_number (Z.abs z) with
    | None => lit "Infinity"
    | Some x =>
      let c := shortest x in
      let n := length (of_Z c) in
      if bool_decide (n <= 21) then of_Z c
      else
        match of_Z c with
        | [] => []
        | digit :: rest =>
          match reverse (without_zeros_in_front (reverse rest)) with
          | [] => digit :: lit "e+" ++ of_Z (Z.of_nat (n - 1))
          | more =>
              digit :: lit "." ++ more ++ lit "e+" ++ of_Z (Z.of_nat (n - 1))
          end
        end
    end
  end.

(** The Number that the integer stands for is finite. *)
Definition is_finite (z : Z) : bool :=
  match z with
  | Z0 => true
  | _ => bool_decide (is_Some (nearest_number (Z.abs z)))
  end.

(** The white space matched by the regular expression class [\s]. *)
Definition is_white_space (c : N) : bool :=
  (bool_decide (c ∈ [9; 10; 11; 12; 13; 32; 160; 5760; 8232; 8233; 8239;
                     8287; 12288; 65279]%N)
   || ((8192 <=? c) && (c <=? 8202))%N)%bool.

(** [s.replace(/\s+/g, '')]: every run of white space is deleted. *)
Definition remove_white_space (s : t) : t :=
  filter (fun c => is_white_space c = false) s.

End JsString.

Import JsString.

(** ** JavaScript values *)

Module Js.

(** The values this program handles: what [JSON.parse] produces for a
    response body, [undefined], and the members that a plain object
    inherits from [Object.prototype].  Numbers are the integral ones,
    [Num z] being the Number that the numeral of [z] denotes ([z] itself
    up to [2 ^ 53], the Number next to it beyond); an object lists its
    own properties in property order, each key once. *)
Inductive value : Type :=
  | Undefined
  | Null
  | Bool (b : bool)
  | Num (z : Z)
  | Str (s : JsString.t)
  | Arr (items : list value)
  | Obj (props : list (JsString.t * value))
  | Builtin (name : JsString.t).

(** The outcome of evaluating an expression or of awaiting a promise: a
    value, or a thrown [Error] (a rejection) with its [message]. *)
Inductive result (A : Type) : Type :=
  | Return (a : A)
  | Throw (message : JsString.t).
Arguments Return {A} a.
Arguments Throw {A} message.

(** ToBoolean. *)
Definition truthy (v : value) : bool :=
  match v with
  | Undefined | Null => false
  | Bool b => b
  | Num z => negb (z =? 0)%Z
  | Str s => match s with [] => false | _ => true end
  | Arr _ | Obj _ | Builtin _ => true
  end.

(** [a || b] on values that are already evaluated. *)
Definition or_else (a b : value) : value := if truthy a then a else b.

(** The property names every plain object inherits from
    [Object.prototype]; each of them reads as a function, except
    [__proto__], which reads as the prototype object itself. *)
Definition object_prototype_names : list JsString.t :=
  map lit ["constructor"; "__defineGetter__"; "__defineSetter__";
           "hasOwnProperty"; "__lookupGetter__"; "__lookupSetter__";
           "isPrototypeOf"; "propertyIsEnumerable"; "toString"; "valueOf";
           "__proto__"; "toLocaleString"]%string.

Definition own_property (props : list (JsString.t * value)) (k : JsString.t)
  : option value :=
  snd <$> List.find (fun p => bool_decide (fst p = k)) props.

(** [o[k]] for a plain object [o] with own properties [props]: the own
    property, else the inherited member, else [undefined]. *)
Definition obj_get (props : list (JsString.t * value)) (k : JsString.t)
  : value :=
  match own_property props k with
  | Some v => v
  | None => if bool_decide (k ∈ object_prototype_names)
            then Builtin k else Undefined
  end.

(** The property names this program reads with a fixed name. None of them
    is defined by the prototype of a string, number, boolean, array,
    function or plain object. *)
Inductive field : Type :=
  | generated_text | response | text | content | systemPrompt | structure.

Definition field_name (f : field) : JsString.t :=
  match f with
  | generated_text => lit "generated_text"
  | response => lit "response"
  | text => lit "text"
  | content => lit "content"
  | systemPrompt => lit "systemPrompt"
  | structure => lit "structure"
  end.

Definition cannot_read (of_what : JsString.t) (f : field) : JsString.t :=
  lit "Cannot read properties of " ++ of_what ++ lit " (reading '"
    ++ field_name f ++ lit "')".

(** [v.f]: a [TypeError] on [undefined] and [null], the own property of a
    plain object, [undefined] on anything else. *)
Definition get_field (v : value) (f : field) : result value :=
  match v with
  | Undefined => Throw (cannot_read (lit "undefined") f)
  | Null => Throw (cannot_read (lit "null") f)
  | Obj props => Return (obj_get props (field_name f))
  | _ => Return Undefined
  end.

(** [v?.f]. *)
Definition get_field_opt (v : value) (f : field) : result value :=
  match v with
  | Undefined | Null => Return Undefined
  | _ => get_field v f
  end.

(** [a[0]] on an array. *)
Definition first_item (items : list value) : value :=
  match items with
  | [] => Undefined
  | v :: _ => v
  end.

(** ToString, as a template literal applies it to an interpolated value. *)
Fixpoint to_string (v : value) : JsString.t :=
  match v with
  | Undefined => lit "undefined"
  | Null => lit "null"
  | Bool true => lit "true"
  | Bool false => lit "false"
  | Num z => number_to_string z
  | Str s => s
  | Arr items =>
      join (lit ",")
        ((fix each (l : list value) : list JsString.t :=
            match l with
            | [] => []
            | Undefined :: l' | Null :: l' => [] :: each l'
            | x :: l' => to_string x :: each l'
            end) items)
  | Obj _ => lit "[object Object]"
  | Builtin name =>
      if bool_decide (name = lit "__proto__") then lit "[object Object]"
      else if bool_decide (name = lit "constructor")
      then lit "function Object() { [native code] }"
      else lit "function " ++ name ++ lit "() { [native code] }"
  end.

(** The element strings that [Array.prototype.join] concatenates. *)
Definition item_string (v : value) : JsString.t :=
  match v with
  | Undefined | Null => []
  | _ => to_string v
  end.

(** [v.join(sep)]: defined on arrays; on anything else the call fails
    with a [TypeError]. *)
Definition array_join (v : value) (sep : JsString.t) : result JsString.t :=
  match v with
  | Arr items => Return (join sep (map item_string items))
  | Undefined => Throw (lit "Cannot read properties of undefined (reading 'join')")
  | Null => Throw (lit "Cannot read properties of null (reading 'join')")
  | _ => Throw (lit "template.structure.join is not a function")
  end.

End Js.

Import Js.

(** Sequencing of evaluations that may throw. *)
#[export] Instance result_ret : MRet result := fun _ a => Return a.
#[export] Instance result_bind : MBind result := fun _ _ f r =>
  match r with
  | Return a => f a
  | Throw message => Throw message
  end.

(** ** [JSON.stringify] *)

Module Json.

Definition hex_digit (n : N) : N :=
  if (n <? 10)%N then (48 + n)%N else (87 + n)%N.

Definition unicode_escape (c : N) : JsString.t :=
  [92; 117; hex_digit (c / 4096); hex_digit ((c / 256) mod 16);
   hex_digit ((c / 16) mod 16); hex_digit (c mod 16)]%N.

Definition is_high_surrogate (c : N) : bool := ((55296 <=? c) && (c <=? 56319))%N.
Definition is_low_surrogate (c : N) : bool := ((56320 <=? c) && (c <=? 57343))%N.

(** The characters of a quoted JSON string, without the two quotes. *)
Fixpoint escape (s : JsString.t) : JsString.t :=
  match s with
  | [] => []
  | c :: rest =>
    if (c =? 34)%N then [92; 34]%N ++ escape rest
    else if (c =? 92)%N then [92; 92]%N ++ escape rest
    else if (c =? 8)%N then [92; 98]%N ++ escape rest
    else if (c =? 12)%N then [92; 102]%N ++ escape rest
    else if (c =? 10)%N then [92; 110]%N ++ escape rest
    else if (c =? 13)%N then [92; 114]%N ++ escape rest
    else if (c =? 9)%N then [92; 116]%N ++ escape rest
    else if (c <? 32)%N then unicode_escape c ++ escape rest
    else if is_high_surrogate c then
      match rest with
      | d :: rest' =>
        if is_low_surrogate d then c :: d :: escape rest'
        else unicode_escape c ++ escape rest
      | [] => unicode_escape c
      end
    else if is_low_surrogate c then unicode_escape c ++ escape rest
    else c :: escape rest
  end.

Definition quote (s : JsString.t) : JsString.t := [34%N] ++ escape s ++ [34%N].

(** The serialization of a value, [None] where [JSON.stringify] gives
    [undefined] (for [undefined] and for a function). *)
Fixpoint serialize (v : value) : option JsString.t :=
  match v with
  | Undefined => None
  | Null => Some (lit "null")
  | Bool true => Some (lit "true")
  | Bool false => Some (lit "false")
  | Num z => Some (if is_finite z then number_to_string z else lit "null")
  | Str s => Some (quote s)
  | Arr items =>
      Some (lit "[" ++
            join (lit ",")
              ((fix each (l : list value) : list JsString.t :=
                  match l with
                  | [] => []
                  | x :: l' =>
                      match serialize x with
                      | Some s => s
                      | None => lit "null"
                      end :: each l'
                  end) items)
            ++ lit "]")
  | Obj props =>
      Some (lit "{" ++
            join (lit ",")
              ((fix each (l : list (JsString.t * value)) : list JsString.t :=
                  match l with
                  | [] => []
                  | (k, x) :: l' =>
                      match serialize x with
                      | Some s => (quote k ++ lit ":" ++ s) :: each l'
                      | None => each l'
                      end
                  end) props)
            ++ lit "}")
  | Builtin name =>
      if bool_decide (name = lit "__proto__") then Some (lit "{}") else None
  end.

Definition stringify (v : value) : value :=
  match serialize v with
  | Some s => Str s
  | None => Undefined
  end.

End Json.

(** ** The [node-cache] store

    [new NodeCache({ stdTTL: 3600 })]: a key-value store in process memory
    in which every entry carries the time at which it expires. *)

Module NodeCache.

Record entry : Type := { v : value; t : N }.

(** Seconds an entry lives, counted from the [set] that wrote it. *)
Definition stdTTL : N := 3600.

(** The time stamp that [set] gives an entry written at time [now]
    (milliseconds). *)
Definition livetime (now : N) : N := (now + stdTTL * 1000)%N.

(** An entry is dropped by the first [get] that finds it past its time
    stamp. A time stamp of [0] means that the entry never expires. *)
Definition expired (e : entry) (now : N) : bool :=
  (negb (t e =? 0) && (t e <? now))%N.

Definition get (key : JsString.t) (now : N) (data : gmap JsString.t entry)
  : value * gmap JsString.t entry :=
  match data !! key with
  | Some e => if expired e now then (Undefined, delete key data) else (v e, data)
  | None => (Undefined, data)
  end.

Definition set (key : JsString.t) (val : value) (now : N)
    (data : gmap JsString.t entry) : gmap JsString.t entry :=
  <[key := {| v := val; t := livetime now |}]> data.

(** The periodic check ([checkperiod]) deletes the expired entries. *)
Definition checkData (now : N) (data : gmap JsString.t entry)
  : gmap JsString.t entry :=
  filter (fun kv => expired (snd kv) now = false) data.

End NodeCache.

(** ** The service: [class AIService] *)

Module AIService.

Record Provider : Type :=
  { name : JsString.t;
    url : JsString.t;
    headers : list (JsString.t * JsString.t);
    enabled : bool }.

(** The instance state that varies: the provider list, which the
    constructor fills and whose [enabled] flags an operator may flip. *)
Record AIService : Type := { providers : list Provider }.

Definition constructor : AIService :=
  {| providers :=
       [ {| name := lit "huggingface";
            url := lit "https://api-inference.huggingface.co/models/microsoft/DialoGPT-medium";
            headers := [];
            enabled := true |};
         {| name := lit "ollama-proxy";
            url := lit "https://ollama-proxy.vercel.app/api/generate";
            headers := [(lit "Content-Type", lit "application/json")];
            enabled := true |};
         {| name := lit "local-llm";
            url := lit "http://localhost:11434/api/generate";
            headers := [(lit "Content-Type", lit "application/json")];
            enabled := false |} ] |}.

(** A content template object: [{ systemPrompt, structure }]. *)
Definition template_object (sp : string) (sections : list string) : value :=
  Obj [(lit "systemPrompt", Str (lit sp));
       (lit "structure", Arr (map (fun s => Str (lit s)) sections))].

(** [this.contentTemplates], [this.toneModifiers] and
    [this.languageInstructions]: the own properties of three object
    literals that the constructor builds and nothing changes. *)
Definition contentTemplates : list (JsString.t * value) :=
  [ (lit "presentation",
     template_object
       "You are an expert presentation creator. Create a comprehensive slide deck with clear structure, engaging content, and professional formatting. Include slide titles, bullet points, and speaker notes. Format as markdown with clear slide separations."
       ["Introduction"; "Problem/Opportunity"; "Solution"; "Benefits";
        "Implementation"; "Conclusion"]%string);
    (lit "document",
     template_object
       "You are a professional document writer. Create well-structured, informative documents with proper headings, sections, and detailed content. Use professional language and clear formatting."
       ["Executive Summary"; "Introduction"; "Main Content"; "Analysis";
        "Recommendations"; "Conclusion"]%string);
    (lit "social",
     template_object
       "You are a social media expert. Create engaging, viral-worthy posts with hooks, value, and appropriate hashtags. Keep it concise but impactful."
       ["Hook"; "Value Proposition"; "Call to Action"; "Hashtags"]%string);
    (lit "blog",
     template_object
       "You are a content marketing expert. Write compelling blog posts with SEO optimization, engaging headlines, and valuable insights. Include introduction, main points, and conclusion."
       ["Headline"; "Introduction"; "Main Points"; "Examples"; "Conclusion";
        "Call to Action"]%string);
    (lit "email",
     template_object
       "You are an email marketing specialist. Create persuasive, well-structured emails that drive engagement and conversions. Include subject line and clear call to action."
       ["Subject Line"; "Opening"; "Value Proposition"; "Benefits";
        "Call to Action"; "Closing"]%string) ].

Definition toneModifiers : list (JsString.t * value) :=
  [ (lit "professional", Str (lit "Use a professional, business-appropriate tone with formal language."));
    (lit "casual", Str (lit "Use a casual, friendly, and conversational tone that feels approachable."));
    (lit "creative", Str (lit "Use a creative, innovative, and inspiring tone that sparks imagination."));
    (lit "persuasive", Str (lit "Use a persuasive, compelling, and action-oriented tone that motivates."));
    (lit "informative", Str (lit "Use an informative, educational, and clear tone that teaches."));
    (lit "humorous", Str (lit "Use a humorous, light-hearted, and entertaining tone that engages.")) ].

Definition languageInstructions : list (JsString.t * value) :=
  [ (lit "english", Str []);
    (lit "spanish", Str (lit "Write the entire content in Spanish (Español)."));
    (lit "french", Str (lit "Write the entire content in French (Français)."));
    (lit "german", Str (lit "Write the entire content in German (Deutsch)."));
    (lit "chinese", Str (lit "Write the entire content in Chinese (中文)."));
    (lit "japanese", Str (lit "Write the entire content in Japanese (日本語)."));
    (lit "portuguese", Str (lit "Write the entire content in Portuguese (Português).")) ].

(** *** [hashString] *)

(** ToInt32: the signed 32-bit integer congruent to [z] modulo [2^32]. *)
Definition to_int32 (z : Z) : Z := ((z + 2 ^ 31) mod 2 ^ 32 - 2 ^ 31)%Z.

(** One round of the loop: [hash = ((hash << 5) - hash) + char;
    hash = hash & hash]. The shift and the [&] work on 32-bit integers;
    the subtraction and the addition are exact. *)
Definition hash_round (hash : Z) (char : N) : Z :=
  let hash := (to_int32 (Z.shiftl (to_int32 hash) 5) - hash + Z.of_N char)%Z in
  to_int32 (Z.land (to_int32 hash) (to_int32 hash)).

Definition hash_code (str : JsString.t) : Z := fold_left hash_round str 0%Z.

Definition hashString (str : JsString.t) : JsString.t := of_Z (hash_code str).

(** *** [buildPrompt] *)

Definition buildPrompt (userPrompt : JsString.t) (template : value)
    (language tone : JsString.t) : result JsString.t :=
  let languageInstruction := or_else (obj_get languageInstructions language) (Str []) in
  let toneInstruction := or_else (obj_get toneModifiers tone) (Str []) in
  sp ← get_field template systemPrompt;
  st ← get_field template structure;
  sections ← array_join st (lit " → ");
  mret (lines [
      to_string sp;
      [];
      to_string languageInstruction;
      to_string toneInstruction;
      [];
      lit "Topic: " ++ userPrompt;
      [];
      lit "Please create high-quality content following this structure: " ++ sections;
      [];
      lit "Make it comprehensive, engaging, and actionable."
    ]).

(** *** [parseResponse] *)

Definition parseResponse (data : value) (providerName : JsString.t)
  : result value :=
  let parsed : result value :=
    if bool_decide (providerName = lit "huggingface") then
      match data with
      | Arr items => get_field_opt (first_item items) generated_text
      | _ => get_field data generated_text
      end
    else if bool_decide (providerName = lit "ollama-proxy"
                         \/ providerName = lit "local-llm") then
      r ← get_field data response;
      if truthy r then mret r else get_field data text
    else
      c ← get_field data content;
      if truthy c then mret c else
      x ← get_field data text;
      if truthy x then mret x else mret (Json.stringify data)
  in
  match parsed with
  | Return v => Return v
  | Throw _ => Throw (lit "Failed to parse response from " ++ providerName)
  end.

(** *** The fallback templates *)

Definition generatePresentationTemplate (prompt language tone : JsString.t)
  : JsString.t :=
  let prefix :=
    if bool_decide (language <> lit "english")
    then lit "[Content in " ++ language ++ lit "]" ++ LF ++ LF else [] in
  let toneNote :=
    if bool_decide (tone <> lit "professional")
    then lit "[" ++ tone ++ lit " tone]" ++ LF ++ LF else [] in
  lines [
    prefix ++ toneNote ++ lit "# " ++ prompt;
    [];
    lit "## 🎯 Slide 1: Introduction";
    lit "• Welcome to " ++ prompt;
    lit "• Key objectives and goals";
    lit "• Agenda overview";
    [];
    lit "## 📊 Slide 2: Current Situation";
    lit "• Market analysis and trends";
    lit "• Challenges and opportunities";
    lit "• Key statistics and insights";
    [];
    lit "## 💡 Slide 3: Our Approach";
    lit "• Innovative solution";
    lit "• Unique value proposition";
    lit "• Competitive advantages";
    [];
    lit "## 🚀 Slide 4: Implementation";
    lit "• Step-by-step roadmap";
    lit "• Timeline and milestones";
    lit "• Resource requirements";
    [];
    lit "## 📈 Slide 5: Expected Results";
    lit "• Projected outcomes";
    lit "• Success metrics";
    lit "• ROI analysis";
    [];
    lit "## 🎯 Slide 6: Next Steps";
    lit "• Immediate actions";
    lit "• Long-term strategy";
    lit "• Call to action";
    [];
    lit "---";
    lit "*Generated by AI Content Creator Pro*"
  ].

Definition generateDocumentTemplate (prompt language tone : JsString.t)
  : JsString.t :=
  let prefix :=
    if bool_decide (language <> lit "english")
    then lit "[Content in " ++ language ++ lit "]" ++ LF ++ LF else [] in
  let toneNote :=
    if bool_decide (tone <> lit "professional")
    then lit "[" ++ tone ++ lit " tone]" ++ LF ++ LF else [] in
  lines [
    prefix ++ toneNote ++ lit "# " ++ prompt;
    [];
    lit "## Executive Summary";
    lit "This comprehensive document explores " ++ prompt ++ lit ", providing detailed analysis, insights, and actionable recommendations for stakeholders.";
    [];
    lit "## 1. Introduction";
    lit "In today's rapidly evolving landscape, " ++ prompt ++ lit " has become increasingly critical for organizations seeking competitive advantage and sustainable growth.";
    [];
    lit "## 2. Background Analysis";
    lit "### Current Market Conditions";
    lit "• Industry trends and developments";
    lit "• Competitive landscape overview";
    lit "• Regulatory environment";
    [];
    lit "### Key Challenges";
    lit "• Primary obstacles and barriers";
    lit "• Resource constraints";
    lit "• Technical limitations";
    [];
    lit "## 3. Strategic Approach";
    lit "### Methodology";
    lit "Our approach to " ++ prompt ++ lit " incorporates best practices, innovative solutions, and proven frameworks.";
    [];
    lit "### Implementation Framework";
    lit "• Phase 1: Assessment and planning";
    lit "• Phase 2: Development and testing";
    lit "• Phase 3: Deployment and optimization";
    [];
    lit "## 4. Recommendations";
    lit "### Immediate Actions";
    lit "1. Conduct comprehensive assessment";
    lit "2. Develop detailed implementation plan";
    lit "3. Secure necessary resources";
    [];
    lit "### Long-term Strategy";
    lit "• Continuous improvement processes";
    lit "• Performance monitoring systems";
    lit "• Scalability considerations";
    [];
    lit "## 5. Conclusion";
    lit "Successful implementation of " ++ prompt ++ lit " requires strategic planning, dedicated resources, and ongoing commitment to excellence.";
    [];
    lit "---";
    lit "*Generated by AI Content Creator Pro*"
  ].

Definition generateSocialTemplate (prompt language tone : JsString.t)
  : JsString.t :=
  let prefix :=
    if bool_decide (language <> lit "english")
    then lit "[Content in " ++ language ++ lit "]" ++ LF ++ LF else [] in
  let toneNote :=
    if bool_decide (tone <> lit "professional")
    then lit "[" ++ tone ++ lit " tone]" ++ LF ++ LF else [] in
  lines [
    prefix ++ toneNote ++ lit "🚀 Ready to transform your approach to " ++ prompt ++ lit "? Here's what you need to know! 👇";
    [];
    lit "✨ The game is changing, and those who adapt will thrive. " ++ prompt ++ lit " isn't just a trend—it's the future.";
    [];
    lit "🔥 Key insights:";
    lit "• Innovation drives success";
    lit "• Early adopters win big";
    lit "• Action beats perfection";
    [];
    lit "💡 Pro tip: Start small, think big, move fast!";
    [];
    lit "👉 What's your experience with " ++ prompt ++ lit "? Share in the comments!";
    [];
    lit "#Innovation #" ++ remove_white_space prompt ++ lit " #Success #Growth #Future #Trending #GameChanger #Leadership";
    [];
    lit "---";
    lit "*Created with AI Content Creator Pro*"
  ].

Definition generateBlogTemplate (prompt language tone : JsString.t)
  : JsString.t :=
  let prefix :=
    if bool_decide (language <> lit "english")
    then lit "[Content in " ++ language ++ lit "]" ++ LF ++ LF else [] in
  let toneNote :=
    if bool_decide (tone <> lit "professional")
    then lit "[" ++ tone ++ lit " tone]" ++ LF ++ LF else [] in
  lines [
    prefix ++ toneNote ++ lit "# The Ultimate Guide to " ++ prompt ++ lit ": Everything You Need to Know";
    [];
    lit "## Introduction";
    lit "In today's fast-paced world, understanding " ++ prompt ++ lit " has become essential for anyone looking to stay ahead of the curve. This comprehensive guide will walk you through everything you need to know.";
    [];
    lit "## Why " ++ prompt ++ lit " Matters Now More Than Ever";
    lit "The landscape is shifting rapidly, and " ++ prompt ++ lit " is at the center of this transformation. Here's why it should be on your radar:";
    [];
    lit "• **Market Demand**: Growing interest and adoption";
    lit "• **Competitive Advantage**: Early movers gain significant benefits";
    lit "• **Future-Proofing**: Essential for long-term success";
    [];
    lit "## Getting Started with " ++ prompt;
    lit "### Step 1: Understanding the Basics";
    lit "Before diving deep, it's crucial to grasp the fundamental concepts and principles.";
    [];
    lit "### Step 2: Assessing Your Current Situation";
    lit "Evaluate where you stand and identify areas for improvement.";
    [];
    lit "### Step 3: Creating Your Action Plan";
    lit "Develop a strategic approach tailored to your specific needs.";
    [];
    lit "## Best Practices and Pro Tips";
    lit "1. **Start with clear objectives**";
    lit "2. **Focus on quality over quantity**";
    lit "3. **Measure and optimize continuously**";
    lit "4. **Stay updated with latest trends**";
    [];
    lit "## Common Mistakes to Avoid";
    lit "• Rushing the implementation process";
    lit "• Ignoring user feedback";
    lit "• Underestimating resource requirements";
    lit "• Failing to plan for scalability";
    [];
    lit "## Conclusion";
    prompt ++ lit " represents a significant opportunity for growth and innovation. By following the strategies outlined in this guide, you'll be well-positioned to succeed.";
    [];
    lit "**Ready to get started?** The time to act is now!";
    [];
    lit "---";
    lit "*Published with AI Content Creator Pro*"
  ].

Definition generateEmailTemplate (prompt language tone : JsString.t)
  : JsString.t :=
  let prefix :=
    if bool_decide (language <> lit "english")
    then lit "[Content in " ++ language ++ lit "]" ++ LF ++ LF else [] in
  let toneNote :=
    if bool_decide (tone <> lit "professional")
    then lit "[" ++ tone ++ lit " tone]" ++ LF ++ LF else [] in
  lines [
    prefix ++ toneNote ++ lit "Subject: 🚀 Transform Your Approach to " ++ prompt ++ lit " (Limited Time)";
    [];
    lit "Hi [Name],";
    [];
    lit "I hope this email finds you well. I'm reaching out because I believe you'd be interested in the latest developments around " ++ prompt ++ lit ".";
    [];
    lit "**Here's what's happening:**";
    [];
    lit "The industry is rapidly evolving, and those who adapt quickly are seeing remarkable results. Companies implementing " ++ prompt ++ lit " strategies are reporting:";
    [];
    lit "✅ Increased efficiency by 40%";
    lit "✅ Higher customer satisfaction scores";
    lit "✅ Significant competitive advantages";
    [];
    lit "**But here's the challenge...**";
    [];
    lit "Most organizations are still struggling with outdated approaches. They're missing out on incredible opportunities because they haven't embraced " ++ prompt ++ lit ".";
    [];
    lit "**The good news?**";
    [];
    lit "You don't have to be one of them. We've developed a proven framework that makes " ++ prompt ++ lit " implementation straightforward and effective.";
    [];
    lit "**What makes this different:**";
    lit "• Step-by-step guidance";
    lit "• Proven results";
    lit "• Ongoing support";
    lit "• Risk-free guarantee";
    [];
    lit "**Ready to learn more?**";
    [];
    lit "I'd love to show you exactly how this works. Would you be available for a brief 15-minute call this week?";
    [];
    lit "Simply reply to this email with your preferred time, and I'll send over a calendar link.";
    [];
    lit "Best regards,";
    lit "[Your Name]";
    [];
    lit "P.S. This opportunity won't be available forever. The companies that act now will have a significant head start over their competition.";
    [];
    lit "---";
    lit "*Crafted with AI Content Creator Pro*"
  ].

Definition generateFallbackContent (prompt contentType language tone : JsString.t)
  : value :=
  let templates :=
    [ (lit "presentation", Str (generatePresentationTemplate prompt language tone));
      (lit "document", Str (generateDocumentTemplate prompt language tone));
      (lit "social", Str (generateSocialTemplate prompt language tone));
      (lit "blog", Str (generateBlogTemplate prompt language tone));
      (lit "email", Str (generateEmailTemplate prompt language tone)) ] in
  or_else (obj_get templates contentType) (obj_get templates (lit "document")).

(** *** The world outside the service *)

(** The body of a request that [callProvider] posts. *)
Inductive RequestData : Type :=
  | InputsParameters (inputs : JsString.t) (max_length : Z)
      (temperature_tenths : Z) (do_sample : bool)
  | ModelPrompt (model prompt : JsString.t) (stream : bool).

(** One call [axios.post(url, data, { headers, timeout })]. *)
Record Post : Type :=
  { post_url : JsString.t;
    post_data : RequestData;
    post_headers : list (JsString.t * JsString.t);
    post_timeout : N }.

(** What awaiting the call gives: the promise resolves with a response,
    of which the code reads [data], or it rejects (network error, status
    outside 2xx, timeout) with an error [message]. *)
Inductive Outcome : Type :=
  | Resolved (data : value)
  | Rejected (message : JsString.t).

(** The remote side: from the calls made so far, the time of the call and
    the call itself to its outcome and the milliseconds it took. *)
Definition Network : Type := list Post -> N -> Post -> Outcome * N.

(** The module-level [cache], the clock ([Date.now()], milliseconds), the
    calls posted so far, and the lines written by [console.warn]. *)
Record World : Type :=
  { cache : gmap JsString.t NodeCache.entry;
    now : N;
    posted : list Post;
    console : list JsString.t }.

Definition cache_get (key : JsString.t) (w : World) : value * World :=
  let '(val, data) := NodeCache.get key (now w) (cache w) in
  (val, {| cache := data; now := now w; posted := posted w; console := console w |}).

Definition cache_set (key : JsString.t) (val : value) (w : World) : World :=
  {| cache := NodeCache.set key val (now w) (cache w);
     now := now w; posted := posted w; console := console w |}.

Definition console_warn (line : JsString.t) (w : World) : World :=
  {| cache := cache w; now := now w; posted := posted w;
     console := console w ++ [line] |}.

Definition axios_post (net : Network) (p : Post) (w : World) : Outcome * World :=
  let '(outcome, elapsed) := net (posted w) (now w) p in
  (outcome,
   {| cache := cache w; now := (now w + elapsed)%N;
      posted := posted w ++ [p]; console := console w |}).

(** *** [callProvider] *)

(** The [switch] on [provider.name] that builds [requestData]. *)
Definition requestData (providerName prompt : JsString.t) : result RequestData :=
  if bool_decide (providerName = lit "huggingface") then
    Return (InputsParameters prompt 2000 7 true)
  else if bool_decide (providerName = lit "ollama-proxy") then
    Return (ModelPrompt (lit "llama2") prompt false)
  else if bool_decide (providerName = lit "local-llm") then
    Return (ModelPrompt (lit "llama2") prompt false)
  else Throw (lit "Unknown provider: " ++ providerName).

Definition callProvider (net : Network) (provider : Provider)
    (prompt : JsString.t) (w : World) : result value * World :=
  let timeout := 30000%N in
  let failed (message : JsString.t) : result value :=
    Throw (name provider ++ lit " API call failed: " ++ message) in
  match requestData (name provider) prompt with
  | Throw message => (failed message, w)
  | Return data =>
    let '(outcome, w) :=
      axios_post net
        {| post_url := url provider; post_data := data;
           post_headers := headers provider; post_timeout := timeout |} w in
    match outcome with
    | Rejected message => (failed message, w)
    | Resolved body =>
      match parseResponse body (name provider) with
      | Return v => (Return v, w)
      | Throw message => (failed message, w)
      end
    end
  end.

(** *** [generateContent] *)

Record GenerationRequest : Type :=
  { prompt : JsString.t;
    contentType : JsString.t;
    language : option JsString.t;
    tone : option JsString.t }.

(** The [for ... of] loop over the enabled providers: [Some result] when
    a provider gave a truthy result, which is then already cached, and
    [None] when the loop ran to its end. *)
Fixpoint try_providers (net : Network) (ps : list Provider)
    (cacheKey fullPrompt : JsString.t) (w : World) : option value * World :=
  match ps with
  | [] => (None, w)
  | provider :: rest =>
    match callProvider net provider fullPrompt w with
    | (Return result, w) =>
      if truthy result then (Some result, cache_set cacheKey result w)
      else try_providers net rest cacheKey fullPrompt w
    | (Throw message, w) =>
      try_providers net rest cacheKey fullPrompt
        (console_warn (lit "Provider " ++ name provider ++ lit " failed: "
                       ++ message) w)
    end
  end.

Definition cacheKey_of (contentType language tone prompt : JsString.t)
  : JsString.t :=
  contentType ++ lit "-" ++ language ++ lit "-" ++ tone ++ lit "-"
    ++ hashString prompt.

Definition generateContent (net : Network) (this : AIService)
    (request : GenerationRequest) (w : World) : result value * World :=
  let prompt := prompt request in
  let contentType := contentType request in
  let language := default (lit "english") (language request) in
  let tone := default (lit "professional") (tone request) in
  let cacheKey := cacheKey_of contentType language tone prompt in
  let '(cached, w) := cache_get cacheKey w in
  if truthy cached then (Return cached, w) else
  let template :=
    or_else (obj_get contentTemplates contentType)
            (obj_get contentTemplates (lit "document")) in
  match buildPrompt prompt template language tone with
  | Throw message => (Throw message, w)
  | Return fullPrompt =>
    match try_providers net (List.filter enabled (providers this))
            cacheKey fullPrompt w with
    | (Some result, w) => (Return result, w)
    | (None, w) =>
      let fallbackResult :=
        generateFallbackContent prompt contentType language tone in
      (Return fallbackResult, cache_set cacheKey fallbackResult w)
    end
  end.

End AIService.

Import AIService.

(** ** Vocabulary of the properties *)

Arguments lit : simpl never.

(** The values of the three enumerations of a generation request. *)
Definition content_types : list JsString.t :=
  map lit ["presentation"; "document"; "social"; "blog"; "email"]%string.

Definition languages : list JsString.t :=
  map lit ["english"; "spanish"; "french"; "german"; "chinese"; "japanese";
           "portuguese"]%string.

Definition tones : list JsString.t :=
  map lit ["professional"; "casual"; "creative"; "persuasive"; "informative";
           "humorous"]%string.

(** The language and the tone of a request once the defaults of the
    parameter list are filled in. *)
Definition language_of (request : GenerationRequest) : JsString.t :=
  default (lit "english") (language request).

Definition tone_of (request : GenerationRequest) : JsString.t :=
  default (lit "professional") (tone request).

(** A well-formed request: every field is in its enumeration, the two
    optional ones when they are given. *)
Definition well_formed (request : GenerationRequest) : Prop :=
  contentType request ∈ content_types
  /\ language_of request ∈ languages
  /\ tone_of request ∈ tones.

(** The cache key that [generateContent] computes for a request. *)
Definition fingerprint (request : GenerationRequest) : JsString.t :=
  cacheKey_of (contentType request) (language_of request) (tone_of request)
    (prompt request).

(** [needle] occurs in [s]. *)
Definition occurs_in (needle s : JsString.t) : Prop :=
  exists before after, s = before ++ needle ++ after.

Definition is_string (x : value) : Prop := exists s, x = Str s.

(** A process that has just started: nothing cached, nothing posted. *)
Definition start (time : N) : World :=
  {| cache := ∅; now := time; posted := []; console := [] |}.

(** Time passing between two requests. *)
Definition later (elapsed : N) (w : World) : World :=
  {| cache := cache w; now := (now w + elapsed)%N; posted := posted w;
     console := console w |}.

(** The periodic check of the cache running between two requests. *)
Definition checked (w : World) : World :=
  {| cache := NodeCache.checkData (now w) (cache w); now := now w;
     posted := posted w; console := console w |}.

(** The worlds a process can be in: it starts with an empty cache, and
    from then on requests are served, time passes and the cache runs its
    periodic check. Only [generateContent] reads and writes the cache. *)
Inductive reachable (net : Network) (this : AIService) : World -> Prop :=
  | reachable_start time : reachable net this (start time)
  | reachable_served w request :
      reachable net this w ->
      reachable net this (snd (generateContent net this request w))
  | reachable_later w elapsed :
      reachable net this w -> reachable net this (later elapsed w)
  | reachable_checked w :
      reachable net this w -> reachable net this (checked w).

(** Every cached value is truthy. *)
Definition cache_truthy (w : World) : Prop :=
  forall key e, cache w !! key = Some e -> truthy (NodeCache.v e) = true.

(** A provider call fails when it throws or resolves to a falsy value. *)
Definition call_fails (r : result value) : Prop :=
  match r with
  | Return x => truthy x = false
  | Throw _ => True
  end.

(** *** Requests and their prompts *)

(** The template that [generateContent] resolves for a content type, and
    the prompt that it builds for a request. *)
Definition resolve_template (contentType : JsString.t) : value :=
  or_else (obj_get contentTemplates contentType)
          (obj_get contentTemplates (lit "document")).

Definition full_prompt (request : GenerationRequest) : result JsString.t :=
  buildPrompt (prompt request) (resolve_template (contentType request))
    (language_of request) (tone_of request).

(** A content template with the given preamble and section names. *)
Definition template_of (sp : JsString.t) (sections : list JsString.t) : value :=
  Obj [(lit "systemPrompt", Str sp); (lit "structure", Arr (map Str sections))].

(** The two directives that [buildPrompt] writes into the prompt. *)
Definition language_directive (language : JsString.t) : JsString.t :=
  to_string (or_else (obj_get languageInstructions language) (Str [])).

Definition tone_directive (tone : JsString.t) : JsString.t :=
  to_string (or_else (obj_get toneModifiers tone) (Str [])).

(** *** Fallback content *)

(** The fallback content of a request. *)
Definition fallback_of (request : GenerationRequest) : value :=
  generateFallbackContent (prompt request) (contentType request)
    (language_of request) (tone_of request).

(** The two marker lines, as the specification words them: a bracketed
    line and an empty line, present unless the language is english,
    respectively unless the tone is professional. *)
Definition language_marker (language : JsString.t) : JsString.t :=
  if bool_decide (language = lit "english") then []
  else lit "[Content in " ++ language ++ lit "]" ++ LF ++ LF.

Definition tone_marker (tone : JsString.t) : JsString.t :=
  if bool_decide (tone = lit "professional") then []
  else lit "[" ++ tone ++ lit " tone]" ++ LF ++ LF.

(** The five generators of fallback content. *)
Definition generators
  : list (JsString.t -> JsString.t -> JsString.t -> JsString.t) :=
  [generatePresentationTemplate; generateDocumentTemplate;
   generateSocialTemplate; generateBlogTemplate; generateEmailTemplate].

(** The generator that the dispatch on the content type selects: the
    document generator for a content type outside the five. *)
Definition generator_for (contentType : JsString.t)
  : JsString.t -> JsString.t -> JsString.t -> JsString.t :=
  if bool_decide (contentType = lit "presentation") then generatePresentationTemplate
  else if bool_decide (contentType = lit "social") then generateSocialTemplate
  else if bool_decide (contentType = lit "blog") then generateBlogTemplate
  else if bool_decide (contentType = lit "email") then generateEmailTemplate
  else generateDocumentTemplate.

(** *** Providers and the network *)

(** The names that the two [switch] statements know. *)
Definition provider_names : list JsString.t :=
  map lit ["huggingface"; "ollama-proxy"; "local-llm"]%string.

(** The providers that the loop goes through. *)
Definition enabled_providers (this : AIService) : list Provider :=
  List.filter enabled (providers this).

(** The call that [callProvider] posts for a provider: none for a
    provider whose name the [switch] does not know. *)
Definition post_of (fullPrompt : JsString.t) (provider : Provider) : option Post :=
  match requestData (name provider) fullPrompt with
  | Return data =>
      Some {| post_url := url provider; post_data := data;
              post_headers := headers provider; post_timeout := 30000 |}
  | Throw _ => None
  end.

(** The world that a failed call leaves to the next provider: an error
    that was thrown has been reported on the console. *)
Definition after_failure (provider : Provider) (r : result value) (w : World)
  : World :=
  match r with
  | Return _ => w
  | Throw message =>
      console_warn (lit "Provider " ++ name provider ++ lit " failed: "
                    ++ message) w
  end.

(** A run of calls, one provider after the other, that all fail: from
    the world before the first call to the world after the last. *)
Inductive failed_run (net : Network) (fullPrompt : JsString.t)
  : list Provider -> World -> World -> Prop :=
  | failed_run_nil w : failed_run net fullPrompt [] w w
  | failed_run_cons p ps w r w1 w2 :
      callProvider net p fullPrompt w = (r, w1) ->
      call_fails r ->
      failed_run net fullPrompt ps (after_failure p r w1) w2 ->
      failed_run net fullPrompt (p :: ps) w w2.

(** Whatever a provider call returns that is truthy is a string. *)
Definition string_results (net : Network) : Prop :=
  forall p fullPrompt w r, fst (callProvider net p fullPrompt w) = Return r ->
    truthy r = true -> is_string r.

(** A network on which every call resolves with the same body, and one on
    which every call is rejected. *)
Definition answering (body : value) (elapsed : N) : Network :=
  fun _ _ _ => (Resolved body, elapsed).

Definition rejecting (message : JsString.t) (elapsed : N) : Network :=
  fun _ _ _ => (Rejected message, elapsed).

(** *** The cache *)

(** The request misses the cache: the lookup of its key gives nothing
    truthy. *)
Definition cache_miss (request : GenerationRequest) (w : World) : Prop :=
  truthy (fst (cache_get (fingerprint request) w)) = false.

(** Every cached value is a string. *)
Definition cache_strings (w : World) : Prop :=
  forall key e, cache w !! key = Some e -> is_string (NodeCache.v e).

(** The entries that a cache holds under a key. *)
Definition entries_under (key : JsString.t)
    (data : gmap JsString.t NodeCache.entry)
  : list (JsString.t * NodeCache.entry) :=
  filter (fun kv => fst kv = key) (map_to_list data).

(** *** Running examples *)

(** Two requests for the same topic. *)
Definition blog_request : GenerationRequest :=
  {| prompt := lit "renewable energy adoption"; contentType := lit "blog";
     language := None; tone := None |}.

Definition spanish_blog_request : GenerationRequest :=
  {| prompt := lit "renewable energy adoption"; contentType := lit "blog";
     language := Some (lit "spanish"); tone := Some (lit "casual") |}.

(** Two response bodies in the shape of the first provider: one with a
    number where the text should be, one with a text. *)
Definition number_body : value := Arr [Obj [(lit "generated_text", Num 42)]].

Definition text_body : value :=
  Arr [Obj [(lit "generated_text", Str (lit "Solar and wind are growing."))]].

(** A network on which the first provider of the constructor's list is
    down and the second one answers. *)
Definition second_answers : Network :=
  fun _ _ p =>
    if bool_decide (post_url p = lit "https://ollama-proxy.vercel.app/api/generate")
    then (Resolved (Obj [(lit "response", Str (lit "Wind power grows."))]), 200%N)
    else (Rejected (lit "Request failed with status code 503"), 40%N).

(** The service of the constructor with every provider disabled, and a
    service whose only provider is the first one. *)
Definition all_disabled : AIService :=
  {| providers :=
       map (fun p => {| name := name p; url := url p; headers := headers p;
                        enabled := false |}) (providers constructor) |}.

Definition huggingface_only : AIService :=
  {| providers :=
       [ {| name := lit "huggingface"; url := lit "https://hf.example";
            headers := []; enabled := true |} ] |}.

(** *** More requests and what is posted *)

(** The prompt that a posted request carries. *)
Definition post_prompt (p : Post) : JsString.t :=
  match post_data p with
  | InputsParameters inputs _ _ _ => inputs
  | ModelPrompt _ prompt _ => prompt
  end.

(** The request with another content type. *)
Definition with_contentType (contentType : JsString.t)
    (request : GenerationRequest) : GenerationRequest :=
  {| prompt := prompt request; contentType := contentType;
     language := language request; tone := tone request |}.

(** Two topics with the same hash. *)
Definition topic_Aa : GenerationRequest :=
  {| prompt := lit "Aa"; contentType := lit "blog"; language := None;
     tone := None |}.

Definition topic_BB : GenerationRequest :=
  {| prompt := lit "BB"; contentType := lit "blog"; language := None;
     tone := None |}.

(** Two requests as [/batch] lets them through, which differ in language
    and in tone. *)
Definition hyphenated_request : GenerationRequest :=
  {| prompt := lit "solar power"; contentType := lit "blog";
     language := Some (lit "x-y"); tone := Some (lit "z") |}.

Definition hyphenated_request' : GenerationRequest :=
  {| prompt := lit "solar power"; contentType := lit "blog";
     language := Some (lit "x"); tone := Some (lit "y-z") |}.

(** A request for a content type that is not one of the five. *)
Definition poem_request : GenerationRequest :=
  {| prompt := lit "renewable energy adoption"; contentType := lit "poem";
     language := None; tone := None |}.

(** A request whose content type is the name of a member that every
    object inherits. *)
Definition constructor_request : GenerationRequest :=
  {| prompt := lit "renewable energy adoption";
     contentType := lit "constructor"; language := None; tone := None |}.

(** Every character of the text is in the ASCII range. *)
Definition ascii_only (s : string) : Prop :=
  Forall (fun a => (N_of_ascii a < 128)%N) (list_ascii_of_string s).

(** ** More of JavaScript, for the routes *)

Module JsMore.

(** [s.split(' ')]: the pieces between the spaces; one piece more than
    there are spaces, so one (empty) piece for the empty string. *)
Fixpoint split_on (sep : N) (s : JsString.t) : list JsString.t :=
  match s with
  | [] => [[]]
  | c :: rest =>
    match split_on sep rest with
    | piece :: pieces =>
        if (c =? sep)%N then [] :: piece :: pieces
        else (c :: piece) :: pieces
    | [] => [[]]
    end
  end.

(** [v.split(' ').length], where [v] is written [expression] in the
    source: defined on strings; on [undefined] and [null] reading
    [split] throws, on any other value [split] is not a function (a JSON
    value holds no function). *)
Definition split_length (expression : string) (v : value) : result N :=
  match v with
  | Str s => Return (N.of_nat (length (split_on 32 s)))
  | Undefined => Throw (lit "Cannot read properties of undefined (reading 'split')")
  | Null => Throw (lit "Cannot read properties of null (reading 'split')")
  | _ => Throw (lit expression ++ lit ".split is not a function")
  end.

(** Decimal digits of [n], padded with zeros on the left to [width]. *)
Definition padded (width : nat) (n : N) : JsString.t :=
  let digits := of_Z (Z.of_N n) in
  replicate (width - length digits) 48%N ++ digits.

(** The date of the day that is [days] days after 1 January 1970: year,
    month (1 to 12) and day of the month. *)
Definition civil_of_days (days : N) : N * N * N :=
  let z := (days + 719468)%N in
  let era := (z / 146097)%N in
  let doe := (z mod 146097)%N in
  let yoe := ((doe - doe / 1460 + doe / 36524 - doe / 146096) / 365)%N in
  let doy := (doe - (365 * yoe + yoe / 4 - yoe / 100))%N in
  let mp := ((5 * doy + 2) / 153)%N in
  let d := (doy - (153 * mp + 2) / 5 + 1)%N in
  let m := if (mp <? 10)%N then (mp + 3)%N else (mp - 9)%N in
  let y := (yoe + era * 400 + (if (m <=? 2)%N then 1 else 0))%N in
  (y, m, d).

(** [new Date(ms).toISOString()] for a time at or after the epoch:
    [YYYY-MM-DDTHH:mm:ss.sssZ], the year with a plus sign and six digits
    when it is past 9999. *)
Definition toISOString (ms : N) : JsString.t :=
  let '(y, m, d) := civil_of_days (ms / 86400000) in
  let in_day := (ms mod 86400000)%N in
  (if (y <=? 9999)%N then padded 4 y else lit "+" ++ padded 6 y)
    ++ lit "-" ++ padded 2 m ++ lit "-" ++ padded 2 d ++ lit "T"
    ++ padded 2 (in_day / 3600000) ++ lit ":"
    ++ padded 2 ((in_day / 60000) mod 60) ++ lit ":"
    ++ padded 2 ((in_day / 1000) mod 60) ++ lit "."
    ++ padded 3 (in_day mod 1000) ++ lit "Z".

(** [Date.now().toString()]. *)
Definition time_string (ms : N) : JsString.t := of_Z (Z.of_N ms).

(** The array index that a property key denotes, if it denotes one: the
    decimal numerals below [2^32 - 1], without a leading zero. *)
Definition array_index (k : JsString.t) : option N :=
  if bool_decide (k <> [] /\ Forall (fun c => (48 <= c <= 57)%N) k) then
    let n := fold_left (fun acc c => (10 * acc + (c - 48))%N) k 0%N in
    if bool_decide (k = of_Z (Z.of_N n) /\ (n < 4294967295)%N)
    then Some n else None
  else None.

(** An array index comes before a larger one and before every key that
    is not an array index. *)
Definition goes_before (k k' : JsString.t) : bool :=
  match array_index k, array_index k' with
  | Some i, Some i' => (i <? i')%N
  | Some _, None => true
  | None, _ => false
  end.

Definition has_own (props : list (JsString.t * value)) (k : JsString.t)
  : bool :=
  match own_property props k with
  | Some _ => true
  | None => false
  end.

(** [o[k] = v] on the own properties of a plain object. An existing
    property keeps its place; a new one goes behind the others, except
    that array indices stay in front, in ascending order. *)
Fixpoint set_property (props : list (JsString.t * value)) (k : JsString.t)
    (v : value) : list (JsString.t * value) :=
  match props with
  | [] => [(k, v)]
  | (k', v') :: rest =>
    if bool_decide (k' = k) then (k, v) :: rest
    else if (negb (has_own rest k) && goes_before k k')%bool
    then (k, v) :: (k', v') :: rest
    else (k', v') :: set_property rest k v
  end.

(** The own enumerable properties that a spread [...v] copies. *)
Definition spread_of (v : value) : list (JsString.t * value) :=
  match v with
  | Obj props => props
  | Arr items =>
      imap (fun i x => (of_Z (Z.of_nat i), x)) items
  | Str s => imap (fun i c => (of_Z (Z.of_nat i), Str [c])) s
  | _ => []
  end.

(** [{ ...target, ...v }] on properties already copied into [target]. *)
Definition spread_into (target : list (JsString.t * value)) (v : value)
  : list (JsString.t * value) :=
  fold_left (fun acc kv => set_property acc (fst kv) (snd kv))
    (spread_of v) target.

(** [v[k]] for a value that is an object or an array and a key that no
    array and no prototype defines. *)
Definition member (v : value) (k : JsString.t) : value :=
  match v with
  | Obj props => obj_get props k
  | _ => Undefined
  end.

(** [v === s] for a string [s]. *)
Definition is_string_equal (v : value) (s : JsString.t) : bool :=
  match v with
  | Str s' => bool_decide (s' = s)
  | _ => false
  end.

(** [JSON.stringify(v, null, 2)]: the text with line breaks and two
    spaces of indentation for each level; [None] as for [serialize]. *)
Fixpoint serialize_indented (v : value) (indent : nat) {struct v}
  : option JsString.t :=
  match v with
  | Undefined => None
  | Null => Some (lit "null")
  | Bool true => Some (lit "true")
  | Bool false => Some (lit "false")
  | Num z => Some (if is_finite z then number_to_string z else lit "null")
  | Str s => Some (Json.quote s)
  | Arr items =>
      match items with
      | [] => Some (lit "[]")
      | _ =>
        Some (lit "[" ++ LF ++
              join (lit "," ++ LF)
                ((fix each (l : list value) : list JsString.t :=
                    match l with
                    | [] => []
                    | x :: l' =>
                        (replicate (indent + 2) 32%N ++
                         match serialize_indented x (indent + 2) with
                         | Some s => s
                         | None => lit "null"
                         end) :: each l'
                    end) items)
              ++ LF ++ replicate indent 32%N ++ lit "]")
      end
  | Obj props =>
      match
        (fix each (l : list (JsString.t * value)) : list JsString.t :=
           match l with
           | [] => []
           | (k, x) :: l' =>
               match serialize_indented x (indent + 2) with
               | Some s =>
                   (replicate (indent + 2) 32%N ++ Json.quote k ++ lit ": " ++ s)
                     :: each l'
               | None => each l'
               end
           end) props
      with
      | [] => Some (lit "{}")
      | members =>
          Some (lit "{" ++ LF ++ join (lit "," ++ LF) members
                ++ LF ++ replicate indent 32%N ++ lit "}")
      end
  | Builtin name =>
      if bool_decide (name = lit "__proto__") then Some (lit "{}") else None
  end.

Definition stringify_indented (v : value) : value :=
  match serialize_indented v 0 with
  | Some s => Str s
  | None => Undefined
  end.

(** [s.replace(/[^a-z0-9]/gi, '_')]: every code unit that is not an
    ASCII letter or digit becomes an underscore. *)
Definition is_alphanumeric (c : N) : bool :=
  ((48 <=? c) && (c <=? 57) || (65 <=? c) && (c <=? 90)
   || (97 <=? c) && (c <=? 122))%N%bool.

Definition replace_non_alphanumeric (s : JsString.t) : JsString.t :=
  map (fun c => if is_alphanumeric c then c else 95%N) s.

(** What [toLowerCase] does to a code unit in the ASCII range. *)
Definition ascii_lower (c : N) : N :=
  if ((65 <=? c) && (c <=? 90))%N then (c + 32)%N else c.

(** The property named [k] that was written last. An object that comes
    from [JSON.parse] or from a handler holds each key once, and this is
    then its property [k]. *)
Definition last_own (props : list (JsString.t * value)) (k : JsString.t)
  : option value :=
  own_property (reverse props) k.

End JsMore.

(** ** The content routes: [routes/content.js]

    The handlers of the saved-content routes, each as a function from the
    request and the content store to what the handler sends back and the
    store it leaves. The validation chains in front of a handler are run
    by the [express-validator] library: a handler gets their verdict
    ([validationResult(req)]) and the body as they left it. *)

Module ContentRoutes.

Import JsMore.

(** What a handler reads from the request. *)
Record Request : Type :=
  { body : value;                       (* [req.body] *)
    api_key : option JsString.t;        (* [req.headers['x-api-key']] *)
    id : JsString.t;                    (* [req.params.id] *)
    format : value;                     (* [req.query.format] *)
    errors : list value }.              (* [validationResult(req).array()] *)

(** What a handler does with [res]: the status it sets (200 when it sets
    none), the headers it sets, and the value it hands to [res.json] or
    to [res.send]. *)
Inductive Payload : Type :=
  | Json (v : value)
  | Sent (v : value).

Record Response : Type :=
  { status : N;
    headers : list (JsString.t * JsString.t);
    payload : Payload }.

(** [res.status(code).json({ success: false, error })]. *)
Definition failure (code : N) (error : string) : Response :=
  {| status := code; headers := [];
     payload := Json (Obj [(lit "success", Bool false);
                           (lit "error", Str (lit error))]) |}.

Definition validation_failed (errors : list value) : Response :=
  {| status := 400; headers := [];
     payload := Json (Obj [(lit "success", Bool false);
                           (lit "error", Str (lit "Validation failed"));
                           (lit "details", Arr errors)]) |}.

(** [res.json({ success: true, data })], with a status. *)
Definition success (code : N) (data : value) : Response :=
  {| status := code; headers := [];
     payload := Json (Obj [(lit "success", Bool true); (lit "data", data)]) |}.

(** [!apiKey]: the header is missing or empty. *)
Definition no_api_key (key : option JsString.t) : bool :=
  match key with
  | Some (_ :: _) => false
  | _ => true
  end.

Definition key_of (key : option JsString.t) : JsString.t := default [] key.

(** A field of the destructured body, with its default. *)
Definition with_default (d : value) (v : value) : value :=
  match v with
  | Undefined => d
  | _ => v
  end.

(** [v.length] of a string. *)
Definition string_length (v : value) : value :=
  match v with
  | Str s => Num (Z.of_nat (length s))
  | _ => Undefined
  end.

(** [POST /save]. The clock is read three times: for the id, for
    [createdAt] and for [updatedAt]. *)
Definition save (id_time created updated : N) (req : Request)
    (contentStore : gmap JsString.t value)
  : result Response * gmap JsString.t value :=
  match errors req with
  | _ :: _ => (Return (validation_failed (errors req)), contentStore)
  | [] =>
    match body req with
    | Undefined =>
        (Throw (lit "Cannot destructure property 'title' of 'req.body' as it is undefined."),
         contentStore)
    | Null =>
        (Throw (lit "Cannot destructure property 'title' of 'req.body' as it is null."),
         contentStore)
    | _ =>
      let title := member (body req) (lit "title") in
      let content := member (body req) (lit "content") in
      let contentType := member (body req) (lit "contentType") in
      let language :=
        with_default (Str (lit "english")) (member (body req) (lit "language")) in
      let tone :=
        with_default (Str (lit "professional")) (member (body req) (lit "tone")) in
      let tags := with_default (Arr []) (member (body req) (lit "tags")) in
      if no_api_key (api_key req)
      then (Return (failure 401 "API key required"), contentStore)
      else
        let apiKey := key_of (api_key req) in
        let contentId := time_string id_time in
        match split_length "content" content with
        | Throw message => (Throw message, contentStore)
        | Return wordCount =>
          let savedContent :=
            Obj [ (lit "id", Str contentId); (lit "title", title);
                  (lit "content", content); (lit "contentType", contentType);
                  (lit "language", language); (lit "tone", tone);
                  (lit "tags", tags); (lit "apiKey", Str apiKey);
                  (lit "createdAt", Str (toISOString created));
                  (lit "updatedAt", Str (toISOString updated));
                  (lit "wordCount", Num (Z.of_N wordCount));
                  (lit "characterCount", string_length content) ] in
          (Return (success 201
                     (Obj [ (lit "id", Str contentId); (lit "title", title);
                            (lit "contentType", contentType);
                            (lit "createdAt", Str (toISOString created));
                            (lit "wordCount", Num (Z.of_N wordCount)) ])),
           <[contentId := savedContent]> contentStore)
        end
    end
  end.

(** The three checks that the handlers of [/:id] share: a key must be
    given, the content must exist, and its [apiKey] must be the key. *)
Definition owned_content (req : Request)
    (contentStore : gmap JsString.t value) : Response + value :=
  if no_api_key (api_key req) then inl (failure 401 "API key required")
  else
    match contentStore !! id req with
    | None => inl (failure 404 "Content not found")
    | Some saved =>
      if negb (truthy saved) then inl (failure 404 "Content not found")
      else if negb (is_string_equal (member saved (lit "apiKey"))
                      (key_of (api_key req)))
      then inl (failure 403 "Access denied")
      else inr saved
    end.

(** [GET /:id]. *)
Definition get_content (req : Request)
    (contentStore : gmap JsString.t value)
  : result Response * gmap JsString.t value :=
  match owned_content req contentStore with
  | inl refusal => (Return refusal, contentStore)
  | inr saved =>
      (Return {| status := 200; headers := [];
                 payload := Json (Obj [(lit "success", Bool true);
                                       (lit "data", saved)]) |},
       contentStore)
  end.

(** [PUT /:id]. *)
Definition update_content (updated : N) (req : Request)
    (contentStore : gmap JsString.t value)
  : result Response * gmap JsString.t value :=
  match errors req with
  | _ :: _ => (Return (validation_failed (errors req)), contentStore)
  | [] =>
    let updates := body req in
    match owned_content req contentStore with
    | inl refusal => (Return refusal, contentStore)
    | inr saved =>
      let merged :=
        set_property (spread_into (spread_into [] saved) updates)
          (lit "updatedAt") (Str (toISOString updated)) in
      let counted : result (list (JsString.t * value)) :=
        match updates with
        | Undefined =>
            Throw (lit "Cannot read properties of undefined (reading 'content')")
        | Null =>
            Throw (lit "Cannot read properties of null (reading 'content')")
        | _ =>
          if truthy (member updates (lit "content")) then
            match split_length "updates.content" (member updates (lit "content")) with
            | Throw message => Throw message
            | Return wordCount =>
                Return (set_property
                          (set_property merged (lit "wordCount")
                             (Num (Z.of_N wordCount)))
                          (lit "characterCount")
                          (string_length (member updates (lit "content"))))
            end
          else Return merged
        end in
      match counted with
      | Throw message => (Throw message, contentStore)
      | Return props =>
          (Return (success 200 (Obj props)),
           <[id req := Obj props]> contentStore)
      end
    end
  end.

(** [DELETE /:id]. *)
Definition delete_content (req : Request)
    (contentStore : gmap JsString.t value)
  : result Response * gmap JsString.t value :=
  match owned_content req contentStore with
  | inl refusal => (Return refusal, contentStore)
  | inr _ =>
      (Return {| status := 200; headers := [];
                 payload :=
                   Json (Obj [(lit "success", Bool true);
                              (lit "message",
                               Str (lit "Content deleted successfully"))]) |},
       delete (id req) contentStore)
  end.

(** The file name of an export: the title with every character but
    ASCII letters and digits replaced, in lower case, and the
    extension. *)
Definition export_filename (toLowerCase : JsString.t -> JsString.t)
    (title : value) (extension : string) : result JsString.t :=
  match title with
  | Str s => Return (toLowerCase (replace_non_alphanumeric s) ++ lit extension)
  | Undefined =>
      Throw (lit "Cannot read properties of undefined (reading 'replace')")
  | Null => Throw (lit "Cannot read properties of null (reading 'replace')")
  | _ => Throw (lit "content.title.replace is not a function")
  end.

Definition attachment (contentType : string) (filename : JsString.t)
    (exportContent : value) : Response :=
  {| status := 200;
     headers := [(lit "Content-Type", lit contentType);
                 (lit "Content-Disposition",
                  lit "attachment; filename=" ++ [34%N] ++ filename ++ [34%N])];
     payload := Sent exportContent |}.

(** [GET /:id/export]. [toLowerCase] is the method of that name of
    JavaScript strings. *)
Definition export_content (toLowerCase : JsString.t -> JsString.t)
    (req : Request) (contentStore : gmap JsString.t value)
  : result Response * gmap JsString.t value :=
  match owned_content req contentStore with
  | inl refusal => (Return refusal, contentStore)
  | inr saved =>
    match with_default (Str (lit "txt")) (format req) with
    | Str format =>
      let wanted := toLowerCase format in
      let sent (contentType extension : string) (exportContent : value) :=
        match export_filename toLowerCase (member saved (lit "title"))
                extension with
        | Return filename =>
            (Return (attachment contentType filename exportContent),
             contentStore)
        | Throw message => (Throw message, contentStore)
        end in
      if bool_decide (wanted = lit "txt")
      then sent "text/plain"%string ".txt"%string (member saved (lit "content"))
      else if bool_decide (wanted = lit "md" \/ wanted = lit "markdown")
      then sent "text/markdown"%string ".md"%string (member saved (lit "content"))
      else if bool_decide (wanted = lit "json")
      then sent "application/json"%string ".json"%string (stringify_indented saved)
      else (Return (failure 400 "Unsupported export format. Supported: txt, md, json"),
            contentStore)
    | Null =>
        (Throw (lit "Cannot read properties of null (reading 'toLowerCase')"),
         contentStore)
    | _ => (Throw (lit "format.toLowerCase is not a function"), contentStore)
    end
  end.

(** *** Vocabulary of the properties *)

(** A request to the routes of one saved content. *)
Definition content_request (key : option JsString.t) (content_id : JsString.t)
    (sent : value) : Request :=
  {| body := sent; api_key := key; id := content_id; format := Undefined;
     errors := [] |}.

(** The method [toLowerCase] on strings of ASCII characters. *)
Definition lowers_ascii (toLowerCase : JsString.t -> JsString.t) : Prop :=
  forall s, Forall (fun c => (c < 128)%N) s -> toLowerCase s = map ascii_lower s.

(** A code unit that can stand in a file name: a lower-case ASCII letter,
    a digit or an underscore. *)
Definition file_name_unit (c : N) : Prop :=
  (97 <= c <= 122)%N \/ (48 <= c <= 57)%N \/ c = 95%N.

(** The answer of a run of a handler that answers; a run that throws
    sends nothing itself. *)
Definition answer_of {S : Type} (run : result Response * S) : Response :=
  match fst run with
  | Return answer => answer
  | Throw _ => failure 500 "no answer"
  end.

(** An answer that refuses the request: one of the four error statuses,
    and a body that reports the failure and carries no data. *)
Definition refused (r : Response) : Prop :=
  status r ∈ [400; 401; 403; 404]%N
  /\ headers r = []
  /\ exists props,
       payload r = Json (Obj props)
       /\ own_property props (lit "success") = Some (Bool false)
       /\ own_property props (lit "data") = None.

End ContentRoutes.

(** ** The generation routes: [routes/ai.js]

    The handlers of [POST /generate] and [POST /batch] over the service
    above. A handler gets the verdict of the validation chain in front of
    it and the body as the chain left it. For [/generate] the fields that
    the service reads are strings, the language and the tone when they
    are given; [/batch] is followed on any body.
    What the handlers write with [console.log] and [console.error] is not
    part of the world. *)

Module AiRoutes.

Import JsMore ContentRoutes.

(** [res.status(500).json(...)] of the [catch] block of [/generate]. *)
Definition unavailable : Response :=
  {| status := 500; headers := [];
     payload :=
       Json (Obj [ (lit "success", Bool false);
                   (lit "error", Str (lit "Content generation failed"));
                   (lit "message",
                    Str (lit "Please try again in a moment. Our AI service is temporarily unavailable."));
                   (lit "retryAfter", Num 30) ]) |}.

(** The object that [/generate] hands to [generateContent]: the defaults
    of the destructuring are filled in. *)
Definition generation_request (sent : GenerationRequest) : GenerationRequest :=
  {| prompt := prompt sent; contentType := contentType sent;
     language := Some (default (lit "english") (language sent));
     tone := Some (default (lit "professional") (tone sent)) |}.

(** [POST /generate]. The clock is read three times: before the call,
    after it, and for the time stamp. *)
Definition generate (net : Network) (this : AIService)
    (startTime finished stamp : N) (errors : list value)
    (sent : GenerationRequest) (w : World) : Response * World :=
  match errors with
  | _ :: _ => (validation_failed errors, w)
  | [] =>
    let request := generation_request sent in
    match generateContent net this request w with
    | (Throw _, w) => (unavailable, w)
    | (Return generatedContent, w) =>
      let generationTime := (Z.of_N finished - Z.of_N startTime)%Z in
      match split_length "content" generatedContent with
      | Throw _ => (unavailable, w)
      | Return wordCount =>
        (ContentRoutes.success 200
           (Obj [ (lit "content", generatedContent);
                  (lit "metadata",
                   Obj [ (lit "contentType", Str (contentType request));
                         (lit "language", Str (language_of request));
                         (lit "tone", Str (tone_of request));
                         (lit "wordCount", Num (Z.of_N wordCount));
                         (lit "characterCount", string_length generatedContent);
                         (lit "generationTime",
                          Str (of_Z generationTime ++ lit "ms"));
                         (lit "timestamp", Str (toISOString stamp)) ]) ]),
         w)
      end
    end
  end.

(** *** [generateContent] on what a batch hands to it

    [/batch] passes each element of [requests] to [generateContent] as
    it came out of the JSON parser, and its validation looks at the
    length of the prompt and at the content type only; so the four
    fields can be any JSON value. *)

(** ToString and ToPropertyKey of a JSON value. An object with an own
    property [toString], which is no function, has no primitive value. *)
Fixpoint string_of (v : value) : result JsString.t :=
  match v with
  | Obj props =>
      if has_own props (lit "toString")
      then Throw (lit "Cannot convert object to primitive value")
      else Return (lit "[object Object]")
  | Arr items =>
      match
        (fix each (l : list value) : result (list JsString.t) :=
           match l with
           | [] => Return []
           | x :: l' =>
             match
               match x with
               | Undefined | Null => Return []
               | _ => string_of x
               end
             with
             | Throw message => Throw message
             | Return s =>
               match each l' with
               | Throw message => Throw message
               | Return parts => Return (s :: parts)
               end
             end
           end) items
      with
      | Throw message => Throw message
      | Return parts => Return (join (lit ",") parts)
      end
  | _ => Return (to_string v)
  end.

(** The digits at the front of a string, and the rest. *)
Fixpoint span_digits (s : JsString.t) : JsString.t * JsString.t :=
  match s with
  | c :: rest =>
    if ((48 <=? c) && (c <=? 57))%N
    then let '(digits, rest) := span_digits rest in (c :: digits, rest)
    else ([], s)
  | [] => ([], [])
  end.

Definition digits_value (digits : JsString.t) : Z :=
  fold_left (fun acc c => (10 * acc + Z.of_N (c - 48))%Z) digits 0%Z.

Fixpoint without_white_space_in_front (s : JsString.t) : JsString.t :=
  match s with
  | c :: rest => if is_white_space c then without_white_space_in_front rest else s
  | [] => []
  end.

(** The digits of a literal with one of the prefixes [0x], [0o], [0b]:
    at least one digit, each below the radix; the value is positive when
    one of them is not [0]. *)
Definition digit_below (radix : N) (c : N) : bool :=
  let d := if ((48 <=? c) && (c <=? 57))%N then (c - 48)%N
           else if ((97 <=? c) && (c <=? 102))%N then (c - 87)%N
           else if ((65 <=? c) && (c <=? 70))%N then (c - 55)%N
           else 16%N in
  (d <? radix)%N.

Definition positive_digits (radix : N) (digits : JsString.t) : bool :=
  (forallb (digit_below radix) digits
   && existsb (fun c => negb (c =? 48)%N) digits)%bool.

(** [0 < StringToNumber(s)]: the string, without the white space around
    it, is a numeric literal whose value is a Number above zero. A
    decimal literal with mantissa [m] and exponent [e] is rounded to
    zero when [m * 10 ^ e] is at most [2 ^ -1075]. *)
Definition positive_literal (s : JsString.t) : bool :=
  let s := reverse (without_white_space_in_front
                      (reverse (without_white_space_in_front s))) in
  match s with
  | 48%N :: 120%N :: digits | 48%N :: 88%N :: digits => positive_digits 16 digits
  | 48%N :: 111%N :: digits | 48%N :: 79%N :: digits => positive_digits 8 digits
  | 48%N :: 98%N :: digits | 48%N :: 66%N :: digits => positive_digits 2 digits
  | 45%N :: _ => false
  | _ =>
    let unsigned := match s with 43%N :: rest => rest | _ => s end in
    if bool_decide (unsigned = lit "Infinity") then true
    else
      let '(whole, rest) := span_digits unsigned in
      let '(fraction, rest) :=
        match rest with
        | 46%N :: rest => span_digits rest
        | _ => ([], rest)
        end in
      let exponent : option Z :=
        match rest with
        | [] => Some 0%Z
        | 101%N :: rest | 69%N :: rest =>
          let '(negative, rest) :=
            match rest with
            | 45%N :: rest => (true, rest)
            | 43%N :: rest => (false, rest)
            | _ => (false, rest)
            end in
          match span_digits rest with
          | ((_ :: _) as digits, []) =>
              Some (if negative then (- digits_value digits)%Z
                    else digits_value digits)
          | _ => None
          end
        | _ => None
        end in
      match whole ++ fraction, exponent with
      | _ :: _, Some e =>
        let m := digits_value (whole ++ fraction) in
        let e := (e - Z.of_nat (length fraction))%Z in
        ((0 <? m)%Z
         && ((0 <=? e)%Z || (10 ^ (- e) <? m * 2 ^ 1075)%Z))%bool
      | _, _ => false
      end
  end.

(** [0 < v], as the loop of [hashString] compares its counter with
    [str.length]. *)
Definition positive (v : value) : result bool :=
  match v with
  | Undefined | Null | Builtin _ => Return false
  | Bool b => Return b
  | Num z => Return (0 <? z)%Z
  | Str s => Return (positive_literal s)
  | Arr _ | Obj _ =>
    match string_of v with
    | Throw message => Throw message
    | Return s => Return (positive_literal s)
    end
  end.

(** The [length] of an inherited member of objects: the number of
    parameters of the function. *)
Definition builtin_length (name : JsString.t) : value :=
  if bool_decide (name = lit "__proto__") then Undefined
  else if bool_decide (name ∈ map lit ["toString"; "valueOf"; "toLocaleString"]%string)
  then Num 0
  else if bool_decide (name ∈ map lit ["__defineGetter__"; "__defineSetter__"]%string)
  then Num 2
  else Num 1.

(** [hashString] on any value: the loop runs over a string; on anything
    else with a length above zero it fails at [str.charCodeAt], and else
    it does not run, which leaves the hash [0]. *)
Definition hashString_of (str : value) : result JsString.t :=
  let no_string (length : value) : result JsString.t :=
    match positive length with
    | Throw message => Throw message
    | Return true => Throw (lit "str.charCodeAt is not a function")
    | Return false => Return (lit "0")
    end in
  match str with
  | Undefined =>
      Throw (lit "Cannot read properties of undefined (reading 'length')")
  | Null => Throw (lit "Cannot read properties of null (reading 'length')")
  | Str s => Return (hashString s)
  | Num _ | Bool _ => no_string Undefined
  | Arr items => no_string (Num (Z.of_nat (length items)))
  | Obj props => no_string (obj_get props (lit "length"))
  | Builtin name => no_string (builtin_length name)
  end.

(** The two marker lines of a fallback template: [language !== 'english']
    and [tone !== 'professional'] hold of everything that is not that
    string. *)
Definition prefix_of (language : value) (shown : JsString.t) : JsString.t :=
  if is_string_equal language (lit "english") then []
  else lit "[Content in " ++ shown ++ lit "]" ++ LF ++ LF.

Definition toneNote_of (tone : value) (shown : JsString.t) : JsString.t :=
  if is_string_equal tone (lit "professional") then []
  else lit "[" ++ shown ++ lit " tone]" ++ LF ++ LF.

(** [generateFallbackContent] on any values. The five templates are all
    built, the social one calls [prompt.replace], which only a string
    has. After the two marker lines a template is what the generator
    writes for english and professional, which has neither line. *)
Definition generateFallbackContent_of (prompt : value)
    (contentType : JsString.t) (language : value) (language_shown : JsString.t)
    (tone : value) (tone_shown : JsString.t) : result value :=
  match prompt with
  | Str s =>
    let template (g : JsString.t -> JsString.t -> JsString.t -> JsString.t) :=
      Str (prefix_of language language_shown ++ toneNote_of tone tone_shown
             ++ g s (lit "english") (lit "professional")) in
    let templates :=
      [ (lit "presentation", template generatePresentationTemplate);
        (lit "document", template generateDocumentTemplate);
        (lit "social", template generateSocialTemplate);
        (lit "blog", template generateBlogTemplate);
        (lit "email", template generateEmailTemplate) ] in
    Return (or_else (obj_get templates contentType)
              (obj_get templates (lit "document")))
  | _ => Throw (lit "prompt.replace is not a function")
  end.

(** [generateContent] on any value. *)
Definition generateContent_of (net : Network) (this : AIService)
    (request : value) (w : World) : result value * World :=
  match request with
  | Undefined =>
      (Throw (lit "Cannot destructure property 'prompt' of 'undefined' as it is undefined."), w)
  | Null =>
      (Throw (lit "Cannot destructure property 'prompt' of 'object null' as it is null."), w)
  | _ =>
    let prompt := member request (lit "prompt") in
    let contentType := member request (lit "contentType") in
    let language :=
      with_default (Str (lit "english")) (member request (lit "language")) in
    let tone :=
      with_default (Str (lit "professional")) (member request (lit "tone")) in
    match string_of contentType with
    | Throw message => (Throw message, w)
    | Return contentType_shown =>
    match string_of language with
    | Throw message => (Throw message, w)
    | Return language_shown =>
    match string_of tone with
    | Throw message => (Throw message, w)
    | Return tone_shown =>
    match hashString_of prompt with
    | Throw message => (Throw message, w)
    | Return hash =>
      let cacheKey :=
        contentType_shown ++ lit "-" ++ language_shown ++ lit "-"
          ++ tone_shown ++ lit "-" ++ hash in
      let '(cached, w) := cache_get cacheKey w in
      if truthy cached then (Return cached, w) else
      let template :=
        or_else (obj_get contentTemplates contentType_shown)
                (obj_get contentTemplates (lit "document")) in
      match string_of prompt with
      | Throw message => (Throw message, w)
      | Return prompt_shown =>
      match buildPrompt prompt_shown template language_shown tone_shown with
      | Throw message => (Throw message, w)
      | Return fullPrompt =>
        match try_providers net (List.filter enabled (providers this))
                cacheKey fullPrompt w with
        | (Some result, w) => (Return result, w)
        | (None, w) =>
          match generateFallbackContent_of prompt contentType_shown
                  language language_shown tone tone_shown with
          | Throw message => (Throw message, w)
          | Return fallbackResult =>
              (Return fallbackResult, cache_set cacheKey fallbackResult w)
          end
        end
      end
      end
    end end end end
  end.

(** The code points of a string, each as a string: what iterating over a
    string gives. *)
Fixpoint code_points (s : JsString.t) : list JsString.t :=
  match s with
  | [] => []
  | c :: rest =>
    match rest with
    | d :: rest' =>
      if (Json.is_high_surrogate c && Json.is_low_surrogate d)%bool
      then [c; d] :: code_points rest'
      else [c] :: code_points rest
    | [] => [[c]]
    end
  end.

(** What [for (const request of requests)] runs over: the elements of
    an array, the code points of a string; nothing else that the JSON
    parser makes can be iterated. *)
Definition iterate (requests : value) : option (list value) :=
  match requests with
  | Arr items => Some items
  | Str s => Some (map Str (code_points s))
  | _ => None
  end.

(** The element of [results] that the [try] or the [catch] block of
    the loop pushes. *)
Definition pushed (r : result value) (request : value) : value :=
  match r with
  | Return generatedContent =>
      Obj [ (lit "success", Bool true);
            (lit "content", generatedContent);
            (lit "request", request) ]
  | Throw message =>
      Obj [ (lit "success", Bool false);
            (lit "error", Str message);
            (lit "request", request) ]
  end.

(** The loop of [/batch]. *)
Fixpoint generate_each (net : Network) (this : AIService)
    (requests : list value) (w : World) : list value * World :=
  match requests with
  | [] => ([], w)
  | request :: rest =>
    let '(r, w) := generateContent_of net this request w in
    let '(results, w) := generate_each net this rest w in
    (pushed r request :: results, w)
  end.

(** [requests.length]. *)
Definition length_of (requests : value) : value :=
  match requests with
  | Arr items => Num (Z.of_nat (length items))
  | Str s => Num (Z.of_nat (length s))
  | _ => Undefined
  end.

(** [POST /batch]. *)
Definition batch (net : Network) (this : AIService) (errors : list value)
    (body : value) (w : World) : result Response * World :=
  match errors with
  | _ :: _ => (Return (validation_failed errors), w)
  | [] =>
    match body with
    | Undefined =>
        (Throw (lit "Cannot destructure property 'requests' of 'req.body' as it is undefined."), w)
    | Null =>
        (Throw (lit "Cannot destructure property 'requests' of 'req.body' as it is null."), w)
    | _ =>
      let requests := member body (lit "requests") in
      match iterate requests with
      | None => (Throw (lit "requests is not iterable"), w)
      | Some items =>
        let '(results, w) := generate_each net this items w in
        let successful :=
          filter (fun r => truthy (member r (lit "success")) = true) results in
        (Return
           (ContentRoutes.success 200
              (Obj [ (lit "results", Arr results);
                     (lit "totalRequests", length_of requests);
                     (lit "successfulRequests",
                      Num (Z.of_nat (length successful))) ])),
         w)
      end
    end
  end.

(** *** Vocabulary of the properties *)

(** The answer of [/generate] for a content that is a text. *)
Definition generated (sent : GenerationRequest) (content : JsString.t)
    (generationTime : Z) (stamp : N) : Response :=
  ContentRoutes.success 200
    (Obj [ (lit "content", Str content);
           (lit "metadata",
            Obj [ (lit "contentType", Str (contentType sent));
                  (lit "language", Str (language_of sent));
                  (lit "tone", Str (tone_of sent));
                  (lit "wordCount",
                   Num (Z.of_nat (S (length (filter (fun c => c = 32%N) content)))));
                  (lit "characterCount", Num (Z.of_nat (length content)));
                  (lit "generationTime", Str (of_Z generationTime ++ lit "ms"));
                  (lit "timestamp", Str (toISOString stamp)) ]) ]).

(** The request of the data model that an element of a batch is, when
    its four fields are strings, the language and the tone where they
    are given. *)
Definition typed_request (request : value) : option GenerationRequest :=
  match request with
  | Obj props =>
    match obj_get props (lit "prompt"), obj_get props (lit "contentType") with
    | Str topic, Str type =>
      let optional (v : value) : option (option JsString.t) :=
        match v with
        | Undefined => Some None
        | Str s => Some (Some s)
        | _ => None
        end in
      match optional (obj_get props (lit "language")),
            optional (obj_get props (lit "tone")) with
      | Some chosen_language, Some chosen_tone =>
          Some {| prompt := topic; contentType := type;
                  language := chosen_language; tone := chosen_tone |}
      | _, _ => None
      end
    | _, _ => None
    end
  | _ => None
  end.

(** The three requests of a batch that passes the validation of the
    route: the prompt is a text, a number of eleven digits, and an array
    that holds a text. *)
Definition mixed_batch : value :=
  let request (topic : value) :=
    Obj [(lit "prompt", topic); (lit "contentType", Str (lit "blog"))] in
  Obj [(lit "requests",
        Arr [ request (Str (lit "renewable energy"));
              request (Num 12345678901);
              request (Arr [Str (lit "renewable energy")]) ])].

(** A field of a request that is a string or is not given. *)
Definition text_or_missing (v : value) : Prop :=
  v = Undefined \/ exists s, v = Str s.

End AiRoutes.

(** ** The account routes: [routes/auth.js]

    The handlers over the two module-level maps. [users] and [apiKeys]
    hold the same user objects, and [/regenerate-key] changes an object
    in place; so the objects live in a store of their own and the maps
    hold references into it. A handler gets the verdict of the
    validation chain in front of it and the fields of the body as the
    chain left them, which are strings. *)

Module AuthRoutes.

Import JsMore ContentRoutes.

Record Usage : Type := { requests : Z; limit : Z }.

(** A user object. The object of a guest has no [password]. *)
Record User : Type :=
  { id : JsString.t;
    email : JsString.t;
    name : JsString.t;
    password : option JsString.t;
    apiKey : JsString.t;
    createdAt : JsString.t;
    plan : JsString.t;
    usage : Usage }.

(** The user objects in the order of their creation, [users] (a [Map],
    which keeps the order of insertion) and [apiKeys]. *)
Record Store : Type :=
  { objects : list User;
    users : list (JsString.t * nat);
    apiKeys : gmap JsString.t nat }.

(** [bcryptjs] and [jsonwebtoken] as the routes use them: hashing with
    the salt that the library draws, comparing, signing the pair of a
    user id and an email at a time, and verifying a token at a time,
    which gives the decoded payload or throws. The secret is part of
    the last two. *)
Record Libraries : Type :=
  { bcrypt_hash : JsString.t -> JsString.t -> JsString.t;
    bcrypt_compare : JsString.t -> JsString.t -> bool;
    jwt_sign : JsString.t -> JsString.t -> N -> JsString.t;
    jwt_verify : JsString.t -> N -> option value }.

(** [Map.prototype.get] and [set] on a map whose order matters. *)
Definition map_get (m : list (JsString.t * nat)) (k : JsString.t) : option nat :=
  snd <$> List.find (fun p => bool_decide (fst p = k)) m.

Fixpoint map_set (m : list (JsString.t * nat)) (k : JsString.t) (r : nat)
  : list (JsString.t * nat) :=
  match m with
  | [] => [(k, r)]
  | (k', r') :: rest =>
    if bool_decide (k' = k) then (k, r) :: rest
    else (k', r') :: map_set rest k r
  end.

(** [generateApiKey], from the two strings that
    [Math.random().toString(36).substring(2, 15)] gives. *)
Definition generateApiKey (random1 random2 : JsString.t) : JsString.t :=
  lit "acc_" ++ random1 ++ random2.

Definition usage_json (u : Usage) : value :=
  Obj [(lit "requests", Num (requests u)); (lit "limit", Num (limit u))].

(** [s.replace(pattern, '')] for a pattern that is a string: the first
    occurrence goes. *)
Fixpoint remove_first (pattern s : JsString.t) : JsString.t :=
  match s with
  | [] => []
  | c :: rest =>
    if bool_decide (pattern `prefix_of` s) then drop (length pattern) s
    else c :: remove_first pattern rest
  end.

(** [req.headers.authorization?.replace('Bearer ', '')], and [!token]. *)
Definition bearer_token (authorization : option JsString.t)
  : option JsString.t :=
  match remove_first (lit "Bearer ") <$> authorization with
  | Some (c :: token) => Some (c :: token)
  | _ => None
  end.

(** [POST /register]. *)
Definition register (lib : Libraries) (salt random1 random2 : JsString.t)
    (id_time created signed : N) (errors : list value)
    (email password name : JsString.t) (s : Store) : Response * Store :=
  match errors with
  | _ :: _ => (validation_failed errors, s)
  | [] =>
    match map_get (users s) email with
    | Some _ => (failure 409 "User already exists", s)
    | None =>
      let hashedPassword := bcrypt_hash lib password salt in
      let apiKey := generateApiKey random1 random2 in
      let user :=
        {| id := time_string id_time; email := email; name := name;
           password := Some hashedPassword; apiKey := apiKey;
           createdAt := toISOString created; plan := lit "free";
           usage := {| requests := 0; limit := 100 |} |} in
      let ref := length (objects s) in
      let token := jwt_sign lib (time_string id_time) email signed in
      (ContentRoutes.success 201
         (Obj [ (lit "user",
                 Obj [ (lit "id", Str (time_string id_time));
                       (lit "email", Str email); (lit "name", Str name);
                       (lit "plan", Str (lit "free"));
                       (lit "apiKey", Str apiKey) ]);
                (lit "token", Str token) ]),
       {| objects := objects s ++ [user];
          users := map_set (users s) email ref;
          apiKeys := <[apiKey := ref]> (apiKeys s) |})
    end
  end.

(** [POST /login]. Comparing with the object of a guest, which has no
    password, is an error of [bcryptjs]. *)
Definition login (lib : Libraries) (signed : N) (errors : list value)
    (email password : JsString.t) (s : Store) : result Response * Store :=
  match errors with
  | _ :: _ => (Return (validation_failed errors), s)
  | [] =>
    match map_get (users s) email ≫= fun ref => objects s !! ref with
    | None => (Return (failure 401 "Invalid credentials"), s)
    | Some user =>
      match AuthRoutes.password user with
      | None => (Throw (lit "Illegal arguments: string, undefined"), s)
      | Some hashed =>
        if negb (bcrypt_compare lib password hashed)
        then (Return (failure 401 "Invalid credentials"), s)
        else
          let token :=
            jwt_sign lib (AuthRoutes.id user) (AuthRoutes.email user) signed in
          (Return
             (ContentRoutes.success 200
                (Obj [ (lit "user",
                        Obj [ (lit "id", Str (AuthRoutes.id user));
                              (lit "email", Str (AuthRoutes.email user));
                              (lit "name", Str (AuthRoutes.name user));
                              (lit "plan", Str (plan user));
                              (lit "apiKey", Str (apiKey user));
                              (lit "usage", usage_json (usage user)) ]);
                       (lit "token", Str token) ])),
           s)
      end
    end
  end.

(** [Array.from(users.values()).find(u => u.id === decoded.userId)]: the
    first user in the order of [users] that has the id, as a
    reference. *)
Definition find_user (s : Store) (userId : value) : option nat :=
  List.find
    (fun ref =>
       match objects s !! ref with
       | Some u => is_string_equal userId (AuthRoutes.id u)
       | None => false
       end)
    (map snd (users s)).

(** The part that [/profile] and [/regenerate-key] share: the token of
    the request, verified, and the user it names. *)
Definition token_user (lib : Libraries) (time : N)
    (authorization : option JsString.t) (s : Store) : Response + nat * User :=
  match bearer_token authorization with
  | None => inl (failure 401 "No token provided")
  | Some token =>
    match jwt_verify lib token time with
    | None | Some Undefined | Some Null => inl (failure 401 "Invalid token")
    | Some decoded =>
      match find_user s (member decoded (lit "userId")) with
      | None => inl (failure 404 "User not found")
      | Some ref =>
        match objects s !! ref with
        | Some user => inr (ref, user)
        | None => inl (failure 404 "User not found")
        end
      end
    end
  end.

(** [GET /profile]. *)
Definition profile (lib : Libraries) (time : N)
    (authorization : option JsString.t) (s : Store) : Response * Store :=
  match token_user lib time authorization s with
  | inl refusal => (refusal, s)
  | inr (_, user) =>
    (ContentRoutes.success 200
       (Obj [ (lit "user",
               Obj [ (lit "id", Str (AuthRoutes.id user));
                     (lit "email", Str (AuthRoutes.email user));
                     (lit "name", Str (AuthRoutes.name user));
                     (lit "plan", Str (plan user));
                     (lit "apiKey", Str (apiKey user));
                     (lit "usage", usage_json (usage user));
                     (lit "createdAt", Str (createdAt user)) ]) ]),
     s)
  end.

(** [POST /regenerate-key]. *)
Definition regenerate_key (lib : Libraries) (time : N)
    (random1 random2 : JsString.t) (authorization : option JsString.t)
    (s : Store) : Response * Store :=
  match token_user lib time authorization s with
  | inl refusal => (refusal, s)
  | inr (ref, user) =>
    let newApiKey := generateApiKey random1 random2 in
    let changed :=
      {| id := AuthRoutes.id user; email := AuthRoutes.email user;
         name := AuthRoutes.name user; password := AuthRoutes.password user;
         apiKey := newApiKey; createdAt := createdAt user; plan := plan user;
         usage := usage user |} in
    (ContentRoutes.success 200 (Obj [(lit "apiKey", Str newApiKey)]),
     {| objects := <[ref := changed]> (objects s);
        users := map_set (users s) (AuthRoutes.email user) ref;
        apiKeys := <[newApiKey := ref]> (delete (apiKey user) (apiKeys s)) |})
  end.

(** [POST /validate-key]. *)
Definition validate_key (errors : list value) (key : JsString.t) (s : Store)
  : Response * Store :=
  match errors with
  | _ :: _ => (validation_failed errors, s)
  | [] =>
    match apiKeys s !! key ≫= fun ref => objects s !! ref with
    | None => (failure 401 "Invalid API key", s)
    | Some user =>
      (ContentRoutes.success 200
         (Obj [ (lit "valid", Bool true);
                (lit "user",
                 Obj [ (lit "id", Str (AuthRoutes.id user));
                       (lit "email", Str (AuthRoutes.email user));
                       (lit "name", Str (AuthRoutes.name user));
                       (lit "plan", Str (plan user));
                       (lit "usage", usage_json (usage user)) ]) ]),
       s)
    end
  end.

(** [GET /usage]. *)
Definition get_usage (time : N) (key : option JsString.t) (s : Store)
  : Response * Store :=
  if no_api_key key then (failure 401 "API key required", s)
  else
    match apiKeys s !! key_of key ≫= fun ref => objects s !! ref with
    | None => (failure 401 "Invalid API key", s)
    | Some user =>
      (ContentRoutes.success 200
         (Obj [ (lit "usage", usage_json (usage user));
                (lit "plan", Str (plan user));
                (lit "resetDate",
                 Str (toISOString (time + 30 * 24 * 60 * 60 * 1000))) ]),
       s)
    end.

(** [POST /guest]. The clock is read for the key, for the id and for
    [createdAt]. *)
Definition guest (key_time id_time created : N) (s : Store)
  : Response * Store :=
  let guestApiKey := lit "guest_" ++ time_string key_time in
  let guestUser :=
    {| id := lit "guest_" ++ time_string id_time;
       email := lit "guest@demo.com"; name := lit "Guest User";
       password := None; apiKey := guestApiKey; plan := lit "demo";
       usage := {| requests := 0; limit := 10 |};
       createdAt := toISOString created |} in
  (ContentRoutes.success 200
     (Obj [ (lit "user",
             Obj [ (lit "id", Str (AuthRoutes.id guestUser));
                   (lit "name", Str (AuthRoutes.name guestUser));
                   (lit "plan", Str (plan guestUser));
                   (lit "apiKey", Str (apiKey guestUser));
                   (lit "usage", usage_json (usage guestUser)) ]);
            (lit "message",
             Str (lit "Guest access granted. Limited to 10 requests.")) ]),
   {| objects := objects s ++ [guestUser];
      users := users s;
      apiKeys := <[guestApiKey := length (objects s)]> (apiKeys s) |}).

(** *** Vocabulary of the properties *)

(** The maps when the process starts. *)
Definition no_accounts : Store := {| objects := []; users := []; apiKeys := ∅ |}.

(** The stores that the handlers can lead to. Three handlers write;
    the others leave the store as it is. *)
Inductive possible (lib : Libraries) : Store -> Prop :=
  | possible_empty : possible lib no_accounts
  | possible_register s salt random1 random2 id_time created signed errors
      email password name :
      possible lib s ->
      possible lib
        (snd (register lib salt random1 random2 id_time created signed errors
                email password name s))
  | possible_regenerate s time random1 random2 authorization :
      possible lib s ->
      possible lib (snd (regenerate_key lib time random1 random2 authorization s))
  | possible_guest s key_time id_time created :
      possible lib s -> possible lib (snd (guest key_time id_time created s)).

(** The user object that a key leads to. *)
Definition user_of_key (s : Store) (key : JsString.t) : option User :=
  apiKeys s !! key ≫= fun ref => objects s !! ref.

(** The user object that an email leads to. *)
Definition user_of_email (s : Store) (email : JsString.t) : option User :=
  map_get (users s) email ≫= fun ref => objects s !! ref.

(** The user object that [/register] creates. *)
Definition registered_user (lib : Libraries) (salt random1 random2 : JsString.t)
    (id_time created : N) (address word full_name : JsString.t) : User :=
  {| id := time_string id_time; email := address; name := full_name;
     password := Some (bcrypt_hash lib word salt);
     apiKey := generateApiKey random1 random2;
     createdAt := toISOString created; plan := lit "free";
     usage := {| requests := 0; limit := 100 |} |}.

(** A user object with another key. *)
Definition with_key (key : JsString.t) (user : User) : User :=
  {| id := AuthRoutes.id user; email := AuthRoutes.email user;
     name := AuthRoutes.name user; password := AuthRoutes.password user;
     apiKey := key; createdAt := createdAt user; plan := plan user;
     usage := usage user |}.

(** Libraries that do not encrypt, for the examples: the hash is the
    salt and the password, the token is the user id and the email with a
    dot in between. *)
Definition plain_libraries : Libraries :=
  {| bcrypt_hash := fun word salt => salt ++ lit "$" ++ word;
     bcrypt_compare := fun word hashed =>
       bool_decide ((lit "$" ++ word) `suffix_of` hashed);
     jwt_sign := fun userId address _ => userId ++ lit "." ++ address;
     jwt_verify := fun token _ =>
       Some (Obj [(lit "userId",
                   Str (default [] (head (split_on 46 token))))]) |}.

(** The keys and the emails lead to the objects they belong to. *)
Definition consistent (s : Store) : Prop :=
  (forall key ref, apiKeys s !! key = Some ref ->
     exists u, objects s !! ref = Some u /\ apiKey u = key)
  /\ (forall address ref, (address, ref) ∈ users s ->
        exists u, objects s !! ref = Some u /\ email u = address
                  /\ is_Some (password u))
  /\ NoDup (map fst (users s)).

End AuthRoutes.

(** ** The embedding at work *)

(** Literals are decoded to UTF-16 code units. *)
Example lit_arrow : lit " → " = [32; 8594; 32]%N.
Proof. reflexivity. Qed.

Example lit_rocket : lit "🚀" = [55357; 56960]%N.
Proof. vm_compute. reflexivity. Qed.

Example number_to_string_samples :
  map number_to_string
    [0; -42; 2 ^ 53; 2 ^ 53 + 1; 2 ^ 64; 10 ^ 21 - 1; 10 ^ 21;
     123456789012345678901234; - 2 ^ 70; 2 ^ 1024]%Z
  = map lit ["0"; "-42"; "9007199254740992"; "9007199254740992";
             "18446744073709552000"; "1e+21"; "1e+21";
             "1.2345678901234569e+23"; "-1.1805916207174113e+21";
             "Infinity"]%string.
Proof. vm_compute. reflexivity. Qed.

Example of_Z_neg : of_Z (-1234567) = lit "-1234567".
Proof. vm_compute. reflexivity. Qed.

(** [JSON.stringify] leaves out a property that is [undefined] and writes
    [null] for such an array element. *)
Example stringify_sample :
  Json.stringify (Obj [(lit "a", Arr [Num 1; Undefined; Str (lit "x" ++ LF)]);
                       (lit "b", Undefined); (lit "c", Bool true)])
  = Str (lit "{" ++ Json.quote (lit "a") ++ lit ":[1,null,"
         ++ [34; 120; 92; 110; 34]%N ++ lit "]," ++ Json.quote (lit "c")
         ++ lit ":true}").
Proof. vm_compute. reflexivity. Qed.

(** [hashString] is the hash known from [String.hashCode] in Java. *)
Example hashString_hello : hashString (lit "hello") = lit "99162322".
Proof. vm_compute. reflexivity. Qed.

Example hashString_min_int :
  hashString (lit "polygenelubricants") = lit "-2147483648".
Proof. vm_compute. reflexivity. Qed.

(** ** The string hash and the cache key *)

Section Hash.

Lemma to_int32_range z : (- 2 ^ 31 <= to_int32 z < 2 ^ 31)%Z.
Proof.
  unfold to_int32.
  pose proof (Z.mod_pos_bound (z + 2 ^ 31) (2 ^ 32) ltac:(lia)). lia.
Qed.

Lemma to_int32_small z : (- 2 ^ 31 <= z < 2 ^ 31)%Z -> to_int32 z = z.
Proof.
  intros Hz. unfold to_int32. rewrite Z.mod_small; lia.
Qed.

Lemma to_int32_mod z : (to_int32 z mod 2 ^ 32 = z mod 2 ^ 32)%Z.
Proof.
  unfold to_int32.
  rewrite <- Zminus_mod_idemp_l, Z.mod_mod by lia.
  rewrite Zminus_mod_idemp_l. f_equal. lia.
Qed.

Lemma to_int32_congr a b :
  (a mod 2 ^ 32 = b mod 2 ^ 32)%Z -> to_int32 a = to_int32 b.
Proof.
  intros Hab. unfold to_int32.
  rewrite <- (Zplus_mod_idemp_l a), <- (Zplus_mod_idemp_l b), Hab.
  reflexivity.
Qed.

Lemma hash_round_rolling h c :
  hash_round h c = to_int32 (31 * h + Z.of_N c).
Proof.
  unfold hash_round. rewrite Z.land_diag.
  rewrite (to_int32_small (to_int32 _)) by apply to_int32_range.
  apply to_int32_congr.
  rewrite Z.shiftl_mul_pow2 by lia.
  rewrite <- Zplus_mod_idemp_l, <- Zminus_mod_idemp_l, to_int32_mod.
  rewrite <- Zmult_mod_idemp_l, to_int32_mod, Zmult_mod_idemp_l.
  rewrite Zminus_mod_idemp_l, Zplus_mod_idemp_l. f_equal. lia.
Qed.

Lemma hash_code_snoc s c :
  hash_code (s ++ [c]) = to_int32 (31 * hash_code s + Z.of_N c).
Proof.
  unfold hash_code. rewrite fold_left_app. apply hash_round_rolling.
Qed.

Lemma hash_code_range s : (- 2 ^ 31 <= hash_code s < 2 ^ 31)%Z.
Proof.
  destruct s as [|c s] using rev_ind.
  - vm_compute. split; [discriminate | reflexivity].
  - rewrite hash_code_snoc. apply to_int32_range.
Qed.

End Hash.

(** A key is cut at its first hyphen in one way only, when the part in
    front of the hyphen holds none. *)
Lemma cut_at_hyphen (a a' x x' : JsString.t) :
  45%N ∉ a -> 45%N ∉ a' ->
  a ++ lit "-" ++ x = a' ++ lit "-" ++ x' -> a = a' /\ x = x'.
Proof.
  change (lit "-") with [45%N].
  revert a'. induction a as [|c a IH]; intros [|c' a'] Ha Ha' Heq;
    simpl in Heq.
  - by inversion Heq.
  - inversion Heq; subst. exfalso. apply Ha'. left.
  - inversion Heq; subst. exfalso. apply Ha. left.
  - inversion Heq; subst.
    destruct (IH a') as [-> ->]; try done.
    + intros Hin. apply Ha. by right.
    + intros Hin. apply Ha'. by right.
Qed.

Lemma enumerated_no_hyphen (s : JsString.t) :
  s ∈ content_types ++ languages ++ tones -> 45%N ∉ s.
Proof.
  revert s. apply Forall_forall.
  refine (bool_decide_unpack _ _). vm_compute. exact I.
Qed.

(** ** The fallback templates *)

Section Templates.

Lemma lines_cons (x y : JsString.t) (rest : list JsString.t) :
  lines (x :: y :: rest) = x ++ LF ++ lines (y :: rest).
Proof. reflexivity. Qed.

Lemma lines_prefixed (a b x y : JsString.t) (rest : list JsString.t) :
  lines ((a ++ b ++ x) :: y :: rest) = a ++ b ++ lines (x :: y :: rest).
Proof. rewrite !lines_cons, <- !app_assoc. reflexivity. Qed.

Lemma truthy_lines (x y : JsString.t) (rest : list JsString.t) :
  truthy (Str (lines (x :: y :: rest))) = true.
Proof. rewrite lines_cons. by destruct x. Qed.

Lemma marker_prefix language :
  (if bool_decide (language <> lit "english")
   then lit "[Content in " ++ language ++ lit "]" ++ LF ++ LF else [])
  = language_marker language.
Proof. unfold language_marker. by repeat case_bool_decide. Qed.

Lemma marker_toneNote tone :
  (if bool_decide (tone <> lit "professional")
   then lit "[" ++ tone ++ lit " tone]" ++ LF ++ LF else [])
  = tone_marker tone.
Proof. unfold tone_marker. by repeat case_bool_decide. Qed.

Lemma language_marker_english : language_marker (lit "english") = [].
Proof. unfold language_marker. by case_bool_decide. Qed.

Lemma tone_marker_professional : tone_marker (lit "professional") = [].
Proof. unfold tone_marker. by case_bool_decide. Qed.

Ltac split_markers :=
  cbv zeta; rewrite !marker_prefix, !marker_toneNote;
  rewrite language_marker_english, tone_marker_professional;
  rewrite !lines_prefixed, !app_nil_l; reflexivity.

(** Each generator writes the two markers and then what it writes for
    english and professional. *)
Lemma generator_markers g prompt language tone :
  g ∈ generators ->
  g prompt language tone
  = language_marker language ++ tone_marker tone
      ++ g prompt (lit "english") (lit "professional").
Proof.
  unfold generators. rewrite !elem_of_cons, elem_of_nil.
  intros [->|[->|[->|[->|[->|[]]]]]].
  - unfold generatePresentationTemplate. split_markers.
  - unfold generateDocumentTemplate. split_markers.
  - unfold generateSocialTemplate. split_markers.
  - unfold generateBlogTemplate. split_markers.
  - unfold generateEmailTemplate. split_markers.
Qed.

Lemma generator_truthy g prompt language tone :
  g ∈ generators -> truthy (Str (g prompt language tone)) = true.
Proof.
  unfold generators. rewrite !elem_of_cons, elem_of_nil.
  intros [->|[->|[->|[->|[->|[]]]]]].
  - unfold generatePresentationTemplate. cbv zeta. apply truthy_lines.
  - unfold generateDocumentTemplate. cbv zeta. apply truthy_lines.
  - unfold generateSocialTemplate. cbv zeta. apply truthy_lines.
  - unfold generateBlogTemplate. cbv zeta. apply truthy_lines.
  - unfold generateEmailTemplate. cbv zeta. apply truthy_lines.
Qed.

End Templates.

Section Dispatch.

Lemma presentation_listed : generatePresentationTemplate ∈ generators.
Proof. apply list_elem_of_here. Qed.

Lemma document_listed : generateDocumentTemplate ∈ generators.
Proof. apply list_elem_of_further, list_elem_of_here. Qed.

Lemma social_listed : generateSocialTemplate ∈ generators.
Proof. do 2 apply list_elem_of_further. apply list_elem_of_here. Qed.

Lemma blog_listed : generateBlogTemplate ∈ generators.
Proof. do 3 apply list_elem_of_further. apply list_elem_of_here. Qed.

Lemma email_listed : generateEmailTemplate ∈ generators.
Proof. do 4 apply list_elem_of_further. apply list_elem_of_here. Qed.

Lemma generator_for_listed contentType : generator_for contentType ∈ generators.
Proof.
  unfold generator_for.
  destruct (bool_decide (contentType = lit "presentation"));
    [apply presentation_listed |].
  destruct (bool_decide (contentType = lit "social")); [apply social_listed |].
  destruct (bool_decide (contentType = lit "blog")); [apply blog_listed |].
  destruct (bool_decide (contentType = lit "email")); [apply email_listed |].
  apply document_listed.
Qed.

(** [table[key] || table.document] on a table of five truthy values. *)
Lemma dispatch_or_document (p d s b e : value) (key : JsString.t) :
  truthy p = true -> truthy d = true -> truthy s = true ->
  truthy b = true -> truthy e = true ->
  key ∉ object_prototype_names ->
  let table := [(lit "presentation", p); (lit "document", d);
                (lit "social", s); (lit "blog", b); (lit "email", e)] in
  or_else (obj_get table key) (obj_get table (lit "document"))
  = if bool_decide (key = lit "presentation") then p
    else if bool_decide (key = lit "social") then s
    else if bool_decide (key = lit "blog") then b
    else if bool_decide (key = lit "email") then e
    else d.
Proof.
  intros Hp Hd Hs Hb He Hkey table.
  assert (obj_get table (lit "document") = d) as -> by reflexivity.
  unfold table, obj_get, own_property. cbn [List.find fst snd].
  repeat case_bool_decide; subst; cbn [fmap option_fmap option_map snd];
    unfold or_else; rewrite ?Hp, ?Hd, ?Hs, ?Hb, ?He; try done.
Qed.

Lemma fallback_generated prompt contentType language tone :
  contentType ∉ object_prototype_names ->
  generateFallbackContent prompt contentType language tone
  = Str (generator_for contentType prompt language tone).
Proof.
  intros Hct. unfold generateFallbackContent. cbv zeta.
  rewrite dispatch_or_document;
    [| apply generator_truthy, presentation_listed
     | apply generator_truthy, document_listed
     | apply generator_truthy, social_listed
     | apply generator_truthy, blog_listed
     | apply generator_truthy, email_listed
     | exact Hct].
  unfold generator_for.
  destruct (bool_decide (contentType = lit "presentation")); [reflexivity |].
  destruct (bool_decide (contentType = lit "social")); [reflexivity |].
  destruct (bool_decide (contentType = lit "blog")); [reflexivity |].
  destruct (bool_decide (contentType = lit "email")); reflexivity.
Qed.

Lemma fallback_truthy prompt contentType language tone :
  truthy (generateFallbackContent prompt contentType language tone) = true.
Proof.
  unfold generateFallbackContent. cbv zeta. unfold or_else.
  match goal with |- context [truthy (obj_get ?t contentType)] =>
    destruct (truthy (obj_get t contentType)) eqn:E end; [exact E |].
  apply generator_truthy, document_listed.
Qed.

End Dispatch.

(** ** The provider loop *)

Section Loop.

Variable net : Network.

Lemma callProvider_frame provider fullPrompt w r w1 :
  callProvider net provider fullPrompt w = (r, w1) ->
  cache w1 = cache w /\ console w1 = console w
  /\ posted w1 = posted w ++ option_list (post_of fullPrompt provider).
Proof.
  unfold callProvider, post_of, axios_post. cbv zeta.
  destruct (requestData (name provider) fullPrompt) as [data|message].
  - destruct (net (posted w) (now w) _) as [outcome elapsed].
    destruct outcome as [body|message].
    + destruct (parseResponse body (name provider));
        intros [= <- <-]; by cbn.
    + intros [= <- <-]; by cbn.
  - intros [= <- <-]. cbn. by rewrite app_nil_r.
Qed.

Lemma failed_run_frame fullPrompt ps w w' :
  failed_run net fullPrompt ps w w' ->
  cache w' = cache w
  /\ posted w' = posted w ++ omap (post_of fullPrompt) ps.
Proof.
  induction 1 as [w|p ps w r w1 w2 Hcall Hfail _ [IHc IHp]].
  - by rewrite app_nil_r.
  - destruct (callProvider_frame _ _ _ _ _ Hcall) as (Hc & _ & Hp).
    assert (cache (after_failure p r w1) = cache w1
            /\ posted (after_failure p r w1) = posted w1) as [Hc' Hp']
      by (by destruct r).
    split; [congruence |].
    rewrite IHp, Hp', Hp. cbn [omap list_omap]. unfold option_list.
    destruct (post_of fullPrompt p); by rewrite <- app_assoc.
Qed.

(** What the loop leaves behind. When it ends with a result, that result
    is what the call to one provider [p] returned, it is truthy, the
    calls to the providers listed before [p] were made and failed, the
    providers after [p] were not called, and the result was written to
    the cache; when it runs to the end, the call to every provider was
    made and failed. *)
Lemma try_providers_run ps cacheKey fullPrompt w o w' :
  try_providers net ps cacheKey fullPrompt w = (o, w') ->
  match o with
  | Some r =>
      exists before p after w0 w1,
        ps = before ++ p :: after
        /\ failed_run net fullPrompt before w w0
        /\ callProvider net p fullPrompt w0 = (Return r, w1)
        /\ truthy r = true
        /\ w' = cache_set cacheKey r w1
  | None => failed_run net fullPrompt ps w w'
  end.
Proof.
  revert w. induction ps as [|p ps IH]; intros w; cbn [try_providers].
  - intros [= <- <-]. constructor.
  - destruct (callProvider net p fullPrompt w) as [r w1] eqn:Hcall.
    assert (call_fails r ->
            try_providers net ps cacheKey fullPrompt (after_failure p r w1)
              = (o, w') ->
            match o with
            | Some r0 =>
                exists before p0 after w0 w3,
                  p :: ps = before ++ p0 :: after
                  /\ failed_run net fullPrompt before w w0
                  /\ callProvider net p0 fullPrompt w0 = (Return r0, w3)
                  /\ truthy r0 = true
                  /\ w' = cache_set cacheKey r0 w3
            | None => failed_run net fullPrompt (p :: ps) w w'
            end) as Hrest.
    { intros Hfail Hrun. specialize (IH _ Hrun). destruct o as [r0|].
      - destruct IH as (before & p0 & after & w0 & w3 & -> & H1 & H2 & H3 & H4).
        exists (p :: before), p0, after, w0, w3.
        repeat split; try done. by econstructor.
      - by econstructor. }
    destruct r as [result|message].
    + destruct (truthy result) eqn:Ht.
      * intros [= <- <-]. exists [], p, ps, w, w1.
        repeat split; try done. constructor.
      * by apply Hrest.
    + by apply Hrest.
Qed.

Lemma try_providers_trace ps cacheKey fullPrompt w o w' :
  try_providers net ps cacheKey fullPrompt w = (o, w') ->
  match o with
  | Some r =>
      exists before p after w0 w1,
        ps = before ++ p :: after
        /\ cache w0 = cache w
        /\ posted w0 = posted w ++ omap (post_of fullPrompt) before
        /\ callProvider net p fullPrompt w0 = (Return r, w1)
        /\ truthy r = true
        /\ w' = cache_set cacheKey r w1
  | None =>
      cache w' = cache w
      /\ posted w' = posted w ++ omap (post_of fullPrompt) ps
  end.
Proof.
  intros Hrun. apply try_providers_run in Hrun. destruct o as [r|].
  - destruct Hrun as (before & p & after & w0 & w1 & Hps & Hfailed & Hrest).
    destruct (failed_run_frame _ _ _ _ Hfailed) as [Hc Hp].
    by exists before, p, after, w0, w1.
  - by apply failed_run_frame.
Qed.

(** A loop over providers whose calls all fail runs to its end. *)
Lemma failed_run_loop ps cacheKey fullPrompt w w' :
  failed_run net fullPrompt ps w w' ->
  try_providers net ps cacheKey fullPrompt w = (None, w').
Proof.
  induction 1 as [w|p ps w r w1 w2 Hcall Hfail _ IH]; [done |].
  cbn [try_providers]. rewrite Hcall.
  destruct r as [result|message]; cbn in Hfail, IH; [by rewrite Hfail | done].
Qed.

Lemma failed_run_app fullPrompt before after w w0 w' :
  failed_run net fullPrompt before w w0 ->
  failed_run net fullPrompt after w0 w' ->
  failed_run net fullPrompt (before ++ after) w w'.
Proof.
  induction 1 as [w|p ps w r w1 w2 Hcall Hfail _ IH]; [done |].
  intros Hafter. cbn [app]. econstructor; eauto.
Qed.

(** Providers whose calls fail whenever they are made fail in a run. *)
Lemma always_failing_run ps fullPrompt w :
  (forall p w0, p ∈ ps ->
     call_fails (fst (callProvider net p fullPrompt w0))) ->
  exists w', failed_run net fullPrompt ps w w'.
Proof.
  revert w. induction ps as [|p ps IH]; intros w Hfail.
  - exists w. constructor.
  - pose proof (Hfail p w ltac:(left)) as Hp.
    destruct (callProvider net p fullPrompt w) as [r w1] eqn:Hcall.
    destruct (IH (after_failure p r w1)) as [w' Hrun].
    { intros q w0 Hq. apply Hfail. by right. }
    exists w'. by econstructor.
Qed.

End Loop.

(** ** The orchestrator *)

Section Orchestrator.

Variable net : Network.
Variable this : AIService.

Lemma cache_get_frame key w :
  let w0 := snd (cache_get key w) in
  now w0 = now w /\ posted w0 = posted w /\ console w0 = console w
  /\ (cache w0 = cache w \/ cache w0 = delete key (cache w)).
Proof.
  unfold cache_get, NodeCache.get.
  destruct (cache w !! key) as [e|]; [destruct (NodeCache.expired e (now w)) |];
    cbn; auto.
Qed.

Lemma cache_get_hit key w :
  truthy (fst (cache_get key w)) = true ->
  snd (cache_get key w) = w
  /\ exists e, cache w !! key = Some e /\ NodeCache.v e = fst (cache_get key w)
               /\ NodeCache.expired e (now w) = false.
Proof.
  unfold cache_get, NodeCache.get.
  destruct (cache w !! key) as [e|] eqn:He;
    [destruct (NodeCache.expired e (now w)) eqn:Hx |]; cbn; try done.
  intros _. split; [by destruct w | eauto].
Qed.

Lemma cache_get_live key w e :
  cache w !! key = Some e -> NodeCache.expired e (now w) = false ->
  cache_get key w = (NodeCache.v e, w).
Proof.
  intros He Hx. unfold cache_get, NodeCache.get. rewrite He, Hx.
  by destruct w.
Qed.

(** [generateContent] in the vocabulary above. *)
Lemma generateContent_eq request w :
  generateContent net this request w
  = let '(cached, w0) := cache_get (fingerprint request) w in
    if truthy cached then (Return cached, w0) else
    match full_prompt request with
    | Throw message => (Throw message, w0)
    | Return fullPrompt =>
      match try_providers net (enabled_providers this) (fingerprint request)
              fullPrompt w0 with
      | (Some result, w1) => (Return result, w1)
      | (None, w1) =>
        (Return (fallback_of request),
         cache_set (fingerprint request) (fallback_of request) w1)
      end
    end.
Proof.
  unfold generateContent, full_prompt, fallback_of, enabled_providers,
    fingerprint, resolve_template, language_of, tone_of.
  reflexivity.
Qed.

(** The ways a call can go. *)
Lemma generateContent_outcome request w r w' :
  generateContent net this request w = (r, w') ->
  let key := fingerprint request in
  let cached := fst (cache_get key w) in
  let w0 := snd (cache_get key w) in
  (truthy cached = true /\ r = Return cached /\ w' = w0)
  \/ (truthy cached = false /\
      ((exists message, full_prompt request = Throw message
                        /\ r = Throw message /\ w' = w0)
       \/ (exists fullPrompt, full_prompt request = Return fullPrompt /\
            ((exists result,
                try_providers net (enabled_providers this) key fullPrompt w0
                  = (Some result, w')
                /\ r = Return result)
             \/ (exists w1,
                  try_providers net (enabled_providers this) key fullPrompt w0
                    = (None, w1)
                  /\ r = Return (fallback_of request)
                  /\ w' = cache_set key (fallback_of request) w1))))).
Proof.
  rewrite generateContent_eq. cbv zeta.
  destruct (cache_get (fingerprint request) w) as [cached w0]. cbn [fst snd].
  destruct (truthy cached) eqn:Ht.
  { intros [= <- <-]. by left. }
  destruct (full_prompt request) as [fullPrompt|message].
  - destruct (try_providers net (enabled_providers this) (fingerprint request)
                fullPrompt w0) as [[result|] w1] eqn:Hloop;
      intros [= <- <-]; right; (split; [done |]); right;
      exists fullPrompt; (split; [done |]).
    + left. by exists result.
    + right. by exists w1.
  - intros [= <- <-]. right. split; [done |]. left. by exists message.
Qed.

End Orchestrator.

(** ** The prompt builder *)

Section Prompt.

Lemma template_object_of sp sections :
  template_object sp sections = template_of (lit sp) (map lit sections).
Proof. unfold template_object, template_of. by rewrite map_map. Qed.

Lemma join_item_strings sep (sections : list JsString.t) :
  join sep (map item_string (map Str sections)) = join sep sections.
Proof.
  rewrite map_map. f_equal. induction sections as [|s l IH]; [done |].
  cbn [map]. by rewrite IH.
Qed.

Lemma buildPrompt_template_of topic sp sections language tone :
  buildPrompt topic (template_of sp sections) language tone
  = Return (lines
      [ sp; []; language_directive language; tone_directive tone; [];
        lit "Topic: " ++ topic; [];
        lit "Please create high-quality content following this structure: "
          ++ join (lit " → ") sections;
        []; lit "Make it comprehensive, engaging, and actionable." ]).
Proof.
  unfold buildPrompt, template_of. cbv zeta.
  change (get_field (Obj ?props) systemPrompt) with (Return (Str sp)).
  change (get_field (Obj ?props) structure)
    with (Return (Arr (map Str sections))).
  cbn [mbind result_bind array_join mret result_ret to_string].
  by rewrite join_item_strings.
Qed.

Lemma occurs_in_lines_prefix (needle lead : JsString.t) before after :
  occurs_in needle (lines (before ++ (lead ++ needle) :: after)).
Proof.
  induction before as [|x before IH].
  - destruct after as [|y after].
    + exists lead, []. cbn. by rewrite app_nil_r.
    + exists lead, (LF ++ lines (y :: after)).
      rewrite app_nil_l, lines_cons. by rewrite <- !app_assoc.
  - destruct IH as (b & a & IH).
    assert (exists z rest, before ++ (lead ++ needle) :: after = z :: rest)
      as (z & rest & Hz) by (destruct before; eauto).
    rewrite <- app_comm_cons, Hz, lines_cons, <- Hz, IH.
    exists (x ++ LF ++ b), a. by rewrite <- !app_assoc.
Qed.

Lemma own_language_none language :
  language ∉ languages -> own_property languageInstructions language = None.
Proof.
  intros Hl. unfold own_property, languageInstructions. cbn [List.find fst].
  repeat case_bool_decide; try done; subst; exfalso; apply Hl;
    refine (bool_decide_unpack _ _); vm_compute; exact I.
Qed.

Lemma own_tone_none tone :
  tone ∉ tones -> own_property toneModifiers tone = None.
Proof.
  intros Hl. unfold own_property, toneModifiers. cbn [List.find fst].
  repeat case_bool_decide; try done; subst; exfalso; apply Hl;
    refine (bool_decide_unpack _ _); vm_compute; exact I.
Qed.

End Prompt.

(** C7. The prompt builder is a function of (topic, template, language,
    tone): for a template with preamble [sp] and section names
    [sections] it returns the ten lines below, in which the topic occurs
    literally and the section names occur in their declared order, joined
    with an arrow. The language directive is empty for english and for a
    language outside the seven that is not the name of a member of
    [Object.prototype], and likewise the tone directive for a tone
    outside the six; for the language [constructor], which is outside
    the seven, the directive is the text of the inherited function. *)
Theorem buildPrompt_shape :
  (forall topic sp sections language tone,
     exists out,
       buildPrompt topic (template_of sp sections) language tone = Return out
       /\ out = lines
            [ sp; []; language_directive language; tone_directive tone; [];
              lit "Topic: " ++ topic; [];
              lit "Please create high-quality content following this structure: "
                ++ join (lit " → ") sections;
              []; lit "Make it comprehensive, engaging, and actionable." ]
       /\ occurs_in topic out
       /\ occurs_in (join (lit " → ") sections) out)
  /\ language_directive (lit "english") = []
  /\ (forall language,
        language ∉ languages -> language ∉ object_prototype_names ->
        language_directive language = [])
  /\ (forall tone,
        tone ∉ tones -> tone ∉ object_prototype_names ->
        tone_directive tone = [])
  /\ (lit "constructor" ∉ languages)
  /\ language_directive (lit "constructor")
     = lit "function Object() { [native code] }".
Proof.
  split; [| split; [| split; [| split; [| split]]]].
  - intros topic sp sections language tone. eexists. split; [| split; [done |]].
    { apply buildPrompt_template_of. }
    split.
    + apply (occurs_in_lines_prefix topic (lit "Topic: ")
               [sp; []; language_directive language; tone_directive tone; []]).
    + apply (occurs_in_lines_prefix (join (lit " → ") sections)
               (lit "Please create high-quality content following this structure: ")
               [sp; []; language_directive language; tone_directive tone; [];
                lit "Topic: " ++ topic; []]).
  - reflexivity.
  - intros language Hl Hp. unfold language_directive, obj_get.
    rewrite own_language_none by done.
    by rewrite bool_decide_eq_false_2.
  - intros tone Ht Hp. unfold tone_directive, obj_get.
    rewrite own_tone_none by done.
    by rewrite bool_decide_eq_false_2.
  - refine (bool_decide_unpack _ _). vm_compute. exact I.
  - vm_compute. reflexivity.
Qed.

Section FallbackShape.

Lemma head_app (l r : JsString.t) : l <> [] -> head (l ++ r) = head l.
Proof. by destruct l. Qed.

Ltac first_unit :=
  cbv zeta; rewrite !marker_prefix, !marker_toneNote;
  rewrite language_marker_english, tone_marker_professional;
  rewrite lines_prefixed, !app_nil_l, lines_cons, <- !app_assoc;
  rewrite head_app by (vm_compute; discriminate);
  vm_compute; discriminate.

(** What a generator writes for english and professional does not begin
    with an opening bracket. *)
Lemma generator_head g prompt :
  g ∈ generators ->
  head (g prompt (lit "english") (lit "professional")) <> Some 91%N.
Proof.
  unfold generators. rewrite !elem_of_cons, elem_of_nil.
  intros [->|[->|[->|[->|[->|[]]]]]].
  - unfold generatePresentationTemplate. first_unit.
  - unfold generateDocumentTemplate. first_unit.
  - unfold generateSocialTemplate. first_unit.
  - unfold generateBlogTemplate. first_unit.
  - unfold generateEmailTemplate. first_unit.
Qed.

End FallbackShape.

(** C8. For every content type (one of the five, or any other that is
    not the name of a member of [Object.prototype], which is served by
    the document generator) the fallback content is a string made of the
    language marker, the tone marker and the main content, in this order.
    The language marker is the line [[Content in <language>]] and an
    empty line when the language is not english, the tone marker the
    line [[<tone> tone]] and an empty line when the tone is not
    professional, and each is empty otherwise; the main content, which is
    the whole output for english and professional, does not begin with a
    bracket. *)
Theorem fallback_markers prompt contentType language tone :
  contentType ∉ object_prototype_names ->
  exists main,
    generateFallbackContent prompt contentType (lit "english") (lit "professional")
      = Str main
    /\ head main <> Some 91%N
    /\ generateFallbackContent prompt contentType language tone
       = Str (language_marker language ++ tone_marker tone ++ main)
    /\ (language <> lit "english" ->
        language_marker language
        = lit "[Content in " ++ language ++ lit "]" ++ LF ++ LF)
    /\ (tone <> lit "professional" ->
        tone_marker tone = lit "[" ++ tone ++ lit " tone]" ++ LF ++ LF)
    /\ language_marker (lit "english") = []
    /\ tone_marker (lit "professional") = [].
Proof.
  intros Hct.
  exists (generator_for contentType prompt (lit "english") (lit "professional")).
  split; [by apply fallback_generated |].
  split; [apply generator_head, generator_for_listed |].
  split.
  { rewrite fallback_generated by done.
    by rewrite (generator_markers _ prompt language tone
                  (generator_for_listed contentType)). }
  split; [| split; [| split]].
  - intros Hl. unfold language_marker. by rewrite bool_decide_eq_false_2.
  - intros Ht. unfold tone_marker. by rewrite bool_decide_eq_false_2.
  - apply language_marker_english.
  - apply tone_marker_professional.
Qed.

Lemma fallback_markers_witness :
  exists main,
    generateFallbackContent (lit "solar power") (lit "blog") (lit "english")
      (lit "professional") = Str main
    /\ head main <> Some 91%N
    /\ generateFallbackContent (lit "solar power") (lit "blog") (lit "spanish")
         (lit "casual")
       = Str (language_marker (lit "spanish") ++ tone_marker (lit "casual") ++ main)
    /\ (lit "spanish" <> lit "english" ->
        language_marker (lit "spanish")
        = lit "[Content in " ++ lit "spanish" ++ lit "]" ++ LF ++ LF)
    /\ (lit "casual" <> lit "professional" ->
        tone_marker (lit "casual") = lit "[" ++ lit "casual" ++ lit " tone]" ++ LF ++ LF)
    /\ language_marker (lit "english") = []
    /\ tone_marker (lit "professional") = [].
Proof.
  apply (fallback_markers (lit "solar power") (lit "blog") (lit "spanish")
           (lit "casual")).
  refine (proj1 (bool_decide_eq_false _) _). vm_compute. reflexivity.
Defined.

(** ** The response parser *)

Ltac eval_decisions :=
  repeat match goal with
  | |- context [@bool_decide ?P ?d] =>
      let b := eval vm_compute in (@bool_decide P d) in
      match b with
      | true => change (@bool_decide P d) with true
      | false => change (@bool_decide P d) with false
      end
  end.

(** C5, as it is stated, fails: an empty body (the empty string), a body
    without the text field and an empty array are parsed without any
    error, to [undefined], and the provider call resolves to that. *)
Lemma parse_malformed_no_error :
  parseResponse (Str []) (lit "huggingface") = Return Undefined
  /\ parseResponse (Obj [(lit "error", Str (lit "Model is loading"))])
       (lit "huggingface") = Return Undefined
  /\ parseResponse (Arr []) (lit "ollama-proxy") = Return Undefined
  /\ (forall message,
        parseResponse (Str []) (lit "huggingface") <> Throw message)
  /\ fst (callProvider (answering (Str []) 5)
            {| name := lit "huggingface"; url := lit "https://hf.example";
               headers := []; enabled := true |}
            (lit "prompt") (start 0))
     = Return Undefined.
Proof.
  repeat split; try (vm_compute; reflexivity).
  intros message. vm_compute. discriminate.
Qed.

(** C5, amended. The parser reads [generated_text] of a plain object and
    of the first element of an array for huggingface, and [response] or
    else [text] for the two other providers. It throws the error
    [Failed to parse response from <provider>] on a body that is [null]
    or [undefined], which the provider call rethrows with the provider
    name in front. A string body and an empty array are parsed to
    [undefined] for each of the three providers, without an error. *)
Theorem parseResponse_shapes :
  (forall props,
     parseResponse (Obj props) (lit "huggingface")
     = Return (obj_get props (lit "generated_text")))
  /\ (forall props items,
        parseResponse (Arr (Obj props :: items)) (lit "huggingface")
        = Return (obj_get props (lit "generated_text")))
  /\ (forall props,
        Forall (fun providerName =>
                  parseResponse (Obj props) providerName
                  = Return (or_else (obj_get props (lit "response"))
                                    (obj_get props (lit "text"))))
          [lit "ollama-proxy"; lit "local-llm"])
  /\ (forall providerName,
        parseResponse Null providerName
        = Throw (lit "Failed to parse response from " ++ providerName)
        /\ parseResponse Undefined providerName
           = Throw (lit "Failed to parse response from " ++ providerName))
  /\ (forall s,
        Forall (fun providerName =>
                  parseResponse (Str s) providerName = Return Undefined
                  /\ parseResponse (Arr []) providerName = Return Undefined)
          provider_names)
  /\ (forall provider fullPrompt w elapsed,
        exists message,
          fst (callProvider (answering Null elapsed) provider fullPrompt w)
          = Throw (name provider ++ lit " API call failed: " ++ message)).
Proof.
  split; [| split; [| split; [| split; [| split]]]].
  - intros props. unfold parseResponse. by eval_decisions.
  - intros props items. unfold parseResponse. by eval_decisions.
  - intros props. repeat constructor; unfold parseResponse; eval_decisions;
      cbn [get_field mbind result_bind mret result_ret]; unfold or_else;
      change (field_name response) with (lit "response");
      change (field_name text) with (lit "text");
      by destruct (truthy (obj_get props (lit "response"))).
  - intros providerName. unfold parseResponse.
    split; by repeat case_bool_decide.
  - intros s. repeat constructor; unfold parseResponse; by eval_decisions.
  - intros provider fullPrompt w elapsed. unfold callProvider. cbv zeta.
    destruct (requestData (name provider) fullPrompt) as [data|message];
      [| by eexists].
    unfold axios_post, answering. cbn [fst].
    destruct (parseResponse Null (name provider)) as [a|message] eqn:Hparse;
      cbn [fst]; [| by eexists].
    exfalso. revert Hparse. unfold parseResponse. by repeat case_bool_decide.
Qed.

(** ** What a call does to the cache *)

Section Writes.

Variable net : Network.
Variable this : AIService.

Lemma template_object_truthy sp sections :
  truthy (template_object sp sections) = true.
Proof. reflexivity. Qed.

Lemma full_prompt_returns request :
  contentType request ∉ object_prototype_names ->
  exists fullPrompt, full_prompt request = Return fullPrompt.
Proof.
  intros Hct. unfold full_prompt, resolve_template, contentTemplates.
  rewrite dispatch_or_document by (done || apply template_object_truthy).
  repeat case_bool_decide;
    rewrite template_object_of, buildPrompt_template_of; by eexists.
Qed.

Lemma full_prompt_throws request :
  contentType request ∈ object_prototype_names ->
  exists message, full_prompt request = Throw message.
Proof.
  intros Hct. unfold full_prompt, resolve_template.
  assert (obj_get contentTemplates (contentType request)
          = Builtin (contentType request)) as ->.
  { unfold obj_get. rewrite bool_decide_eq_true_2 by done.
    unfold own_property, contentTemplates. cbn [List.find fst].
    repeat case_bool_decide; try done; exfalso;
      match goal with H : _ = contentType request |- _ => rewrite <- H in Hct end;
      revert Hct; refine (proj1 (bool_decide_eq_false _) _);
      vm_compute; reflexivity. }
  unfold or_else. cbn [truthy]. unfold buildPrompt. cbv zeta.
  cbn [get_field mbind result_bind array_join]. by eexists.
Qed.

(** A call leaves the cache as the lookup of the key left it, or writes
    one entry, under the key of the request: the truthy result of the
    call to an enabled provider, or the fallback content, which is then
    a string. *)
Lemma generateContent_writes request w r w' :
  generateContent net this request w = (r, w') ->
  let key := fingerprint request in
  let looked := cache (snd (cache_get key w)) in
  (cache w' = looked
   /\ (r = Return (fst (cache_get key w)) /\ truthy (fst (cache_get key w)) = true
       \/ exists message, r = Throw message))
  \/ (exists result,
        r = Return result /\ truthy result = true
        /\ truthy (fst (cache_get key w)) = false
        /\ cache w'
           = <[key := {| NodeCache.v := result;
                         NodeCache.t := NodeCache.livetime (now w') |}]> looked
        /\ ((exists p fullPrompt w0,
               enabled p = true /\ p ∈ providers this
               /\ fst (callProvider net p fullPrompt w0) = Return result)
            \/ (result = fallback_of request /\ is_string result))).
Proof.
  intros Hrun key looked.
  destruct (generateContent_outcome net this _ _ _ _ Hrun)
    as [(Ht & -> & ->)|(Ht & [(message & Hp & -> & ->)|(fullPrompt & Hp & Hloop)])].
  - left. split; [done |]. by left.
  - left. split; [done |]. right. by exists message.
  - right. destruct Hloop as [(result & Hloop & ->)|(w1 & Hloop & -> & ->)];
      apply try_providers_trace in Hloop.
    + destruct Hloop as (before & p & after & w0 & w1 & Hps & Hc & _ & Hcall & Htr & ->).
      exists result. repeat split; try done.
      * destruct (callProvider_frame _ _ _ _ _ _ Hcall) as (Hc1 & _).
        unfold cache_set. cbn [cache now]. unfold NodeCache.set.
        by rewrite Hc1, Hc.
      * left. exists p, fullPrompt, w0.
        assert (p ∈ enabled_providers this) as Hin
          by (rewrite Hps; set_solver).
        unfold enabled_providers in Hin.
        apply list_elem_of_In, filter_In in Hin as [Hin He].
        rewrite <- list_elem_of_In in Hin. by rewrite Hcall.
    + destruct Hloop as [Hc _].
      exists (fallback_of request). repeat split; try done.
      * apply fallback_truthy.
      * unfold cache_set. cbn [cache now]. unfold NodeCache.set. by rewrite Hc.
      * right. split; [done |].
        destruct (decide (contentType request ∈ object_prototype_names)) as [Hin|Hout].
        -- destruct (full_prompt_throws _ Hin) as [message Hm]. congruence.
        -- unfold fallback_of. rewrite fallback_generated by done. by eexists.
Qed.

(** What a call returns is in the cache afterwards, under the key of the
    request. *)
Lemma returned_is_cached request w content w' :
  generateContent net this request w = (Return content, w') ->
  exists e, cache w' !! fingerprint request = Some e /\ NodeCache.v e = content.
Proof.
  intros Hrun.
  destruct (generateContent_writes _ _ _ _ Hrun)
    as [[Hc [[[= ->] Ht]|[message Hm]]]|(result & [= ->] & _ & _ & -> & _)].
  - destruct (cache_get_hit _ _ Ht) as (Hsame & e & He & Hv & _).
    rewrite Hc, Hsame. by exists e.
  - done.
  - rewrite lookup_insert_eq. by eexists.
Qed.

End Writes.

(** ** Invariants of the cache *)

Section Invariants.

Variable net : Network.
Variable this : AIService.

Lemma looked_lookup key w k e :
  cache (snd (cache_get key w)) !! k = Some e -> cache w !! k = Some e.
Proof.
  destruct (cache_get_frame key w) as (_ & _ & _ & [-> | ->]); [done |].
  rewrite lookup_delete_Some. tauto.
Qed.

Lemma served_truthy request w :
  cache_truthy w -> cache_truthy (snd (generateContent net this request w)).
Proof.
  intros Hw. destruct (generateContent net this request w) as [r w'] eqn:Hrun.
  cbn [snd]. intros k e.
  destruct (generateContent_writes net this _ _ _ _ Hrun)
    as [[-> _]|(result & _ & Ht & _ & -> & _)].
  - intros He. eapply Hw, looked_lookup, He.
  - rewrite lookup_insert. case_decide.
    + by intros [= <-].
    + intros He. eapply Hw, looked_lookup, He.
Qed.

Lemma served_strings request w :
  string_results net -> cache_strings w ->
  cache_strings (snd (generateContent net this request w)).
Proof.
  intros Hnet Hw.
  destruct (generateContent net this request w) as [r w'] eqn:Hrun.
  cbn [snd]. intros k e.
  destruct (generateContent_writes net this _ _ _ _ Hrun)
    as [[-> _]|(result & _ & Ht & _ & -> & Hfrom)].
  - intros He. eapply Hw, looked_lookup, He.
  - rewrite lookup_insert. case_decide.
    + intros [= <-]. cbn.
      destruct Hfrom as [(p & fullPrompt & w0 & _ & _ & Hcall)|[_ Hs]]; [| done].
      by eapply Hnet.
    + intros He. eapply Hw, looked_lookup, He.
Qed.

Lemma reachable_truthy w : reachable net this w -> cache_truthy w.
Proof.
  induction 1 as [time|w request _ IH|w elapsed _ IH|w _ IH].
  - intros k e. cbn. by rewrite lookup_empty.
  - by apply served_truthy.
  - exact IH.
  - intros k e. cbn. unfold NodeCache.checkData.
    rewrite map_lookup_filter_Some. intros [He _]. by eapply IH.
Qed.

Lemma reachable_strings w :
  string_results net -> reachable net this w -> cache_strings w.
Proof.
  intros Hnet. induction 1 as [time|w request _ IH|w elapsed _ IH|w _ IH].
  - intros k e. cbn. by rewrite lookup_empty.
  - by apply served_strings.
  - exact IH.
  - intros k e. cbn. unfold NodeCache.checkData.
    rewrite map_lookup_filter_Some. intros [He _]. by eapply IH.
Qed.

Lemma well_formed_resolvable request :
  well_formed request -> contentType request ∉ object_prototype_names.
Proof.
  intros [Hct _]. revert Hct. generalize (contentType request).
  apply Forall_forall. refine (bool_decide_unpack _ _). vm_compute. exact I.
Qed.

End Invariants.

(** ** The contract of [generateContent] *)

(** C1, as it is stated, fails: when the first provider answers with a
    number in the text field, the number, which is not a string, is what
    a well-formed request gets back from a process that has just
    started. *)
Lemma generateContent_returns_number :
  well_formed blog_request
  /\ reachable (answering number_body 120) constructor (start 0)
  /\ fst (generateContent (answering number_body 120) constructor blog_request
            (start 0))
     = Return (Num 42)
  /\ ~ is_string (Num 42).
Proof.
  split; [| split; [| split]].
  - repeat split; refine (bool_decide_unpack _ _); vm_compute; exact I.
  - constructor.
  - vm_compute. reflexivity.
  - intros [s Hs]. discriminate Hs.
Qed.

(** C1, amended. For every well-formed request, in every state the
    process can reach, [generateContent] returns: no error comes out of
    it, and the value returned is truthy (not empty). The value is a
    string when it is the fallback content, and on every path when the
    providers give nothing truthy but strings. *)
Theorem generateContent_returns net this request w :
  reachable net this w -> well_formed request ->
  exists r w',
    generateContent net this request w = (Return r, w')
    /\ truthy r = true
    /\ (r = fallback_of request -> is_string r)
    /\ (string_results net -> is_string r).
Proof.
  intros Hw Hwf.
  pose proof (well_formed_resolvable _ Hwf) as Hct.
  destruct (generateContent net this request w) as [r w'] eqn:Hrun.
  assert (is_string (fallback_of request)) as Hfb.
  { unfold fallback_of. rewrite fallback_generated by done. by eexists. }
  destruct (generateContent_outcome net this _ _ _ _ Hrun)
    as [(Ht & -> & ->)|(Ht & [(message & Hp & -> & ->)|(fullPrompt & Hp & Hloop)])].
  - eexists _, _. split; [done |]. split; [done |]. split; [congruence |].
    intros Hnet. destruct (cache_get_hit _ _ Ht) as (_ & e & He & <- & _).
    eapply reachable_strings; eauto.
  - destruct (full_prompt_returns request Hct) as [fullPrompt Hf]. congruence.
  - destruct Hloop as [(result & Hloop & ->)|(w1 & Hloop & -> & ->)].
    + apply try_providers_trace in Hloop
        as (before & p & after & w0 & w1 & _ & _ & _ & Hcall & Htr & ->).
      eexists _, _. split; [done |]. split; [done |]. split; [congruence |].
      intros Hnet. eapply (Hnet p fullPrompt w0); [by rewrite Hcall | done].
    + eexists _, _. split; [done |]. split; [apply fallback_truthy |]. done.
Qed.

Lemma generateContent_returns_witness :
  exists r w',
    generateContent (rejecting (lit "timeout of 30000ms exceeded") 30000)
      constructor blog_request (start 0) = (Return r, w')
    /\ truthy r = true
    /\ (r = fallback_of blog_request -> is_string r)
    /\ (string_results (rejecting (lit "timeout of 30000ms exceeded") 30000)
        -> is_string r).
Proof.
  apply (generateContent_returns
           (rejecting (lit "timeout of 30000ms exceeded") 30000)
           constructor blog_request (start 0)).
  - constructor.
  - repeat split; refine (bool_decide_unpack _ _); vm_compute; exact I.
Defined.

(** ** Cache hits *)

Section Hits.

Variable net : Network.
Variable this : AIService.

Lemma generateContent_hit request w e :
  cache w !! fingerprint request = Some e ->
  NodeCache.expired e (now w) = false ->
  truthy (NodeCache.v e) = true ->
  generateContent net this request w = (Return (NodeCache.v e), w).
Proof.
  intros He Hx Ht. rewrite generateContent_eq.
  rewrite (cache_get_live _ _ _ He Hx). by rewrite Ht.
Qed.

Lemma written_not_expired (inserted time : N) content :
  (time < inserted + NodeCache.stdTTL * 1000)%N ->
  NodeCache.expired
    {| NodeCache.v := content; NodeCache.t := NodeCache.livetime inserted |}
    time = false.
Proof.
  intros Hlt. unfold NodeCache.expired, NodeCache.livetime. cbn.
  apply andb_false_intro2, N.ltb_ge. lia.
Qed.

(** After a call that missed and returned, the key holds what was
    returned, stamped with the time of the return. *)
Lemma miss_writes request w content w' :
  cache_miss request w ->
  generateContent net this request w = (Return content, w') ->
  truthy content = true
  /\ cache w' !! fingerprint request
     = Some {| NodeCache.v := content;
               NodeCache.t := NodeCache.livetime (now w') |}.
Proof.
  intros Hmiss Hrun. unfold cache_miss in Hmiss.
  destruct (generateContent_writes net this _ _ _ _ Hrun)
    as [[_ [[_ Ht]|[message Hm]]]|(result & [= ->] & Ht & _ & -> & _)].
  - congruence.
  - congruence.
  - split; [done |]. apply lookup_insert_eq.
Qed.

(** A request whose content type is none of the names that every object
    inherits is answered, in every world, with something truthy. *)
Lemma generateContent_truthy request w :
  contentType request ∉ object_prototype_names ->
  exists r w', generateContent net this request w = (Return r, w')
               /\ truthy r = true.
Proof.
  intros Hct.
  destruct (generateContent net this request w) as [r w'] eqn:Hrun.
  destruct (generateContent_outcome net this _ _ _ _ Hrun)
    as [(Ht & -> & ->)|(Ht & [(message & Hp & -> & ->)|(fullPrompt & Hp & Hloop)])].
  - by eexists _, _.
  - destruct (full_prompt_returns request Hct) as [fullPrompt Hf]. congruence.
  - destruct Hloop as [(result & Hloop & ->)|(w1 & Hloop & -> & ->)].
    + apply try_providers_trace in Hloop
        as (before & p & after & w0 & w1 & _ & _ & _ & Hcall & Htr & ->).
      by eexists _, _.
    + eexists _, _. split; [done |]. apply fallback_truthy.
Qed.

(** A call touches no key of the cache but the key of the request. *)
Lemma other_keys_untouched request w r w' key :
  generateContent net this request w = (r, w') ->
  key <> fingerprint request ->
  cache w' !! key = cache w !! key.
Proof.
  intros Hrun Hkey.
  assert (cache (snd (cache_get (fingerprint request) w)) !! key
          = cache w !! key) as Hlooked.
  { destruct (cache_get_frame (fingerprint request) w)
      as (_ & _ & _ & [-> | ->]); [done |].
    by rewrite lookup_delete_ne. }
  destruct (generateContent_writes net this _ _ _ _ Hrun)
    as [[-> _]|(result & _ & _ & _ & -> & _)]; [done |].
  by rewrite lookup_insert_ne.
Qed.

End Hits.

(** C2. When the cache holds, under the key of the request, a truthy
    content that was written less than the time to live (3600 seconds)
    ago, [generateContent] returns exactly that content and leaves the
    world as it is, so that nothing is posted to any provider, whatever
    the providers are and would answer; in every state the process can
    reach every cached content is truthy, so that this holds of every
    entry there. A call that misses the cache, for a content type that
    resolves to a template, returns; and when a call that missed has
    returned, the key holds what it returned, and the same request made
    again less than the time to live later returns the same content,
    again without any change to the world and whatever the providers
    would answer now. *)
Theorem cached_content_returned net this request w :
  (forall content inserted net' this',
     cache w !! fingerprint request
       = Some {| NodeCache.v := content;
                 NodeCache.t := NodeCache.livetime inserted |} ->
     (now w < inserted + NodeCache.stdTTL * 1000)%N ->
     truthy content = true ->
     generateContent net' this' request w = (Return content, w))
  /\ (reachable net this w ->
      forall content inserted,
        cache w !! fingerprint request
          = Some {| NodeCache.v := content;
                    NodeCache.t := NodeCache.livetime inserted |} ->
        (now w < inserted + NodeCache.stdTTL * 1000)%N ->
        generateContent net this request w = (Return content, w))
  /\ (forall r w1 elapsed,
        cache_miss request w ->
        generateContent net this request w = (Return r, w1) ->
        (elapsed < NodeCache.stdTTL * 1000)%N ->
        cache w1 !! fingerprint request
        = Some {| NodeCache.v := r;
                  NodeCache.t := NodeCache.livetime (now w1) |}
        /\ (forall net' this',
              generateContent net' this' request (later elapsed w1)
              = (Return r, later elapsed w1))
        /\ posted (later elapsed w1) = posted w1)
  /\ (contentType request ∉ object_prototype_names ->
      cache_miss request w ->
      exists r w1,
        generateContent net this request w = (Return r, w1)
        /\ truthy r = true).
Proof.
  split; [| split; [| split]].
  - intros content inserted net' this' He Hlt Ht.
    apply (generateContent_hit net' this' request w _ He); [| done].
    by apply written_not_expired.
  - intros Hw content inserted He Hlt.
    apply (generateContent_hit net this request w _ He).
    + by apply written_not_expired.
    + apply (reachable_truthy net this w Hw _ _ He).
  - intros r w1 elapsed Hmiss Hrun Hlt.
    destruct (miss_writes net this _ _ _ _ Hmiss Hrun) as [Ht He].
    split; [done |]. split; [| done]. intros net' this'.
    assert (cache (later elapsed w1) !! fingerprint request
            = Some {| NodeCache.v := r;
                      NodeCache.t := NodeCache.livetime (now w1) |}) as He'
      by exact He.
    apply (generateContent_hit net' this' request _ _ He'); [| done].
    apply written_not_expired. cbn [later now]. lia.
  - intros Hct _. by apply generateContent_truthy.
Qed.

Lemma cached_content_returned_witness :
  let net := answering text_body 120 in
  let down := rejecting (lit "timeout of 30000ms exceeded") 30000 in
  exists w1,
    cache_miss blog_request (start 0)
    /\ generateContent net constructor blog_request (start 0)
       = (Return (Str (lit "Solar and wind are growing.")), w1)
    /\ cache w1 !! fingerprint blog_request
       = Some {| NodeCache.v := Str (lit "Solar and wind are growing.");
                 NodeCache.t := NodeCache.livetime (now w1) |}
    /\ generateContent down all_disabled blog_request (later 1800000 w1)
       = (Return (Str (lit "Solar and wind are growing.")), later 1800000 w1)
    /\ posted (later 1800000 w1) = posted w1.
Proof.
  intros net down.
  destruct (cached_content_returned net constructor blog_request (start 0))
    as (_ & _ & Hreuse & _).
  assert (cache_miss blog_request (start 0)) as Hmiss
    by (vm_compute; reflexivity).
  assert (generateContent net constructor blog_request (start 0)
          = (Return (Str (lit "Solar and wind are growing.")),
             snd (generateContent net constructor blog_request (start 0))))
    as Hrun by (vm_compute; reflexivity).
  destruct (Hreuse _ _ 1800000%N Hmiss Hrun) as (He & Hsame & Hposted).
  - reflexivity.
  - eexists. exact (conj Hmiss (conj Hrun (conj He
                      (conj (Hsame down all_disabled) Hposted)))).
Defined.

(** A run: the first call asks the first provider, the second call, half
    an hour later, asks nobody. *)
Example second_call_is_served_from_cache :
  let net := answering text_body 120 in
  let '(r1, w1) := generateContent net constructor blog_request (start 0) in
  let '(r2, w2) := generateContent net constructor blog_request (later 1800000 w1) in
  r1 = Return (Str (lit "Solar and wind are growing."))
  /\ r2 = r1 /\ length (posted w1) = 1 /\ length (posted w2) = 1.
Proof. vm_compute. repeat split. Qed.

(** ** One entry per key *)

Section Entries.

Lemma nodup_constant {A} (a : A) (l : list A) :
  NoDup l -> (forall x, x ∈ l -> x = a) -> a ∈ l -> l = [a].
Proof.
  intros Hnd Hall Hin. destruct l as [|x [|y l]].
  - by apply elem_of_nil in Hin.
  - by rewrite (Hall x) by left.
  - exfalso. apply NoDup_cons in Hnd as [Hx _]. apply Hx.
    rewrite (Hall x), <- (Hall y); [left | right; left | left].
Qed.

Lemma entries_under_lookup (key : JsString.t)
    (data : gmap JsString.t NodeCache.entry) :
  entries_under key data
  = match data !! key with Some e => [(key, e)] | None => [] end.
Proof.
  unfold entries_under.
  assert (forall kv, kv ∈ filter (fun kv => fst kv = key) (map_to_list data)
                     <-> fst kv = key /\ data !! fst kv = Some (snd kv)) as Hel.
  { intros [k e]. rewrite list_elem_of_filter, elem_of_map_to_list. tauto. }
  destruct (data !! key) as [e|] eqn:He.
  - apply nodup_constant.
    + apply NoDup_filter, NoDup_map_to_list.
    + intros [k e'] [Hk He']%Hel. cbn in *. subst. congruence.
    + apply Hel. by cbn.
  - destruct (filter _ _) as [|[k e] l] eqn:Hl; [done |].
    assert ((k, e) ∈ (k, e) :: l) as [Hk He']%Hel by left.
    cbn in *. subst. congruence.
Qed.

Lemma size_insert_le (key : JsString.t) (e : NodeCache.entry)
    (data : gmap JsString.t NodeCache.entry) :
  size (<[key := e]> data) <= S (size data)
  /\ (is_Some (data !! key) -> size (<[key := e]> data) = size data).
Proof.
  destruct (data !! key) as [e0|] eqn:He.
  - rewrite map_size_insert_Some by (by eexists). split; [lia | done].
  - rewrite map_size_insert_None by done. split; [lia |].
    by intros [? ?].
Qed.

Lemma size_delete_le (key : JsString.t)
    (data : gmap JsString.t NodeCache.entry) :
  size (delete key data) <= size data.
Proof.
  destruct (data !! key) as [e0|] eqn:He.
  - rewrite map_size_delete_Some by (by eexists). lia.
  - rewrite map_size_delete_None by done. lia.
Qed.

End Entries.

(** C9. In every state of the process, the cache holds at most one
    entry under every key. A write ([cache.set]) puts its value under
    the key, in the place of the entry that was there, and touches no
    other key. A call of [generateContent] touches no key but that of the
    request, leaves exactly one entry under it when it returns (the
    returned content), and does not add to the number of entries when
    the key already had one. *)
Theorem one_entry_per_fingerprint net this w :
  (forall key, length (entries_under key (cache w)) <= 1)
  /\ (forall key val,
        entries_under key (cache (cache_set key val w))
        = [(key, {| NodeCache.v := val;
                    NodeCache.t := NodeCache.livetime (now w) |})]
        /\ (forall other, other <> key ->
              cache (cache_set key val w) !! other = cache w !! other)
        /\ (is_Some (cache w !! key) ->
              size (cache (cache_set key val w)) = size (cache w)))
  /\ (forall request r w',
        generateContent net this request w = (r, w') ->
        (forall key, key <> fingerprint request ->
           cache w' !! key = cache w !! key)
        /\ (forall content, r = Return content ->
              exists e, entries_under (fingerprint request) (cache w')
                        = [(fingerprint request, e)]
                        /\ NodeCache.v e = content)
        /\ size (cache w') <= S (size (cache w))
        /\ (is_Some (cache w !! fingerprint request) ->
            size (cache w') <= size (cache w))).
Proof.
  split; [| split].
  - intros key. rewrite entries_under_lookup. destruct (_ !! _); cbn; lia.
  - intros key val. cbn [cache_set cache]. unfold NodeCache.set.
    rewrite entries_under_lookup, lookup_insert_eq. split; [done |]. split.
    + intros other Hne. by rewrite lookup_insert_ne.
    + apply size_insert_le.
  - intros request r w' Hrun. split; [| split; [| split]].
    + intros key Hne.
      assert (cache (snd (cache_get (fingerprint request) w)) !! key
              = cache w !! key) as Hlooked.
      { destruct (cache_get_frame (fingerprint request) w)
          as (_ & _ & _ & [-> | ->]); [done |]. by rewrite lookup_delete_ne. }
      destruct (generateContent_writes net this _ _ _ _ Hrun)
        as [[-> _]|(result & _ & _ & _ & -> & _)]; [done |].
      by rewrite lookup_insert_ne.
    + intros content ->. rewrite entries_under_lookup.
      destruct (returned_is_cached _ _ _ _ _ _ Hrun) as (e & -> & He).
      by exists e.
    + destruct (generateContent_writes net this _ _ _ _ Hrun)
        as [[-> _]|(result & _ & _ & _ & -> & _)];
        destruct (cache_get_frame (fingerprint request) w)
          as (_ & _ & _ & [-> | ->]).
      * lia.
      * pose proof (size_delete_le (fingerprint request) (cache w)). lia.
      * apply size_insert_le.
      * pose proof (size_delete_le (fingerprint request) (cache w)).
        pose proof (proj1 (size_insert_le (fingerprint request)
          {| NodeCache.v := result; NodeCache.t := NodeCache.livetime (now w') |}
          (delete (fingerprint request) (cache w)))). lia.
    + intros Hsome.
      destruct (generateContent_writes net this _ _ _ _ Hrun)
        as [[-> _]|(result & _ & _ & _ & -> & _)];
        destruct (cache_get_frame (fingerprint request) w)
          as (_ & _ & _ & [-> | ->]).
      * lia.
      * pose proof (size_delete_le (fingerprint request) (cache w)). lia.
      * by rewrite (proj2 (size_insert_le _ _ _)).
      * rewrite insert_delete_eq. by rewrite (proj2 (size_insert_le _ _ _)).
Qed.

Lemma one_entry_per_fingerprint_witness :
  let w := snd (generateContent (answering text_body 120) constructor
                  blog_request (start 0)) in
  length (entries_under (fingerprint blog_request) (cache w)) <= 1
  /\ entries_under (fingerprint blog_request)
       (cache (cache_set (fingerprint blog_request) (Str (lit "again")) w))
     = [(fingerprint blog_request,
         {| NodeCache.v := Str (lit "again");
            NodeCache.t := NodeCache.livetime (now w) |})].
Proof.
  intros w.
  destruct (one_entry_per_fingerprint (answering text_body 120) constructor w)
    as (Hone & Hset & _).
  split; [apply Hone | apply Hset].
Defined.

(** ** The order of the attempts *)

Section Attempts.

Variable net : Network.
Variable this : AIService.

Lemma enabled_provider_listed p :
  p ∈ enabled_providers this -> enabled p = true /\ p ∈ providers this.
Proof.
  unfold enabled_providers. rewrite list_elem_of_In, filter_In, <- list_elem_of_In.
  tauto.
Qed.

Lemma cache_set_lookup key val w :
  cache (cache_set key val w) !! key
  = Some {| NodeCache.v := val;
            NodeCache.t := NodeCache.livetime (now (cache_set key val w)) |}.
Proof. cbn. unfold NodeCache.set. apply lookup_insert_eq. Qed.

End Attempts.

(** C3. On a cache miss, for a request whose content type resolves to a
    template (every well-formed request is one), the calls that
    [generateContent] posts are those of a prefix of the enabled
    providers, in the order of the provider list, so that no provider
    with [enabled = false] is ever attempted. Either every provider of
    that prefix but the last failed and the last returned a truthy
    result, which is then cached under the key of the request and
    returned, and no provider after it is attempted; or the prefix is the
    whole list, every provider of it failed, and the fallback content is
    cached and returned. *)
Theorem providers_tried_in_order net this request w r w' :
  contentType request ∉ object_prototype_names ->
  cache_miss request w ->
  generateContent net this request w = (r, w') ->
  exists fullPrompt attempted w0 content,
    full_prompt request = Return fullPrompt
    /\ attempted `prefix_of` List.filter enabled (providers this)
    /\ Forall (fun p => enabled p = true /\ p ∈ providers this) attempted
    /\ posted w' = posted w ++ omap (post_of fullPrompt) attempted
    /\ r = Return content
    /\ cache w' !! fingerprint request
       = Some {| NodeCache.v := content;
                 NodeCache.t := NodeCache.livetime (now w') |}
    /\ ((exists before p w1,
           attempted = before ++ [p]
           /\ failed_run net fullPrompt before
                (snd (cache_get (fingerprint request) w)) w0
           /\ callProvider net p fullPrompt w0 = (Return content, w1)
           /\ truthy content = true
           /\ w' = cache_set (fingerprint request) content w1)
        \/ (attempted = List.filter enabled (providers this)
            /\ failed_run net fullPrompt attempted
                 (snd (cache_get (fingerprint request) w)) w0
            /\ content = fallback_of request
            /\ w' = cache_set (fingerprint request) content w0)).
Proof.
  intros Hct Hmiss Hrun. unfold cache_miss in Hmiss.
  fold (enabled_providers this).
  destruct (cache_get_frame (fingerprint request) w) as (_ & Hposted & _).
  destruct (generateContent_outcome net this _ _ _ _ Hrun)
    as [(Ht & _)|(_ & [(message & Hp & _)|(fullPrompt & Hp & Hloop)])].
  - congruence.
  - destruct (full_prompt_returns request Hct) as [fullPrompt Hf]. congruence.
  - exists fullPrompt.
    destruct Hloop as [(result & Hloop & ->)|(w1 & Hloop & -> & ->)];
      apply try_providers_run in Hloop.
    + destruct Hloop
        as (before & p & after & w0 & w1 & Hps & Hfailed & Hcall & Htr & ->).
      destruct (failed_run_frame _ _ _ _ _ Hfailed) as [_ Hp0].
      destruct (callProvider_frame _ _ _ _ _ _ Hcall) as (_ & _ & Hp1).
      exists (before ++ [p]), w0, result. split; [done |]. split.
      { exists after. by rewrite Hps, <- app_assoc. }
      split.
      { apply Forall_forall. intros q Hq. apply enabled_provider_listed.
        rewrite Hps. apply elem_of_app.
        apply elem_of_app in Hq as [Hq|Hq%list_elem_of_singleton];
          [by left | right; subst; left]. }
      split.
      { cbn [cache_set posted]. rewrite Hp1, Hp0, Hposted, omap_app.
        cbn [omap list_omap]. unfold option_list.
        destruct (post_of fullPrompt p); by rewrite <- app_assoc. }
      split; [done |]. split; [apply cache_set_lookup |].
      left. by exists before, p, w1.
    + destruct (failed_run_frame _ _ _ _ _ Hloop) as [_ Hp1].
      exists (enabled_providers this), w1, (fallback_of request).
      split; [done |]. split; [done |]. split.
      { apply Forall_forall. intros q Hq. by apply enabled_provider_listed. }
      split; [cbn [cache_set posted]; by rewrite Hp1, Hposted |].
      split; [done |]. split; [apply cache_set_lookup |].
      by right.
Qed.

(** A run on the provider list of the constructor, with the first
    provider down: the two enabled providers are called in their order,
    the disabled third one is not, the failure is reported on the
    console, and the answer of the second provider is returned. *)
Example constructor_providers_in_order :
  let '(r, w') := generateContent second_answers constructor blog_request (start 0) in
  r = Return (Str (lit "Wind power grows."))
  /\ map post_url (posted w')
     = [lit "https://api-inference.huggingface.co/models/microsoft/DialoGPT-medium";
        lit "https://ollama-proxy.vercel.app/api/generate"]
  /\ console w'
     = [lit "Provider huggingface failed: huggingface API call failed: Request failed with status code 503"]
  /\ now w' = 240%N.
Proof. vm_compute. repeat split. Qed.

Lemma providers_tried_in_order_witness :
  let run := generateContent second_answers constructor blog_request (start 0) in
  exists fullPrompt attempted w0 content,
    full_prompt blog_request = Return fullPrompt
    /\ attempted `prefix_of` List.filter enabled (providers constructor)
    /\ Forall (fun p => enabled p = true /\ p ∈ providers constructor) attempted
    /\ posted (snd run) = posted (start 0) ++ omap (post_of fullPrompt) attempted
    /\ fst run = Return content
    /\ cache (snd run) !! fingerprint blog_request
       = Some {| NodeCache.v := content;
                 NodeCache.t := NodeCache.livetime (now (snd run)) |}
    /\ ((exists before p w1,
           attempted = before ++ [p]
           /\ failed_run second_answers fullPrompt before
                (snd (cache_get (fingerprint blog_request) (start 0))) w0
           /\ callProvider second_answers p fullPrompt w0 = (Return content, w1)
           /\ truthy content = true
           /\ snd run = cache_set (fingerprint blog_request) content w1)
        \/ (attempted = List.filter enabled (providers constructor)
            /\ failed_run second_answers fullPrompt attempted
                 (snd (cache_get (fingerprint blog_request) (start 0))) w0
            /\ content = fallback_of blog_request
            /\ snd run = cache_set (fingerprint blog_request) content w0)).
Proof.
  intros run.
  apply (providers_tried_in_order second_answers constructor blog_request
           (start 0) (fst run) (snd run)).
  - refine (proj1 (bool_decide_eq_false _) _). vm_compute. reflexivity.
  - vm_compute. reflexivity.
  - apply surjective_pairing.
Defined.

(** ** Fallback content *)

(** C4. When the request misses the cache and the call to every enabled
    provider fails (which is so when no provider is enabled),
    [generateContent] returns the fallback content of the request, a
    string that is not empty. The fallback content depends on the four
    fields of the request only: two such calls, on any two networks, with
    any two provider lists and in any two states, return the same
    string. *)
Theorem fallback_when_providers_fail request net1 this1 w1 net2 this2 w2 :
  contentType request ∉ object_prototype_names ->
  cache_miss request w1 -> cache_miss request w2 ->
  (forall fullPrompt, full_prompt request = Return fullPrompt ->
     (exists after1,
        failed_run net1 fullPrompt (List.filter enabled (providers this1))
          (snd (cache_get (fingerprint request) w1)) after1)
     /\ (exists after2,
          failed_run net2 fullPrompt (List.filter enabled (providers this2))
            (snd (cache_get (fingerprint request) w2)) after2)) ->
  exists s,
    s <> []
    /\ generateFallbackContent (prompt request) (contentType request)
         (language_of request) (tone_of request) = Str s
    /\ fst (generateContent net1 this1 request w1) = Return (Str s)
    /\ fst (generateContent net2 this2 request w2) = Return (Str s).
Proof.
  intros Hct Hmiss1 Hmiss2 Hfail.
  destruct (full_prompt_returns request Hct) as [fullPrompt Hp].
  assert (forall net this w,
            cache_miss request w ->
            (exists after,
               failed_run net fullPrompt (List.filter enabled (providers this))
                 (snd (cache_get (fingerprint request) w)) after) ->
            fst (generateContent net this request w)
            = Return (fallback_of request)) as Hone.
  { intros net this w Hmiss [after Hrun]. unfold cache_miss in Hmiss.
    rewrite generateContent_eq.
    destruct (cache_get (fingerprint request) w) as [cached w0].
    cbn [fst snd] in Hmiss, Hrun. rewrite Hmiss, Hp.
    unfold enabled_providers.
    by rewrite (failed_run_loop net _ (fingerprint request) _ _ _ Hrun). }
  pose proof (fallback_truthy (prompt request) (contentType request)
                (language_of request) (tone_of request)) as Htr.
  assert (exists s, fallback_of request = Str s) as [s Hs].
  { unfold fallback_of. rewrite fallback_generated by done. by eexists. }
  unfold fallback_of in Hs. rewrite Hs in Htr.
  exists s. split; [by destruct s |]. split; [done |].
  destruct (Hfail fullPrompt Hp) as [H1 H2].
  rewrite <- Hs. split; by apply Hone.
Qed.

Lemma fallback_when_providers_fail_witness :
  exists s,
    s <> []
    /\ generateFallbackContent (prompt blog_request) (contentType blog_request)
         (language_of blog_request) (tone_of blog_request) = Str s
    /\ fst (generateContent (answering text_body 120) all_disabled
              blog_request (start 0)) = Return (Str s)
    /\ fst (generateContent (rejecting (lit "Network Error") 10) constructor
              blog_request (start 86400000)) = Return (Str s).
Proof.
  apply (fallback_when_providers_fail blog_request
           (answering text_body 120) all_disabled (start 0)
           (rejecting (lit "Network Error") 10) constructor (start 86400000)).
  - refine (proj1 (bool_decide_eq_false _) _). vm_compute. reflexivity.
  - vm_compute. reflexivity.
  - vm_compute. reflexivity.
  - intros fullPrompt _. split.
    + eexists. change (List.filter enabled (providers all_disabled)) with (@nil Provider).
      constructor.
    + apply always_failing_run. intros p w _.
      unfold callProvider, axios_post, rejecting. cbv zeta.
      destruct (requestData (name p) fullPrompt); exact I.
Defined.

(** The example of the specification: a blog request on renewable energy
    adoption with every provider disabled gives the blog skeleton, with
    no marker line in front of its title. *)
Example blog_fallback_skeleton :
  exists rest,
    fst (generateContent (answering text_body 120) all_disabled blog_request
           (start 0))
    = Return (Str (lit "# The Ultimate Guide to renewable energy adoption: Everything You Need to Know"
                   ++ LF ++ rest)).
Proof. vm_compute. eexists. reflexivity. Qed.

(** ** Falsy results *)

(** C10. When the call to a provider resolves to a falsy value, the loop
    goes on with the providers that remain, from the world that the call
    left, in which the cache is as it was; when none remains, the loop
    ends without a result, and [generateContent], for which that provider
    was the last enabled one after others that failed, then returns the
    fallback content. Whatever [generateContent] returns is truthy, and
    when it starts with a cache of truthy values it leaves one: a falsy
    value is neither cached nor returned. *)
Theorem falsy_result_is_failure net this p fullPrompt w result w1 :
  callProvider net p fullPrompt w = (Return result, w1) ->
  truthy result = false ->
  (forall rest cacheKey,
     try_providers net (p :: rest) cacheKey fullPrompt w
     = try_providers net rest cacheKey fullPrompt w1)
  /\ cache w1 = cache w
  /\ (forall cacheKey,
        try_providers net [p] cacheKey fullPrompt w = (None, w1))
  /\ (forall request w0 before,
        cache_miss request w0 ->
        full_prompt request = Return fullPrompt ->
        List.filter enabled (providers this) = before ++ [p] ->
        failed_run net fullPrompt before
          (snd (cache_get (fingerprint request) w0)) w ->
        generateContent net this request w0
        = (Return (fallback_of request),
           cache_set (fingerprint request) (fallback_of request) w1))
  /\ (forall request w0 r w',
        generateContent net this request w0 = (r, w') ->
        (forall content, r = Return content -> truthy content = true)
        /\ (cache_truthy w0 -> cache_truthy w')).
Proof.
  intros Hcall Hfalsy.
  assert (forall rest cacheKey,
            try_providers net (p :: rest) cacheKey fullPrompt w
            = try_providers net rest cacheKey fullPrompt w1) as Hstep.
  { intros rest cacheKey. cbn [try_providers]. by rewrite Hcall, Hfalsy. }
  split; [done |]. split.
  { by destruct (callProvider_frame _ _ _ _ _ _ Hcall) as (Hc & _). }
  split; [intros cacheKey; by rewrite Hstep |].
  split.
  - intros request w0 before Hmiss Hp Hps Hbefore. unfold cache_miss in Hmiss.
    rewrite generateContent_eq.
    destruct (cache_get (fingerprint request) w0) as [cached w0'] eqn:Hget.
    cbn [fst snd] in Hmiss, Hbefore.
    rewrite Hmiss, Hp. unfold enabled_providers. rewrite Hps.
    rewrite (failed_run_loop net (before ++ [p]) (fingerprint request)
               fullPrompt w0' w1); [done |].
    apply (failed_run_app net _ _ _ _ w); [done |].
    econstructor; [exact Hcall | exact Hfalsy | constructor].
  - intros request w0 r w' Hrun. split.
    + intros content ->.
      destruct (generateContent_writes net this _ _ _ _ Hrun)
        as [[_ [[[= ->] Ht]|[message Hm]]]|(res & [= ->] & Ht & _)]; done.
    + intros Hw0. pose proof (served_truthy net this request w0 Hw0) as Hinv.
      by rewrite Hrun in Hinv.
Qed.

Lemma falsy_result_is_failure_witness :
  let p := {| name := lit "huggingface"; url := lit "https://hf.example";
              headers := []; enabled := true |} in
  let net := answering (Str []) 5 in
  let w1 := snd (callProvider net p (lit "prompt") (start 0)) in
  (forall rest cacheKey,
     try_providers net (p :: rest) cacheKey (lit "prompt") (start 0)
     = try_providers net rest cacheKey (lit "prompt") w1)
  /\ cache w1 = cache (start 0)
  /\ (forall cacheKey,
        try_providers net [p] cacheKey (lit "prompt") (start 0) = (None, w1)).
Proof.
  intros p net w1.
  destruct (falsy_result_is_failure net huggingface_only p (lit "prompt")
              (start 0) Undefined w1) as (H1 & H2 & H3 & _).
  - vm_compute. reflexivity.
  - reflexivity.
  - auto.
Defined.

(** A run: the only provider answers with an empty body, and the request
    is served with the fallback content, which is the one entry of the
    cache afterwards. *)
Example empty_body_gives_fallback :
  fst (generateContent (answering (Str []) 5) huggingface_only blog_request
         (start 0))
  = Return (fallback_of blog_request)
  /\ size (cache (snd (generateContent (answering (Str []) 5) huggingface_only
                         blog_request (start 0)))) = 1.
Proof. vm_compute. split; reflexivity. Qed.

(** ** The cache key *)

Section Key.

Lemma well_formed_no_hyphen request :
  well_formed request ->
  (45%N ∉ contentType request) /\ (45%N ∉ language_of request)
  /\ (45%N ∉ tone_of request).
Proof.
  intros (Hc & Hl & Ht).
  repeat split; apply enumerated_no_hyphen; rewrite !elem_of_app; auto.
Qed.

End Key.

(** C6, as it is stated, fails: two requests that differ in language
    and in tone share a cache key when a hyphen stands inside a field.
    [POST /batch] validates neither the language nor the tone of a
    request, so both requests reach [generateContent], and the second
    one is served the content made for the first. *)
Lemma hyphenated_requests_share_a_key :
  let down := rejecting (lit "timeout of 30000ms exceeded") 30000 in
  contentType hyphenated_request = contentType hyphenated_request'
  /\ contentType hyphenated_request ∈ content_types
  /\ language_of hyphenated_request <> language_of hyphenated_request'
  /\ tone_of hyphenated_request <> tone_of hyphenated_request'
  /\ fingerprint hyphenated_request = fingerprint hyphenated_request'
  /\ fst (generateContent down constructor hyphenated_request'
            (snd (generateContent down constructor hyphenated_request (start 0))))
     = Return (fallback_of hyphenated_request)
  /\ fallback_of hyphenated_request <> fallback_of hyphenated_request'.
Proof.
  intros down. split; [reflexivity |].
  split; [refine (bool_decide_unpack _ _); vm_compute; exact I |].
  split; [vm_compute; discriminate |]. split; [vm_compute; discriminate |].
  split; [vm_compute; reflexivity |]. split; [vm_compute; reflexivity |].
  vm_compute. discriminate.
Qed.

(** C6, amended. The cache key of every request is its content type,
    its language, its tone and the hash of its topic, joined by hyphens.
    The hash is the decimal text of a signed 32-bit integer that starts
    at 0 and, for each code unit [c] of the topic in turn, goes from [h]
    to [31 * h + c] wrapped to 32 bits, so it is a function of the topic.
    Two requests whose three fields are in the enumerations, which hold
    no hyphen, and that differ in content type, language or tone have
    different keys. The key is the one that [generateContent] works
    with: a live truthy entry under it is what the call returns; a call
    that misses, for a content type that resolves to a template,
    returns and leaves what it returns under it; and no call touches
    another key. *)
Theorem cache_key_fingerprint request1 request2 :
  fingerprint request1
  = contentType request1 ++ lit "-" ++ language_of request1 ++ lit "-"
      ++ tone_of request1 ++ lit "-" ++ hashString (prompt request1)
  /\ hashString (prompt request1) = of_Z (hash_code (prompt request1))
  /\ (- 2 ^ 31 <= hash_code (prompt request1) < 2 ^ 31)%Z
  /\ hash_code [] = 0%Z
  /\ (forall s c,
        hash_code (s ++ [c]) = to_int32 (31 * hash_code s + Z.of_N c))
  /\ (well_formed request1 -> well_formed request2 ->
      contentType request1 <> contentType request2
      \/ language_of request1 <> language_of request2
      \/ tone_of request1 <> tone_of request2 ->
      fingerprint request1 <> fingerprint request2)
  /\ (forall net this w content w',
        generateContent net this request1 w = (Return content, w') ->
        exists e, cache w' !! fingerprint request1 = Some e
                  /\ NodeCache.v e = content)
  /\ (forall net this w e,
        cache w !! fingerprint request1 = Some e ->
        NodeCache.expired e (now w) = false ->
        truthy (NodeCache.v e) = true ->
        generateContent net this request1 w = (Return (NodeCache.v e), w))
  /\ (forall net this w,
        contentType request1 ∉ object_prototype_names ->
        cache_miss request1 w ->
        exists r w',
          generateContent net this request1 w = (Return r, w')
          /\ cache w' !! fingerprint request1
             = Some {| NodeCache.v := r;
                       NodeCache.t := NodeCache.livetime (now w') |})
  /\ (forall net this w r w' key,
        generateContent net this request1 w = (r, w') ->
        key <> fingerprint request1 ->
        cache w' !! key = cache w !! key).
Proof.
  split; [reflexivity |]. split; [reflexivity |].
  split; [apply hash_code_range |]. split; [reflexivity |].
  split; [apply hash_code_snoc |]. split; [| split; [| split; [| split]]].
  - intros Hwf1 Hwf2 Hdiff Heq. unfold fingerprint, cacheKey_of in Heq.
    destruct (well_formed_no_hyphen _ Hwf1) as (Hc1 & Hl1 & Ht1).
    destruct (well_formed_no_hyphen _ Hwf2) as (Hc2 & Hl2 & Ht2).
    apply cut_at_hyphen in Heq as [Hc Heq]; [| done | done].
    apply cut_at_hyphen in Heq as [Hl Heq]; [| done | done].
    apply cut_at_hyphen in Heq as [Ht _]; [| done | done].
    tauto.
  - intros net this w content w'. apply returned_is_cached.
  - intros net this w e. apply generateContent_hit.
  - intros net this w Hct Hmiss.
    destruct (generateContent_truthy net this request1 w Hct)
      as (r & w' & Hrun & _).
    exists r, w'. split; [done |].
    by destruct (miss_writes net this _ _ _ _ Hmiss Hrun).
  - intros net this w r w' key. apply other_keys_untouched.
Qed.

Lemma cache_key_fingerprint_witness :
  fingerprint blog_request <> fingerprint spanish_blog_request
  /\ exists r w',
       generateContent (answering text_body 120) constructor blog_request
         (start 0) = (Return r, w')
       /\ cache w' !! fingerprint blog_request
          = Some {| NodeCache.v := r;
                    NodeCache.t := NodeCache.livetime (now w') |}.
Proof.
  destruct (cache_key_fingerprint blog_request spanish_blog_request)
    as (_ & _ & _ & _ & _ & Hdiffer & _ & _ & Hmiss & _).
  split.
  - apply Hdiffer.
    + repeat split; refine (bool_decide_unpack _ _); vm_compute; exact I.
    + repeat split; refine (bool_decide_unpack _ _); vm_compute; exact I.
    + right. left. vm_compute. discriminate.
  - apply (Hmiss (answering text_body 120) constructor (start 0)).
    + refine (proj1 (bool_decide_eq_false _) _). vm_compute. reflexivity.
    + vm_compute. reflexivity.
Defined.

(** The keys of the two running requests. *)
Example blog_request_key :
  fingerprint blog_request = lit "blog-english-professional-" ++ hashString (lit "renewable energy adoption")
  /\ fingerprint spanish_blog_request
     = lit "blog-spanish-casual-" ++ hashString (lit "renewable energy adoption").
Proof. vm_compute. split; reflexivity. Qed.

(** The enumerations matter here: outside them, a hyphen inside a field
    can make the keys of two different requests coincide. *)
Example hyphenated_fields_share_a_key :
  cacheKey_of (lit "blog") (lit "x-y") (lit "z") (lit "solar power")
  = cacheKey_of (lit "blog") (lit "x") (lit "y-z") (lit "solar power").
Proof. vm_compute. reflexivity. Qed.

(** * More of the service *)

(** ** More on the string hash *)

Section HashMore.

Lemma to_int32_idem z : to_int32 (to_int32 z) = to_int32 z.
Proof. apply to_int32_small, to_int32_range. Qed.

Lemma hash_code_int32 s : to_int32 (hash_code s) = hash_code s.
Proof. apply to_int32_small, hash_code_range. Qed.

End HashMore.

(** X1. The hash of a concatenation is computed from the hashes of the
    two parts: the hash of the first part is multiplied by 31 once for
    every code unit of the second part, the hash of the second part is
    added, and the sum is wrapped to 32 bits. *)
Theorem hash_code_app (a b : JsString.t) :
  hash_code (a ++ b)
  = to_int32 (31 ^ Z.of_nat (length b) * hash_code a + hash_code b).
Proof.
  induction b as [|c b IH] using rev_ind.
  - rewrite app_nil_r. cbn [length]. change (hash_code []) with 0%Z.
    rewrite Z.pow_0_r, Z.mul_1_l, Z.add_0_r. symmetry. apply hash_code_int32.
  - rewrite app_assoc, !hash_code_snoc, IH, length_app. cbn [length].
    apply to_int32_congr.
    rewrite Nat2Z.inj_add, Z.pow_add_r by lia. change (Z.of_nat 1) with 1%Z.
    rewrite Z.pow_1_r.
    rewrite <- Zplus_mod_idemp_l, <- Zmult_mod_idemp_r, to_int32_mod,
      Zmult_mod_idemp_r, Zplus_mod_idemp_l.
    symmetry.
    rewrite <- Zplus_mod_idemp_r, to_int32_mod, Zplus_mod_idemp_r.
    f_equal. lia.
Qed.

(** ** More on the cache *)

Section CacheMore.

Lemma same_fingerprint request1 request2 :
  contentType request1 = contentType request2 ->
  language_of request1 = language_of request2 ->
  tone_of request1 = tone_of request2 ->
  hash_code (prompt request1) = hash_code (prompt request2) ->
  fingerprint request1 = fingerprint request2.
Proof.
  intros Hc Hl Ht Hh. unfold fingerprint, cacheKey_of, hashString.
  by rewrite Hc, Hl, Ht, Hh.
Qed.

End CacheMore.

(** X2. Topics with the same hash share a cache entry: when two requests
    agree on content type, language and tone and their topics have the
    same hash, and a call for the first one missed the cache and
    returned, then a call for the second one less than the time to live
    later returns the content of the first, and leaves the world as it
    is, so that no provider is asked about the second topic. *)
Theorem colliding_topics_share_content net this request1 request2 w content
    w1 elapsed :
  contentType request1 = contentType request2 ->
  language_of request1 = language_of request2 ->
  tone_of request1 = tone_of request2 ->
  hash_code (prompt request1) = hash_code (prompt request2) ->
  cache_miss request1 w ->
  generateContent net this request1 w = (Return content, w1) ->
  (elapsed < NodeCache.stdTTL * 1000)%N ->
  generateContent net this request2 (later elapsed w1)
  = (Return content, later elapsed w1).
Proof.
  intros Hc Hl Ht Hh Hmiss Hrun Hlt.
  destruct (miss_writes _ _ _ _ _ _ Hmiss Hrun) as [Htr He].
  rewrite (same_fingerprint _ _ Hc Hl Ht Hh) in He.
  assert (cache (later elapsed w1) !! fingerprint request2
          = Some {| NodeCache.v := content;
                    NodeCache.t := NodeCache.livetime (now w1) |}) as He'
    by exact He.
  apply (generateContent_hit net this request2 _ _ He'); [| done].
  apply written_not_expired. cbn [later now]. lia.
Qed.

Lemma colliding_topics_share_content_witness :
  let net := answering text_body 120 in
  let run := generateContent net constructor topic_Aa (start 0) in
  prompt topic_Aa <> prompt topic_BB
  /\ generateContent net constructor topic_BB (later 60000 (snd run))
     = (Return (Str (lit "Solar and wind are growing.")), later 60000 (snd run)).
Proof.
  intros net run. split; [vm_compute; discriminate |].
  apply (colliding_topics_share_content net constructor topic_Aa topic_BB
           (start 0)).
  - reflexivity.
  - reflexivity.
  - reflexivity.
  - vm_compute. reflexivity.
  - vm_compute. reflexivity.
  - vm_compute. reflexivity.
  - vm_compute. reflexivity.
Defined.

(** X3. An entry is served up to and including the millisecond at which
    its time to live ends, and not after it: for a request whose entry
    was written more than the time to live ago, the lookup misses and
    drops the entry; the call then goes to the providers or to the
    fallback, and when it returns, the key holds the returned content
    with a new time stamp; when it throws, the key holds nothing. *)
Theorem expired_entry_is_replaced net this request w content inserted :
  cache w !! fingerprint request
    = Some {| NodeCache.v := content;
              NodeCache.t := NodeCache.livetime inserted |} ->
  ((now w <= inserted + NodeCache.stdTTL * 1000)%N ->
   truthy content = true ->
   generateContent net this request w = (Return content, w))
  /\ ((inserted + NodeCache.stdTTL * 1000 < now w)%N ->
      cache_miss request w
      /\ cache (snd (cache_get (fingerprint request) w))
         = delete (fingerprint request) (cache w)
      /\ forall r w',
           generateContent net this request w = (r, w') ->
           match r with
           | Return result =>
               cache w' !! fingerprint request
               = Some {| NodeCache.v := result;
                         NodeCache.t := NodeCache.livetime (now w') |}
           | Throw _ => cache w' !! fingerprint request = None
           end).
Proof.
  intros He. split.
  - intros Hle Htr.
    apply (generateContent_hit net this request w _ He); [| done].
    unfold NodeCache.expired, NodeCache.livetime. cbn.
    apply andb_false_intro2, N.ltb_ge. lia.
  - intros Hlt.
    assert (cache_get (fingerprint request) w
            = (Undefined,
               {| cache := delete (fingerprint request) (cache w);
                  now := now w; posted := posted w; console := console w |}))
      as Hget.
    { unfold cache_get, NodeCache.get. rewrite He.
      unfold NodeCache.expired, NodeCache.livetime. cbn [NodeCache.t].
      replace (inserted + NodeCache.stdTTL * 1000 =? 0)%N with false
        by (symmetry; apply N.eqb_neq; unfold NodeCache.stdTTL; lia).
      replace (inserted + NodeCache.stdTTL * 1000 <? now w)%N with true
        by (symmetry; by apply N.ltb_lt).
      reflexivity. }
    assert (cache_miss request w) as Hmiss
      by (unfold cache_miss; by rewrite Hget).
    split; [done |]. split; [by rewrite Hget |].
    intros r w' Hrun. destruct r as [result|message].
    + by destruct (miss_writes _ _ _ _ _ _ Hmiss Hrun).
    + destruct (generateContent_writes net this _ _ _ _ Hrun)
        as [[-> _]|(result & [=] & _)].
      rewrite Hget. cbn. apply lookup_delete_eq.
Qed.

Lemma expired_entry_is_replaced_witness :
  let net := answering text_body 120 in
  let w := later 3600001
             (snd (generateContent net constructor blog_request (start 0))) in
  cache_miss blog_request w
  /\ cache (snd (cache_get (fingerprint blog_request) w))
     = delete (fingerprint blog_request) (cache w).
Proof.
  intros net w.
  destruct (expired_entry_is_replaced net constructor blog_request w
              (Str (lit "Solar and wind are growing.")) 120) as [_ Hexp].
  - vm_compute. reflexivity.
  - destruct Hexp as (H1 & H2 & _); [vm_compute; reflexivity |].
    exact (conj H1 H2).
Defined.

(** ** Content types outside the five *)

Section OtherTypes.

Lemma generator_for_unknown contentType :
  contentType ∉ content_types ->
  generator_for contentType = generateDocumentTemplate.
Proof.
  intros Hct. unfold generator_for.
  rewrite !bool_decide_eq_false_2; [reflexivity | ..];
    intros ->; apply Hct; refine (bool_decide_unpack _ _); vm_compute; exact I.
Qed.

Lemma resolve_template_unknown contentType :
  contentType ∉ content_types ->
  contentType ∉ object_prototype_names ->
  resolve_template contentType = resolve_template (lit "document").
Proof.
  intros Hct Hp. unfold resolve_template at 1. unfold contentTemplates.
  rewrite dispatch_or_document by (done || apply template_object_truthy).
  rewrite !bool_decide_eq_false_2; [reflexivity | ..];
    intros ->; apply Hct; refine (bool_decide_unpack _ _); vm_compute; exact I.
Qed.

Lemma full_prompt_inherited request :
  contentType request ∈ object_prototype_names ->
  full_prompt request
  = Throw (lit "Cannot read properties of undefined (reading 'join')").
Proof.
  intros Hct. unfold full_prompt, resolve_template.
  assert (obj_get contentTemplates (contentType request)
          = Builtin (contentType request)) as ->.
  { unfold obj_get. rewrite bool_decide_eq_true_2 by done.
    unfold own_property, contentTemplates. cbn [List.find fst].
    repeat case_bool_decide; try done; exfalso;
      match goal with H : _ = contentType request |- _ => rewrite <- H in Hct end;
      revert Hct; refine (proj1 (bool_decide_eq_false _) _);
      vm_compute; reflexivity. }
  reflexivity.
Qed.

End OtherTypes.

(** X4. A content type that is neither one of the five nor the name of
    an inherited member is served as a document: the request gets the
    prompt and the fallback content of the same request for a document.
    The two requests still have different cache keys. *)
Theorem unknown_content_type_is_document request :
  contentType request ∉ content_types ->
  contentType request ∉ object_prototype_names ->
  full_prompt request = full_prompt (with_contentType (lit "document") request)
  /\ fallback_of request = fallback_of (with_contentType (lit "document") request)
  /\ fingerprint request
     <> fingerprint (with_contentType (lit "document") request).
Proof.
  intros Hct Hp. split; [| split].
  - unfold full_prompt. cbn [with_contentType contentType prompt].
    by rewrite resolve_template_unknown.
  - unfold fallback_of. cbn [with_contentType contentType prompt].
    rewrite !fallback_generated;
      [| refine (proj1 (bool_decide_eq_false _) _); vm_compute; reflexivity
       | done].
    rewrite generator_for_unknown by done.
    assert (generator_for (lit "document") = generateDocumentTemplate) as ->.
    { unfold generator_for. by eval_decisions. }
    reflexivity.
  - unfold fingerprint, cacheKey_of. cbn [with_contentType contentType prompt].
    intros Heq.
    change (language_of (with_contentType (lit "document") request))
      with (language_of request) in Heq.
    change (tone_of (with_contentType (lit "document") request))
      with (tone_of request) in Heq.
    apply app_inv_tail in Heq. apply Hct. rewrite Heq.
    refine (bool_decide_unpack _ _). vm_compute. exact I.
Qed.

Lemma unknown_content_type_is_document_witness :
  full_prompt poem_request
    = full_prompt (with_contentType (lit "document") poem_request)
  /\ fallback_of poem_request
     = fallback_of (with_contentType (lit "document") poem_request)
  /\ fingerprint poem_request
     <> fingerprint (with_contentType (lit "document") poem_request).
Proof.
  apply (unknown_content_type_is_document poem_request);
    refine (proj1 (bool_decide_eq_false _) _); vm_compute; reflexivity.
Defined.

(** X5. A request whose content type is the name of a member that every
    object inherits ([constructor], [toString], ...) and that misses the
    cache makes [generateContent] throw a [TypeError]: the error leaves
    the function, before any provider is called; nothing is posted,
    nothing is written to the console, and the cache gets no entry. *)
Theorem inherited_content_type_throws net this request w :
  contentType request ∈ object_prototype_names ->
  cache_miss request w ->
  let w' := snd (cache_get (fingerprint request) w) in
  generateContent net this request w
  = (Throw (lit "Cannot read properties of undefined (reading 'join')"), w')
  /\ posted w' = posted w /\ console w' = console w /\ now w' = now w
  /\ forall key e, cache w' !! key = Some e -> cache w !! key = Some e.
Proof.
  intros Hct Hmiss w'. unfold cache_miss in Hmiss. split.
  - rewrite generateContent_eq.
    destruct (cache_get (fingerprint request) w) as [cached w0] eqn:Hget.
    cbn [fst] in Hmiss. subst w'. cbn [snd].
    by rewrite Hmiss, full_prompt_inherited.
  - destruct (cache_get_frame (fingerprint request) w) as (Hn & Hp & Hc & _).
    repeat split; try done. intros key e. apply looked_lookup.
Qed.

Lemma inherited_content_type_throws_witness :
  generateContent (answering text_body 120) constructor constructor_request
    (start 0)
  = (Throw (lit "Cannot read properties of undefined (reading 'join')"),
     snd (cache_get (fingerprint constructor_request) (start 0))).
Proof.
  apply (inherited_content_type_throws (answering text_body 120) constructor
           constructor_request (start 0)).
  - refine (bool_decide_unpack _ _). vm_compute. exact I.
  - vm_compute. reflexivity.
Defined.

(** ** The provider client *)

Section Client.

Variable net : Network.

Lemma requestData_known providerName prompt :
  providerName ∈ provider_names ->
  exists data, requestData providerName prompt = Return data.
Proof.
  unfold provider_names. cbn [map]. rewrite !elem_of_cons, elem_of_nil.
  intros [->|[->|[->|[]]]]; unfold requestData; eval_decisions; by eexists.
Qed.

Lemma requestData_unknown providerName prompt :
  providerName ∉ provider_names ->
  requestData providerName prompt
  = Throw (lit "Unknown provider: " ++ providerName).
Proof.
  intros Hn. unfold requestData.
  rewrite !bool_decide_eq_false_2; [reflexivity | ..];
    intros ->; apply Hn; refine (bool_decide_unpack _ _); vm_compute; exact I.
Qed.

Lemma callProvider_clock provider fullPrompt w r w1 :
  callProvider net provider fullPrompt w = (r, w1) -> (now w <= now w1)%N.
Proof.
  unfold callProvider, axios_post. cbv zeta.
  destruct (requestData (name provider) fullPrompt) as [data|message].
  - destruct (net (posted w) (now w) _) as [outcome elapsed].
    destruct outcome as [body|message].
    + destruct (parseResponse body (name provider));
        intros [= <- <-]; cbn; lia.
    + intros [= <- <-]; cbn; lia.
  - intros [= <- <-]. lia.
Qed.

End Client.

(** X6. A provider call posts exactly one request when the name of the
    provider is one of the three that [callProvider] knows, to the url of
    the provider, with its headers and a timeout of 30 seconds, and the
    clock moves on by the time the request took. For any other name it
    posts nothing, leaves the world as it is and throws
    [Unknown provider]. In no case does it touch the cache or the
    console, and the message of every error it throws starts with the
    name of the provider and [API call failed]. *)
Theorem callProvider_effects net provider fullPrompt w r w' :
  callProvider net provider fullPrompt w = (r, w') ->
  cache w' = cache w /\ console w' = console w
  /\ (name provider ∈ provider_names ->
      exists post,
        posted w' = posted w ++ [post]
        /\ post_url post = url provider
        /\ post_headers post = headers provider
        /\ post_timeout post = 30000%N
        /\ post_prompt post = fullPrompt
        /\ now w' = (now w + snd (net (posted w) (now w) post))%N)
  /\ (name provider ∉ provider_names ->
      w' = w
      /\ r = Throw (name provider ++ lit " API call failed: "
                    ++ lit "Unknown provider: " ++ name provider))
  /\ (forall message, r = Throw message ->
        exists cause,
          message = name provider ++ lit " API call failed: " ++ cause).
Proof.
  intros Hcall.
  destruct (callProvider_frame _ _ _ _ _ _ Hcall) as (Hc & Hl & _).
  split; [done |]. split; [done |].
  revert Hcall. unfold callProvider, axios_post. cbv zeta. split; [| split].
  - intros Hn. destruct (requestData_known _ fullPrompt Hn) as [data Hd].
    revert Hcall. rewrite Hd.
    destruct (net (posted w) (now w) _) as [outcome elapsed] eqn:Hnet.
    intros Hcall. eexists. repeat split.
    + destruct outcome as [body|message];
        [destruct (parseResponse body (name provider)) |];
        injection Hcall as <- <-; reflexivity.
    + reflexivity.
    + reflexivity.
    + reflexivity.
    + cbn. revert Hd. unfold requestData.
      repeat case_bool_decide; by intros [= <-].
    + rewrite Hnet.
      destruct outcome as [body|message];
        [destruct (parseResponse body (name provider)) |];
        injection Hcall as <- <-; reflexivity.
  - intros Hn. revert Hcall. rewrite (requestData_unknown _ _ Hn).
    by intros [= <- <-].
  - intros message ->. revert Hcall.
    destruct (requestData (name provider) fullPrompt) as [data|cause].
    + destruct (net (posted w) (now w) _) as [outcome elapsed].
      destruct outcome as [body|cause];
        [destruct (parseResponse body (name provider)) as [x|cause] |];
        intros [= <- <-] || intros [=]; by eexists.
    + intros [= <- <-]. by eexists.
Qed.

Lemma callProvider_effects_witness :
  let provider := {| name := lit "ollama-proxy"; url := lit "https://o.example";
                     headers := [(lit "Content-Type", lit "application/json")];
                     enabled := true |} in
  let run := callProvider (rejecting (lit "timeout of 30000ms exceeded") 30000)
               provider (lit "prompt") (start 5) in
  cache (snd run) = cache (start 5) /\ console (snd run) = console (start 5).
Proof.
  intros provider run.
  destruct (callProvider_effects
              (rejecting (lit "timeout of 30000ms exceeded") 30000)
              provider (lit "prompt") (start 5) (fst run) (snd run)
              (surjective_pairing _)) as (Hc & Hl & _).
  exact (conj Hc Hl).
Defined.

(** ** What a call adds to the world *)

Section Growth.

Variable net : Network.

Lemma after_failure_frame p r w :
  cache (after_failure p r w) = cache w
  /\ posted (after_failure p r w) = posted w
  /\ now (after_failure p r w) = now w
  /\ console w `prefix_of` console (after_failure p r w)
  /\ length (console (after_failure p r w)) <= S (length (console w)).
Proof.
  destruct r as [x|message]; cbn.
  - repeat split; try done. lia.
  - repeat split; try done.
    + by eexists.
    + rewrite length_app. cbn. lia.
Qed.

Lemma failed_run_grows fullPrompt ps w w' :
  failed_run net fullPrompt ps w w' ->
  (now w <= now w')%N /\ console w `prefix_of` console w'
  /\ length (console w') <= length (console w) + length ps.
Proof.
  induction 1 as [w|p ps w r w1 w2 Hcall Hfail _ (IHn & IHc & IHl)].
  - repeat split; try done. lia.
  - pose proof (callProvider_clock _ _ _ _ _ _ Hcall) as Hn.
    destruct (callProvider_frame _ _ _ _ _ _ Hcall) as (_ & Hl & _).
    destruct (after_failure_frame p r w1) as (_ & _ & Hn' & Hc' & Hl').
    rewrite Hn' in IHn. rewrite Hl in Hc', Hl'.
    split; [lia |]. split; [by etrans |]. cbn [length]. lia.
Qed.

Lemma post_of_prompt fullPrompt p post :
  post_of fullPrompt p = Some post ->
  post_prompt post = fullPrompt /\ post_url post = url p
  /\ post_headers post = headers p /\ post_timeout post = 30000%N.
Proof.
  unfold post_of, requestData.
  repeat case_bool_decide; intros [= <-]; by cbn.
Qed.

End Growth.

(** X7. A call of [generateContent] only adds to the world: the requests
    posted before and the lines on the console before are still there,
    in front of what the call added; the clock has not gone back; and
    the call posts at most one request and writes at most one line for
    each enabled provider. *)
Theorem generateContent_only_adds net this request w r w' :
  generateContent net this request w = (r, w') ->
  posted w `prefix_of` posted w'
  /\ console w `prefix_of` console w'
  /\ (now w <= now w')%N
  /\ length (posted w')
     <= length (posted w) + length (List.filter enabled (providers this))
  /\ length (console w')
     <= length (console w) + length (List.filter enabled (providers this)).
Proof.
  intros Hrun. fold (enabled_providers this).
  destruct (cache_get_frame (fingerprint request) w) as (Hn0 & Hp0 & Hl0 & _).
  assert (forall fullPrompt ps,
            length (omap (post_of fullPrompt) ps) <= length ps) as Homap.
  { intros fullPrompt ps. induction ps as [|p ps IH]; [done |].
    cbn [omap list_omap]. destruct (post_of fullPrompt p); cbn; lia. }
  destruct (generateContent_outcome net this _ _ _ _ Hrun)
    as [(_ & _ & ->)|(_ & [(message & _ & _ & ->)|(fullPrompt & _ & Hloop)])].
  - rewrite Hn0, Hp0, Hl0. repeat split; try done; lia.
  - rewrite Hn0, Hp0, Hl0. repeat split; try done; lia.
  - destruct Hloop as [(result & Hloop & _)|(w1 & Hloop & _ & ->)];
      apply try_providers_run in Hloop.
    + destruct Hloop
        as (before & p & after & w0 & w1 & Hps & Hfailed & Hcall & _ & ->).
      destruct (failed_run_frame _ _ _ _ _ Hfailed) as [_ Hpb].
      destruct (failed_run_grows _ _ _ _ _ Hfailed) as (Hnb & Hcb & Hlb).
      destruct (callProvider_frame _ _ _ _ _ _ Hcall) as (_ & Hlc & Hpc).
      pose proof (callProvider_clock _ _ _ _ _ _ Hcall) as Hnc.
      rewrite Hn0, Hp0, Hl0 in *. cbn [cache_set posted console now].
      rewrite Hpc, Hpb, Hlc, Hps.
      pose proof (Homap fullPrompt before).
      repeat split.
      * rewrite <- app_assoc. by eexists.
      * done.
      * lia.
      * rewrite !length_app. cbn [length].
        destruct (post_of fullPrompt p); cbn; lia.
      * rewrite length_app. cbn [length]. lia.
    + destruct (failed_run_frame _ _ _ _ _ Hloop) as [_ Hpb].
      destruct (failed_run_grows _ _ _ _ _ Hloop) as (Hnb & Hcb & Hlb).
      rewrite Hn0, Hp0, Hl0 in *. cbn [cache_set posted console now].
      rewrite Hpb. pose proof (Homap fullPrompt (enabled_providers this)).
      repeat split.
      * by eexists.
      * done.
      * done.
      * rewrite length_app. lia.
      * done.
Qed.

Lemma generateContent_only_adds_witness :
  let run := generateContent second_answers constructor blog_request (start 7) in
  posted (start 7) `prefix_of` posted (snd run)
  /\ (now (start 7) <= now (snd run))%N.
Proof.
  intros run.
  destruct (generateContent_only_adds second_answers constructor blog_request
              (start 7) (fst run) (snd run) (surjective_pairing _))
    as (Hp & _ & Hn & _).
  exact (conj Hp Hn).
Defined.

(** X8. What goes out to the providers: for a content type that
    resolves to a template, every request that a call of
    [generateContent] posts carries the prompt built for the request, in
    which the topic occurs literally, and goes to the url of an enabled
    provider of the list, with the headers of that provider and a
    timeout of 30 seconds. *)
Theorem posted_requests_carry_the_prompt net this request w r w' :
  contentType request ∉ object_prototype_names ->
  generateContent net this request w = (r, w') ->
  exists fullPrompt added,
    full_prompt request = Return fullPrompt
    /\ occurs_in (prompt request) fullPrompt
    /\ posted w' = posted w ++ added
    /\ Forall (fun post =>
                 post_prompt post = fullPrompt
                 /\ post_timeout post = 30000%N
                 /\ exists p, p ∈ providers this /\ enabled p = true
                              /\ post_url post = url p
                              /\ post_headers post = headers p) added.
Proof.
  intros Hct Hrun.
  destruct (full_prompt_returns request Hct) as [fullPrompt Hp].
  exists fullPrompt.
  assert (occurs_in (prompt request) fullPrompt) as Hocc.
  { revert Hp. unfold full_prompt, resolve_template, contentTemplates.
    rewrite dispatch_or_document by (done || apply template_object_truthy).
    assert (forall sp sections,
              buildPrompt (prompt request) (template_object sp sections)
                (language_of request) (tone_of request) = Return fullPrompt ->
              occurs_in (prompt request) fullPrompt) as Hany.
    { intros sp sections.
      rewrite template_object_of, buildPrompt_template_of. intros [= <-].
      apply (occurs_in_lines_prefix (prompt request) (lit "Topic: ")
               [lit sp; []; language_directive (language_of request);
                tone_directive (tone_of request); []]). }
    repeat case_bool_decide; apply Hany. }
  assert (forall ps,
            Forall (fun p => p ∈ providers this /\ enabled p = true) ps ->
            Forall (fun post =>
                      post_prompt post = fullPrompt
                      /\ post_timeout post = 30000%N
                      /\ exists p, p ∈ providers this /\ enabled p = true
                                   /\ post_url post = url p
                                   /\ post_headers post = headers p)
              (omap (post_of fullPrompt) ps)) as Hposts.
  { intros ps Hps. induction Hps as [|p ps [Hin He] _ IH]; [constructor |].
    cbn [omap list_omap]. destruct (post_of fullPrompt p) as [post|] eqn:Hpost;
      [| exact IH].
    constructor; [| exact IH].
    destruct (post_of_prompt _ _ _ Hpost) as (H1 & H2 & H3 & H4).
    repeat split; try done. by exists p. }
  assert (forall ps, (forall p, p ∈ ps -> p ∈ enabled_providers this) ->
            Forall (fun p => p ∈ providers this /\ enabled p = true) ps)
    as Hlisted.
  { intros ps Hsub. apply Forall_forall. intros p Hin.
    destruct (enabled_provider_listed this p (Hsub p Hin)). done. }
  destruct (cache_get_frame (fingerprint request) w) as (_ & Hp0 & _).
  destruct (generateContent_outcome net this _ _ _ _ Hrun)
    as [(_ & _ & ->)|(_ & [(message & Hm & _)|(fullPrompt' & Hp' & Hloop)])].
  - exists []. rewrite Hp0, app_nil_r. repeat split; try done.
  - congruence.
  - assert (fullPrompt' = fullPrompt) as -> by congruence.
    destruct Hloop as [(result & Hloop & _)|(w1 & Hloop & _ & ->)];
      apply try_providers_run in Hloop.
    + destruct Hloop
        as (before & p & after & w0 & w1 & Hps & Hfailed & Hcall & _ & ->).
      destruct (failed_run_frame _ _ _ _ _ Hfailed) as [_ Hpb].
      destruct (callProvider_frame _ _ _ _ _ _ Hcall) as (_ & _ & Hpc).
      exists (omap (post_of fullPrompt) (before ++ [p])).
      split; [done |]. split; [done |]. split.
      * cbn [cache_set posted]. rewrite Hpc, Hpb, Hp0, omap_app.
        cbn [omap list_omap]. unfold option_list.
        destruct (post_of fullPrompt p); by rewrite <- app_assoc.
      * apply Hposts, Hlisted. intros q Hq. rewrite Hps.
        apply elem_of_app. apply elem_of_app in Hq as [Hq|Hq%list_elem_of_singleton];
          [by left | right; subst; left].
    + destruct (failed_run_frame _ _ _ _ _ Hloop) as [_ Hpb].
      exists (omap (post_of fullPrompt) (enabled_providers this)).
      split; [done |]. split; [done |]. split.
      * cbn [cache_set posted]. by rewrite Hpb, Hp0.
      * by apply Hposts, Hlisted.
Qed.

Lemma posted_requests_carry_the_prompt_witness :
  let run := generateContent second_answers constructor blog_request (start 0) in
  exists fullPrompt added,
    full_prompt blog_request = Return fullPrompt
    /\ occurs_in (prompt blog_request) fullPrompt
    /\ posted (snd run) = posted (start 0) ++ added
    /\ Forall (fun post =>
                 post_prompt post = fullPrompt
                 /\ post_timeout post = 30000%N
                 /\ exists p, p ∈ providers constructor /\ enabled p = true
                              /\ post_url post = url p
                              /\ post_headers post = headers p) added.
Proof.
  intros run.
  apply (posted_requests_carry_the_prompt second_answers constructor
           blog_request (start 0) (fst run) (snd run)).
  - refine (proj1 (bool_decide_eq_false _) _). vm_compute. reflexivity.
  - apply surjective_pairing.
Defined.

(** ** More on the fallback content *)

Section FallbackMore.

Lemma occurs_in_line (needle x : JsString.t) (ls : list JsString.t) :
  x ∈ ls -> occurs_in needle x -> occurs_in needle (lines ls).
Proof.
  intros Hin Hocc. induction Hin as [y ls|y z ls Hin IH].
  - destruct Hocc as (b & a & ->). destruct ls as [|z ls].
    + exists b, a. reflexivity.
    + exists b, (a ++ LF ++ lines (z :: ls)).
      rewrite lines_cons. by rewrite <- !app_assoc.
  - destruct (IH Hocc) as (b' & a' & IH').
    destruct ls as [|z' ls]; [by apply elem_of_nil in Hin |].
    rewrite lines_cons, IH'. exists (z ++ LF ++ b'), a'.
    by rewrite <- !app_assoc.
Qed.

Lemma occurs_in_prefixed (needle a s : JsString.t) :
  occurs_in needle s -> occurs_in needle (a ++ s).
Proof.
  intros (b & c & ->). exists (a ++ b), c. by rewrite <- app_assoc.
Qed.

Lemma generator_has_topic g prompt :
  g ∈ generators ->
  occurs_in prompt (g prompt (lit "english") (lit "professional")).
Proof.
  unfold generators. rewrite !elem_of_cons, elem_of_nil.
  intros [->|[->|[->|[->|[->|[]]]]]].
  - unfold generatePresentationTemplate. cbv zeta.
    rewrite !marker_prefix, !marker_toneNote,
      language_marker_english, tone_marker_professional.
    rewrite !app_nil_l.
    eapply occurs_in_line; [apply list_elem_of_here |].
    exists (lit "# "), []. by rewrite app_nil_r.
  - unfold generateDocumentTemplate. cbv zeta.
    rewrite !marker_prefix, !marker_toneNote,
      language_marker_english, tone_marker_professional.
    rewrite !app_nil_l.
    eapply occurs_in_line; [apply list_elem_of_here |].
    exists (lit "# "), []. by rewrite app_nil_r.
  - unfold generateSocialTemplate. cbv zeta.
    rewrite !marker_prefix, !marker_toneNote,
      language_marker_english, tone_marker_professional.
    rewrite !app_nil_l.
    eapply occurs_in_line; [apply list_elem_of_here |].
    eexists _, _. reflexivity.
  - unfold generateBlogTemplate. cbv zeta.
    rewrite !marker_prefix, !marker_toneNote,
      language_marker_english, tone_marker_professional.
    rewrite !app_nil_l.
    eapply occurs_in_line; [apply list_elem_of_here |].
    eexists _, _. reflexivity.
  - unfold generateEmailTemplate. cbv zeta.
    rewrite !marker_prefix, !marker_toneNote,
      language_marker_english, tone_marker_professional.
    rewrite !app_nil_l.
    eapply occurs_in_line; [apply list_elem_of_here |].
    eexists _, _. reflexivity.
Qed.

Lemma remove_white_space_clean s :
  Forall (fun c => is_white_space c = false) (remove_white_space s).
Proof.
  unfold remove_white_space. apply Forall_forall. intros c Hc.
  by apply list_elem_of_filter in Hc as [Hc _].
Qed.

Lemma remove_white_space_id s :
  Forall (fun c => is_white_space c = false) s -> remove_white_space s = s.
Proof.
  unfold remove_white_space. induction 1 as [|c s Hc _ IH]; [done |].
  rewrite filter_cons_True by done. by rewrite IH.
Qed.

End FallbackMore.

(** X9. The fallback content of every content type that resolves to a
    generator is a string in which the topic occurs literally, whatever
    the language and the tone. *)
Theorem fallback_contains_topic prompt contentType language tone :
  contentType ∉ object_prototype_names ->
  exists s,
    generateFallbackContent prompt contentType language tone = Str s
    /\ occurs_in prompt s.
Proof.
  intros Hct. rewrite fallback_generated by done. eexists. split; [done |].
  rewrite (generator_markers _ prompt language tone
             (generator_for_listed contentType)).
  do 2 apply occurs_in_prefixed.
  apply generator_has_topic, generator_for_listed.
Qed.

Lemma fallback_contains_topic_witness :
  exists s,
    generateFallbackContent (lit "tidal power") (lit "email") (lit "french")
      (lit "humorous") = Str s
    /\ occurs_in (lit "tidal power") s.
Proof.
  apply (fallback_contains_topic (lit "tidal power") (lit "email")
           (lit "french") (lit "humorous")).
  refine (proj1 (bool_decide_eq_false _) _). vm_compute. reflexivity.
Defined.

(** X10. The hashtag of the social post: the output of the social
    generator contains the line of hashtags, in which the second hashtag
    is the topic with every white-space character removed. That text
    holds no white space, removing white space from it again changes
    nothing, and it is the topic itself when the topic holds no white
    space. *)
Theorem social_hashtag prompt language tone :
  occurs_in
    (lit "#Innovation #" ++ remove_white_space prompt
       ++ lit " #Success #Growth #Future #Trending #GameChanger #Leadership")
    (generateSocialTemplate prompt language tone)
  /\ Forall (fun c => is_white_space c = false) (remove_white_space prompt)
  /\ remove_white_space (remove_white_space prompt) = remove_white_space prompt
  /\ (Forall (fun c => is_white_space c = false) prompt ->
      remove_white_space prompt = prompt).
Proof.
  split; [| split; [| split]].
  - unfold generateSocialTemplate. cbv zeta.
    eapply occurs_in_line.
    + do 13 apply list_elem_of_further. apply list_elem_of_here.
    + exists [], []. by rewrite app_nil_l, app_nil_r.
  - apply remove_white_space_clean.
  - apply remove_white_space_id, remove_white_space_clean.
  - apply remove_white_space_id.
Qed.

Example social_hashtag_sample :
  remove_white_space (lit "renewable  energy" ++ LF ++ lit " adoption")
  = lit "renewableenergyadoption".
Proof. vm_compute. reflexivity. Qed.

(** ** Decimal numerals *)

Section Numerals.

Lemma lit_ascii s :
  ascii_only s -> lit s = map N_of_ascii (list_ascii_of_string s).
Proof.
  unfold ascii_only, lit. induction 1 as [|a l Ha _ IH]; [done |].
  cbn [map utf8_code_points].
  apply N.ltb_lt in Ha as Ha'. rewrite Ha'. cbn [flat_map].
  unfold utf16_units at 1.
  replace (N_of_ascii a <? 65536)%N with true
    by (symmetry; apply N.ltb_lt; lia).
  by rewrite IH.
Qed.

Lemma N_of_ascii_inj a b : N_of_ascii a = N_of_ascii b -> a = b.
Proof.
  intros Hab. rewrite <- (ascii_N_embedding a), <- (ascii_N_embedding b).
  by rewrite Hab.
Qed.

Lemma lit_ascii_inj s1 s2 :
  ascii_only s1 -> ascii_only s2 -> lit s1 = lit s2 -> s1 = s2.
Proof.
  intros H1 H2. rewrite !lit_ascii by done. intros Heq.
  rewrite <- (string_of_list_ascii_of_string s1),
    <- (string_of_list_ascii_of_string s2).
  f_equal. revert Heq. generalize (list_ascii_of_string s1) as l1.
  generalize (list_ascii_of_string s2) as l2.
  intros l2 l1. revert l2.
  induction l1 as [|a l1 IH]; intros [|b l2]; cbn; try done.
  intros [= Hab Hl]. f_equal; [by apply N_of_ascii_inj | by apply IH].
Qed.

Lemma pretty_N_char_ascii x : (N_of_ascii (pretty_N_char x) < 128)%N.
Proof.
  unfold pretty_N_char. repeat case_match; vm_compute; reflexivity.
Qed.

Lemma pretty_N_go_ascii x s :
  ascii_only s -> ascii_only (pretty_N_go x s).
Proof.
  revert s. induction (N.lt_wf_0 x) as [x _ IH]; intros s Hs.
  assert (x = 0 \/ 0 < x)%N as [->|Hx] by lia.
  - by rewrite pretty_N_go_0.
  - rewrite pretty_N_go_step by done. apply IH.
    + by apply N.div_lt.
    + constructor; [apply pretty_N_char_ascii | done].
Qed.

Lemma pretty_N_go_nonempty x s :
  s <> EmptyString -> pretty_N_go x s <> EmptyString.
Proof.
  revert s. induction (N.lt_wf_0 x) as [x _ IH]; intros s Hs.
  assert (x = 0 \/ 0 < x)%N as [->|Hx] by lia.
  - by rewrite pretty_N_go_0.
  - rewrite pretty_N_go_step by done. apply IH; [by apply N.div_lt | done].
Qed.

Lemma pretty_N_ascii (x : N) : ascii_only (pretty x) /\ pretty x <> EmptyString.
Proof.
  unfold pretty, pretty_N. case_decide as Hx.
  - split; [| done]. repeat constructor.
  - split; [apply pretty_N_go_ascii; constructor |].
    rewrite pretty_N_go_step by lia. by apply pretty_N_go_nonempty.
Qed.

Lemma pretty_Z_ascii (z : Z) : ascii_only (pretty z) /\ pretty z <> EmptyString.
Proof.
  unfold pretty, pretty_Z. destruct z as [|p|p].
  - split; [| done]. repeat constructor.
  - apply (pretty_N_ascii (Npos p)).
  - split; [| done]. constructor; [vm_compute; reflexivity |].
    apply (pretty_N_ascii (Npos p)).
Qed.

Lemma of_Z_inj a b : of_Z a = of_Z b -> a = b.
Proof.
  unfold of_Z. intros Heq.
  apply lit_ascii_inj in Heq; [| apply pretty_Z_ascii..].
  by apply (inj pretty).
Qed.



End Numerals.

(** X11. When two well-formed requests have the same cache key: exactly
    when they agree on content type, language and tone and their topics
    have the same hash. *)
Theorem same_key_iff request1 request2 :
  well_formed request1 -> well_formed request2 ->
  fingerprint request1 = fingerprint request2
  <-> contentType request1 = contentType request2
      /\ language_of request1 = language_of request2
      /\ tone_of request1 = tone_of request2
      /\ hash_code (prompt request1) = hash_code (prompt request2).
Proof.
  intros Hwf1 Hwf2. split.
  - unfold fingerprint, cacheKey_of, hashString. intros Heq.
    destruct (well_formed_no_hyphen _ Hwf1) as (Hc1 & Hl1 & Ht1).
    destruct (well_formed_no_hyphen _ Hwf2) as (Hc2 & Hl2 & Ht2).
    apply cut_at_hyphen in Heq as [Hc Heq]; [| done | done].
    apply cut_at_hyphen in Heq as [Hl Heq]; [| done | done].
    apply cut_at_hyphen in Heq as [Ht Heq]; [| done | done].
    by apply of_Z_inj in Heq.
  - intros (Hc & Hl & Ht & Hh).
    unfold fingerprint, cacheKey_of, hashString. by rewrite Hc, Hl, Ht, Hh.
Qed.

Lemma same_key_iff_witness :
  fingerprint topic_Aa = fingerprint topic_BB.
Proof.
  apply (same_key_iff topic_Aa topic_BB).
  - repeat split; refine (bool_decide_unpack _ _); vm_compute; exact I.
  - repeat split; refine (bool_decide_unpack _ _); vm_compute; exact I.
  - repeat split; vm_compute; reflexivity.
Defined.

(** ** The parser for other providers *)

Section OtherProviders.


End OtherProviders.



(** * The content routes *)

Import JsMore ContentRoutes.

(** ** The slice of JavaScript at work *)

Example split_samples :
  split_on 32 (lit "a  b ") = [lit "a"; []; lit "b"; []]
  /\ split_on 32 [] = [[]].
Proof. vm_compute. split; reflexivity. Qed.

Example iso_samples :
  toISOString 0 = lit "1970-01-01T00:00:00.000Z"
  /\ toISOString 1700000000123 = lit "2023-11-14T22:13:20.123Z"
  /\ toISOString 951782400000 = lit "2000-02-29T00:00:00.000Z"
  /\ toISOString 253402300800000 = lit "+010000-01-01T00:00:00.000Z".
Proof. vm_compute. repeat split. Qed.

Example set_property_samples :
  set_property [(lit "1", Null); (lit "b", Null)] (lit "0") (Num 1)
  = [(lit "0", Num 1); (lit "1", Null); (lit "b", Null)]
  /\ set_property [(lit "1", Null); (lit "b", Null)] (lit "a") (Num 1)
     = [(lit "1", Null); (lit "b", Null); (lit "a", Num 1)]
  /\ set_property [(lit "1", Null); (lit "b", Null)] (lit "b") (Num 1)
     = [(lit "1", Null); (lit "b", Num 1)]
  /\ set_property [(lit "1", Null); (lit "b", Null)] (lit "01") (Num 1)
     = [(lit "1", Null); (lit "b", Null); (lit "01", Num 1)].
Proof. vm_compute. repeat split. Qed.

Example stringify_large_numbers :
  Json.stringify (Obj [(lit "views", Num (10 ^ 21)); (lit "n", Num (2 ^ 1024))])
  = Str (lit "{" ++ Json.quote (lit "views") ++ lit ":1e+21,"
           ++ Json.quote (lit "n") ++ lit ":null}")
  /\ stringify_indented (Obj [(lit "views", Num (10 ^ 21))])
     = Str (lines [lit "{"; lit "  " ++ Json.quote (lit "views") ++ lit ": 1e+21";
                   lit "}"]).
Proof. vm_compute. split; reflexivity. Qed.

Example stringify_indented_sample :
  stringify_indented
    (Obj [(lit "a", Arr [Num 1; Obj []]); (lit "b", Undefined);
          (lit "c", Str (lit "x"))])
  = Str (lines [lit "{"; lit "  " ++ Json.quote (lit "a") ++ lit ": [";
                lit "    1,"; lit "    {}"; lit "  ],";
                lit "  " ++ Json.quote (lit "c") ++ lit ": "
                  ++ Json.quote (lit "x");
                lit "}"]).
Proof. vm_compute. reflexivity. Qed.

(** ** Counting words *)

Section Words.

Lemma split_on_nonempty sep s : split_on sep s <> [].
Proof.
  induction s as [|c s IH]; [done |]. cbn [split_on].
  destruct (split_on sep s); [done |]. by destruct (c =? sep)%N.
Qed.

Lemma split_on_count s :
  length (split_on 32 s) = S (length (filter (fun c => c = 32%N) s)).
Proof.
  induction s as [|c s IH]; [done |]. cbn [split_on].
  pose proof (split_on_nonempty 32 s) as Hne.
  destruct (split_on 32 s) as [|piece pieces]; [done |].
  destruct (c =? 32)%N eqn:Hc.
  - apply N.eqb_eq in Hc as ->. rewrite filter_cons_True by done.
    cbn [length] in *. lia.
  - apply N.eqb_neq in Hc. rewrite filter_cons_False by done.
    cbn [length] in *. lia.
Qed.

End Words.

(** X13. The word count that the routes report is the number of spaces
    of the content plus one: the content is cut at every single space,
    so that the empty content counts one word, two spaces in a row count
    an empty word between them, and a line break does not separate two
    words. Joining the pieces with spaces gives the content back. *)
Theorem word_count_spaces (s : JsString.t) :
  split_length "content" (Str s)
  = Return (N.of_nat (S (length (filter (fun c => c = 32%N) s))))
  /\ join (lit " ") (split_on 32 s) = s
  /\ Forall (fun piece => 32%N ∉ piece) (split_on 32 s).
Proof.
  change (lit " ") with [32%N].
  split; [| split].
  - cbn [split_length]. by rewrite split_on_count.
  - induction s as [|c s IH]; [done |]. cbn [split_on].
    pose proof (split_on_nonempty 32 s) as Hne.
    destruct (split_on 32 s) as [|piece pieces]; [done |].
    destruct (c =? 32)%N eqn:Hc.
    + apply N.eqb_eq in Hc as ->. rewrite <- IH. reflexivity.
    + rewrite <- IH. by destruct pieces.
  - induction s as [|c s IH]; [repeat constructor; apply not_elem_of_nil |].
    cbn [split_on].
    pose proof (split_on_nonempty 32 s) as Hne.
    destruct (split_on 32 s) as [|piece pieces]; [done |].
    apply Forall_cons in IH as [Hp Hps].
    destruct (c =? 32)%N eqn:Hc.
    + repeat constructor; try done. apply not_elem_of_nil.
    + apply N.eqb_neq in Hc. constructor; [| done].
      rewrite not_elem_of_cons. split; [congruence | done].
Qed.

(** ** Properties of objects *)

Section Properties.

Lemma own_property_cons k' v' rest k :
  own_property ((k', v') :: rest) k
  = if bool_decide (k' = k) then Some v' else own_property rest k.
Proof. unfold own_property. cbn. by case_bool_decide. Qed.

Lemma own_property_nil k : own_property [] k = None.
Proof. done. Qed.

Lemma own_set_property props k v k' :
  own_property (set_property props k v) k'
  = if bool_decide (k = k') then Some v else own_property props k'.
Proof.
  induction props as [|[k0 v0] props IH]; cbn [set_property].
  - rewrite own_property_cons. by case_bool_decide.
  - destruct (decide (k0 = k)) as [->|H0].
    + rewrite (bool_decide_eq_true_2 (k = k)) by done.
      rewrite !own_property_cons. by case_bool_decide.
    + rewrite (bool_decide_eq_false_2 (k0 = k)) by done.
      destruct (negb (has_own props k) && goes_before k k0)%bool.
      * rewrite !own_property_cons. repeat case_bool_decide; by subst.
      * rewrite !own_property_cons, IH. repeat case_bool_decide; by subst.
Qed.

Lemma own_property_snoc props k0 v0 k :
  own_property (props ++ [(k0, v0)]) k
  = match own_property props k with
    | Some v => Some v
    | None => if bool_decide (k0 = k) then Some v0 else None
    end.
Proof.
  induction props as [|[k1 v1] props IH].
  - cbn [app]. rewrite own_property_cons. by case_bool_decide.
  - rewrite <- app_comm_cons, !own_property_cons, IH.
    by destruct (bool_decide (k1 = k)).
Qed.

Lemma own_fold_set props target k :
  own_property
    (fold_left (fun acc kv => set_property acc (fst kv) (snd kv)) props target) k
  = match last_own props k with
    | Some v => Some v
    | None => own_property target k
    end.
Proof.
  unfold last_own. revert target.
  induction props as [|[k0 v0] props IH]; intros target; [done |].
  cbn [fold_left fst snd]. rewrite IH, reverse_cons, own_property_snoc.
  destruct (own_property (reverse props) k); [done |].
  rewrite own_set_property. by case_bool_decide.
Qed.

Lemma last_own_nodup props k :
  NoDup (map fst props) -> last_own props k = own_property props k.
Proof.
  unfold last_own. induction props as [|[k0 v0] props IH]; [done |].
  cbn [map fst]. intros [Hnot Hnd]%NoDup_cons.
  rewrite reverse_cons, own_property_snoc, own_property_cons, IH by done.
  case_bool_decide as Hk; [subst k0 |]; [| by destruct (own_property props k)].
  destruct (own_property props k) as [v|] eqn:Hv; [| done].
  exfalso. apply Hnot. unfold own_property in Hv.
  destruct (List.find _ props) as [[k1 v1]|] eqn:Hf; [| done].
  apply find_some in Hf as [Hin Hk]. apply bool_decide_eq_true in Hk.
  cbn in Hk. subst k1. apply list_elem_of_In.
  apply in_map_iff. by exists (k, v1).
Qed.

End Properties.

(** ** Who may read and change a saved content *)

Section Owner.

Lemma is_string_equal_true v s : is_string_equal v s = true <-> v = Str s.
Proof.
  destruct v; cbn; try (split; [discriminate | discriminate]).
  rewrite bool_decide_eq_true. split; [by intros -> | by intros [= ->]].
Qed.

Lemma failure_refused code error :
  code ∈ [400; 401; 403; 404]%N -> refused (failure code error).
Proof.
  intros Hc. split; [done |]. split; [done |]. eexists. split; [done |].
  split; vm_compute; reflexivity.
Qed.

Lemma validation_failed_refused details : refused (validation_failed details).
Proof.
  split; [cbn; set_solver |]. split; [done |]. eexists. split; [done |].
  split; vm_compute; reflexivity.
Qed.

(** What the three checks decide. *)
Lemma owned_content_cases req contentStore :
  match owned_content req contentStore with
  | inl refusal =>
      refused refusal
      /\ (no_api_key (api_key req) = true /\ refusal = failure 401 "API key required"
          \/ no_api_key (api_key req) = false
             /\ (forall saved, contentStore !! id req = Some saved ->
                   truthy saved = false)
             /\ refusal = failure 404 "Content not found"
          \/ no_api_key (api_key req) = false
             /\ (exists saved, contentStore !! id req = Some saved
                   /\ truthy saved = true
                   /\ member saved (lit "apiKey") <> Str (key_of (api_key req)))
             /\ refusal = failure 403 "Access denied")
  | inr saved =>
      no_api_key (api_key req) = false
      /\ contentStore !! id req = Some saved
      /\ truthy saved = true
      /\ member saved (lit "apiKey") = Str (key_of (api_key req))
  end.
Proof.
  unfold owned_content.
  destruct (no_api_key (api_key req)) eqn:Hkey.
  { split; [apply failure_refused; set_solver | by left]. }
  destruct (contentStore !! id req) as [saved|] eqn:Hs.
  2:{ split; [apply failure_refused; set_solver |]. right. left.
      split; [done |]. split; [| done]. intros saved [=]. }
  destruct (truthy saved) eqn:Ht; cbn [negb].
  2:{ split; [apply failure_refused; set_solver |]. right. left.
      split; [done |]. split; [| done]. by intros saved' [= <-]. }
  destruct (is_string_equal (member saved (lit "apiKey")) (key_of (api_key req)))
    eqn:He; cbn [negb].
  - by apply is_string_equal_true in He.
  - split; [apply failure_refused; set_solver |]. right. right.
    split; [done |]. split; [| done]. exists saved. repeat split; try done.
    intros Heq. apply is_string_equal_true in Heq. congruence.
Qed.

End Owner.



(** X15. Only an accepted request changes the store: when a handler
    answers with anything but 200 or 201, or throws, the store is as it
    was before; reading and exporting never change it. *)
Theorem only_accepted_requests_write toLowerCase t1 t2 t3 req contentStore :
  let accepted (run : result Response * gmap JsString.t value) :=
    (exists r, fst run = Return r /\ (status r = 200 \/ status r = 201)%N)
    \/ snd run = contentStore in
  accepted (save t1 t2 t3 req contentStore)
  /\ accepted (update_content t1 req contentStore)
  /\ accepted (delete_content req contentStore)
  /\ snd (get_content req contentStore) = contentStore
  /\ snd (export_content toLowerCase req contentStore) = contentStore.
Proof.
  intros accepted. unfold accepted. repeat split.
  - unfold save. destruct (errors req); [| by right].
    destruct (body req); try (by right);
      (destruct (no_api_key (api_key req)); [by right |]);
      (destruct (split_length _ _); [left; eexists; split; [done | by right]
                                    | by right]).
  - unfold update_content. destruct (errors req); [| by right].
    destruct (owned_content req contentStore); [by right |].
    destruct (body req); try (by right);
      (destruct (truthy _);
       [destruct (split_length _ _);
          [left; eexists; split; [done | by left] | by right]
       | left; eexists; split; [done | by left]]).
  - unfold delete_content.
    destruct (owned_content req contentStore); [by right |].
    left. eexists. split; [done | by left].
  - unfold get_content. by destruct (owned_content req contentStore).
  - unfold export_content.
    destruct (owned_content req contentStore) as [|saved]; [done |].
    destruct (with_default _ (format req)); try done.
    repeat case_bool_decide; try done; by destruct (export_filename _ _ _).
Qed.

(** ** Saving *)

Section Saving.

(** What an accepted [POST /save] has done. *)
Lemma save_accepted id_time created updated req contentStore answer contentStore' :
  save id_time created updated req contentStore = (Return answer, contentStore') ->
  status answer = 201%N ->
  exists text,
    member (body req) (lit "content") = Str text
    /\ no_api_key (api_key req) = false
    /\ contentStore'
       = <[time_string id_time :=
             Obj [ (lit "id", Str (time_string id_time));
                   (lit "title", member (body req) (lit "title"));
                   (lit "content", Str text);
                   (lit "contentType", member (body req) (lit "contentType"));
                   (lit "language",
                    with_default (Str (lit "english"))
                      (member (body req) (lit "language")));
                   (lit "tone",
                    with_default (Str (lit "professional"))
                      (member (body req) (lit "tone")));
                   (lit "tags",
                    with_default (Arr []) (member (body req) (lit "tags")));
                   (lit "apiKey", Str (key_of (api_key req)));
                   (lit "createdAt", Str (toISOString created));
                   (lit "updatedAt", Str (toISOString updated));
                   (lit "wordCount",
                    Num (Z.of_N (N.of_nat (length (split_on 32 text)))));
                   (lit "characterCount", Num (Z.of_nat (length text))) ]]>
         contentStore.
Proof.
  unfold save. intros Hsave Hstatus.
  destruct (errors req); [| by injection Hsave as <- _].
  destruct (no_api_key (api_key req)) eqn:Hkey.
  { destruct (body req); try discriminate; by injection Hsave as <- _. }
  destruct (body req) eqn:Hbody; try discriminate.
  all: destruct (member _ (lit "content")) as [| | | | text | | |] eqn:Hc;
    try (cbn [split_length] in Hsave; discriminate).
  all: cbn [split_length string_length] in Hsave; injection Hsave as _ <-.
  all: by exists text.
Qed.

(** The answer of [POST /save] does not depend on the store, and the
    store is written when the answer is 201, under the id of the clock. *)
Lemma save_shape id_time created updated req :
  exists r o,
    (is_Some o <-> exists answer, r = Return answer /\ status answer = 201%N)
    /\ forall contentStore : gmap JsString.t value,
         save id_time created updated req contentStore
         = (r, from_option (fun saved => <[time_string id_time := saved]> contentStore)
                 contentStore o).
Proof.
  assert (forall A (x : A), is_Some (Some x)) as Hsome by (by eexists).
  assert (forall A, ~ is_Some (@None A)) as Hnone by (by intros A [x Hx]).
  unfold save. destruct (errors req).
  2:{ eexists _, None. split; [| done].
      split; [by intros ?%Hnone | by intros (a & [= <-] & Ha)]. }
  destruct (body req);
    try (eexists _, None; split; [| done];
         split; [by intros ?%Hnone | by intros (a & [=] & Ha)]).
  all: destruct (no_api_key (api_key req));
    [eexists _, None; split; [| done];
     split; [by intros ?%Hnone | by intros (a & [= <-] & Ha)] |].
  all: destruct (split_length _ _);
    [eexists _, (Some _); split; [| done]; split; [by eexists | done]
    | eexists _, None; split; [| done];
      split; [by intros ?%Hnone | by intros (a & [=] & Ha)]].
Qed.

End Saving.

(** X16. What is saved can be read back. When [POST /save] answers 201,
    the content of the request was a string, and the store then holds it
    under the id made from the clock, with the title of the request, the
    key of the request as owner, one word more than the content has
    spaces and the length of the content; a [GET /:id] with that id and
    the same key answers 200 with exactly the stored object. *)
Theorem saved_content_is_read_back id_time created updated req contentStore
    answer contentStore' :
  save id_time created updated req contentStore = (Return answer, contentStore') ->
  status answer = 201%N ->
  exists text saved,
    member (body req) (lit "content") = Str text
    /\ contentStore' !! time_string id_time = Some saved
    /\ member saved (lit "id") = Str (time_string id_time)
    /\ member saved (lit "content") = Str text
    /\ member saved (lit "title") = member (body req) (lit "title")
    /\ member saved (lit "apiKey") = Str (key_of (api_key req))
    /\ member saved (lit "wordCount")
       = Num (Z.of_nat (S (length (filter (fun c => c = 32%N) text))))
    /\ member saved (lit "characterCount") = Num (Z.of_nat (length text))
    /\ forall reader,
         api_key reader = api_key req ->
         id reader = time_string id_time ->
         get_content reader contentStore'
         = (Return (success 200 saved), contentStore').
Proof.
  intros Hsave Hstatus.
  destruct (save_accepted _ _ _ _ _ _ _ Hsave Hstatus)
    as (text & Hc & Hkey & ->).
  rewrite split_on_count, nat_N_Z.
  exists text. eexists. split; [done |].
  split; [apply lookup_insert_eq |].
  unfold member at 1 2 3 5 6 7 8. unfold obj_get, own_property.
  cbn [List.find fst]. eval_decisions.
  cbn [fmap option_fmap option_map snd]. repeat (split; [reflexivity |]).
  intros reader Hr Hid. unfold get_content, owned_content.
  rewrite Hr, Hkey, Hid, lookup_insert_eq. cbn [truthy negb].
  unfold member, obj_get, own_property. cbn [List.find fst].
  eval_decisions. cbn [fmap option_fmap option_map snd is_string_equal].
  by rewrite bool_decide_eq_true_2.
Qed.

Lemma saved_content_is_read_back_witness :
  let req :=
    content_request (Some (lit "acc_alice")) []
      (Obj [(lit "title", Str (lit "Tea"));
            (lit "content", Str (lit "green tea  and black"));
            (lit "contentType", Str (lit "blog"))]) in
  let contentStore' := snd (save 1700000000123 1700000000123 1700000000124 req ∅) in
  exists saved,
    contentStore' !! lit "1700000000123" = Some saved
    /\ member saved (lit "wordCount") = Num 5
    /\ get_content (content_request (Some (lit "acc_alice")) (lit "1700000000123") Undefined)
         contentStore'
       = (Return (success 200 saved), contentStore').
Proof.
  intros req contentStore'.
  destruct (saved_content_is_read_back 1700000000123 1700000000123 1700000000124
              req ∅ (answer_of (save 1700000000123 1700000000123 1700000000124 req ∅))
              contentStore')
    as (text & saved & Hc & Hs & _ & _ & _ & _ & Hw & _ & Hget).
  - reflexivity.
  - reflexivity.
  - exists saved. injection Hc as <-.
    exact (conj Hs (conj Hw
             (Hget (content_request (Some (lit "acc_alice"))
                      (lit "1700000000123") Undefined) eq_refl eq_refl))).
Defined.

(** X17. The id of a saved content is the clock reading in milliseconds,
    so a save that is accepted in the same millisecond as an earlier one
    takes the place of it: the store is then as if the earlier request,
    whoever sent it, had never been made. *)
Theorem same_millisecond_overwrites
    (id_time created1 updated1 created2 updated2 : N)
    (first second : Request) (contentStore : gmap JsString.t value)
    (answer : Response) :
  fst (save id_time created2 updated2 second contentStore) = Return answer ->
  status answer = 201%N ->
  save id_time created2 updated2 second
    (snd (save id_time created1 updated1 first contentStore))
  = save id_time created2 updated2 second contentStore.
Proof.
  intros Hsecond Hstatus.
  destruct (save_shape id_time created1 updated1 first) as (r1 & o1 & _ & H1).
  destruct (save_shape id_time created2 updated2 second) as (r2 & o2 & Ho & H2).
  rewrite H1, !H2. rewrite H2 in Hsecond. cbn [fst snd] in *. subst r2.
  f_equal. destruct (proj2 Ho) as [saved ->]; [by eexists |].
  destruct o1; cbn [from_option]; [apply insert_insert_eq | done].
Qed.

Lemma same_millisecond_overwrites_witness :
  let note key text :=
    content_request (Some key) []
      (Obj [(lit "title", Str (lit "Tea")); (lit "content", Str text)]) in
  let first := note (lit "acc_alice") (lit "green tea and black") in
  let second := note (lit "acc_bob") (lit "coffee, no sugar") in
  let contentStore' := snd (save 5 5 5 second (snd (save 5 5 5 first ∅))) in
  size contentStore' = 1
  /\ get_content (content_request (Some (lit "acc_alice")) (lit "5") Undefined)
       contentStore'
     = (Return (failure 403 "Access denied"), contentStore').
Proof.
  intros note first second contentStore'.
  assert (contentStore' = snd (save 5 5 5 second ∅)) as ->.
  { refine (f_equal snd
              (same_millisecond_overwrites 5 5 5 5 5 first second ∅
                 (answer_of (save 5 5 5 second ∅)) _ _)); reflexivity. }
  split; reflexivity.
Defined.

(** ** Updating *)

Section Updating.

Lemma own_spread_into target props k :
  own_property (spread_into target (Obj props)) k
  = match last_own props k with
    | Some v => Some v
    | None => own_property target k
    end.
Proof. apply own_fold_set. Qed.

(** What an accepted [PUT /:id] has done, for a body and a stored
    content that are objects. *)
Lemma update_accepted updated req contentStore saved sent answer contentStore' :
  body req = Obj sent ->
  contentStore !! id req = Some (Obj saved) ->
  update_content updated req contentStore = (Return answer, contentStore') ->
  status answer = 200%N ->
  no_api_key (api_key req) = false
  /\ member (Obj saved) (lit "apiKey") = Str (key_of (api_key req))
  /\ exists props,
       answer = success 200 (Obj props)
       /\ contentStore' = <[id req := Obj props]> contentStore
       /\ (truthy (obj_get sent (lit "content")) = false
             /\ props = set_property
                          (spread_into (spread_into [] (Obj saved)) (Obj sent))
                          (lit "updatedAt") (Str (toISOString updated))
           \/ exists text,
                obj_get sent (lit "content") = Str text /\ text <> []
                /\ props = set_property
                     (set_property
                        (set_property
                           (spread_into (spread_into [] (Obj saved)) (Obj sent))
                           (lit "updatedAt") (Str (toISOString updated)))
                        (lit "wordCount")
                        (Num (Z.of_N (N.of_nat (length (split_on 32 text))))))
                     (lit "characterCount") (Num (Z.of_nat (length text)))).
Proof.
  intros Hbody Hsaved Hupdate Hstatus. unfold update_content in Hupdate.
  destruct (errors req); [| by injection Hupdate as <- _].
  pose proof (owned_content_cases req contentStore) as Hcases.
  destruct (owned_content req contentStore) as [refusal|saved'].
  { injection Hupdate as <- _. destruct Hcases as [(Hin & _) _].
    rewrite Hstatus in Hin.
    exfalso. revert Hin. refine (proj1 (bool_decide_eq_false _) _).
    vm_compute. reflexivity. }
  destruct Hcases as (Hgiven & Hs & _ & Hkey).
  rewrite Hsaved in Hs. injection Hs as <-. split; [done |]. split; [done |].
  rewrite Hbody in Hupdate. cbn [member] in Hupdate.
  destruct (truthy (obj_get sent (lit "content"))) eqn:Ht.
  - destruct (obj_get sent (lit "content")) as [| | | | text | | |] eqn:Hc;
      try (cbn [split_length] in Hupdate; discriminate).
    cbn [split_length string_length] in Hupdate.
    injection Hupdate as <- <-. eexists. split; [done |]. split; [done |].
    right. exists text. split; [done |]. split; [| done].
    intros ->. discriminate.
  - injection Hupdate as <- <-. eexists. split; [done |]. split; [done |].
    by left.
Qed.

End Updating.

(** X18. [PUT /:id] lays the body over the stored content. After an
    accepted update, every property of the body has its value from the
    body, whatever its name, and every other property of the stored
    content is as it was; except that [updatedAt] is the time of the
    update, and that, when the body has a content that is not empty,
    this content is a string and [wordCount] and [characterCount] are
    counted from it. *)
Theorem update_lays_body_over updated req contentStore saved sent answer
    contentStore' :
  body req = Obj sent -> NoDup (map fst sent) ->
  contentStore !! id req = Some (Obj saved) -> NoDup (map fst saved) ->
  update_content updated req contentStore = (Return answer, contentStore') ->
  status answer = 200%N ->
  exists props,
    answer = success 200 (Obj props)
    /\ contentStore' = <[id req := Obj props]> contentStore
    /\ own_property props (lit "updatedAt") = Some (Str (toISOString updated))
    /\ (forall k,
          k ∉ [lit "updatedAt"; lit "wordCount"; lit "characterCount"] ->
          own_property props k
          = match own_property sent k with
            | Some v => Some v
            | None => own_property saved k
            end)
    /\ match obj_get sent (lit "content") with
       | Str (c :: rest) =>
           own_property props (lit "wordCount")
           = Some (Num (Z.of_nat
                          (S (length (filter (fun c => c = 32%N) (c :: rest))))))
           /\ own_property props (lit "characterCount")
              = Some (Num (Z.of_nat (length (c :: rest))))
       | absent =>
           truthy absent = false
           /\ forall k,
                k ∈ [lit "wordCount"; lit "characterCount"] ->
                own_property props k
                = match own_property sent k with
                  | Some v => Some v
                  | None => own_property saved k
                  end
       end.
Proof.
  intros Hbody Hnd Hsaved Hnd' Hupdate Hstatus.
  destruct (update_accepted _ _ _ _ _ _ _ Hbody Hsaved Hupdate Hstatus)
    as (_ & _ & props & -> & -> & Hprops).
  assert (forall k,
            own_property (spread_into (spread_into [] (Obj saved)) (Obj sent)) k
            = match own_property sent k with
              | Some v => Some v
              | None => own_property saved k
              end) as Hmerge.
  { intros k. rewrite !own_spread_into, !last_own_nodup by done.
    rewrite own_property_nil. by destruct (own_property saved k). }
  exists props. split; [done |]. split; [done |].
  assert (lit "updatedAt" <> lit "wordCount"
          /\ lit "updatedAt" <> lit "characterCount"
          /\ lit "wordCount" <> lit "characterCount") as (H1 & H2 & H3).
  { repeat split; refine (proj1 (bool_decide_eq_false _) _);
      vm_compute; reflexivity. }
  destruct Hprops as [(Ht & ->) | (text & Hc & Hne & ->)].
  - split; [| split].
    + rewrite own_set_property. by rewrite bool_decide_eq_true_2.
    + intros k Hk. rewrite own_set_property, Hmerge.
      rewrite bool_decide_eq_false_2; [done |].
      intros <-. apply Hk. apply list_elem_of_here.
    + assert (forall k, k ∈ [lit "wordCount"; lit "characterCount"] ->
                own_property
                  (set_property
                     (spread_into (spread_into [] (Obj saved)) (Obj sent))
                     (lit "updatedAt") (Str (toISOString updated))) k
                = match own_property sent k with
                  | Some v => Some v
                  | None => own_property saved k
                  end) as Hcounts.
      { intros k Hk. rewrite own_set_property, Hmerge.
        rewrite bool_decide_eq_false_2; [done |].
        intros <-. apply elem_of_cons in Hk as [Hk | Hk]; [done |].
        apply elem_of_cons in Hk as [Hk | Hk]; [done |].
        by apply not_elem_of_nil in Hk. }
      destruct (obj_get sent (lit "content")) as [| | | | [|c text] | | |];
        try discriminate Ht; by split.
  - split; [| split].
    + rewrite !own_set_property.
      rewrite (bool_decide_eq_false_2 (lit "characterCount" = lit "updatedAt"))
        by congruence.
      rewrite (bool_decide_eq_false_2 (lit "wordCount" = lit "updatedAt"))
        by congruence.
      by rewrite bool_decide_eq_true_2.
    + intros k Hk. rewrite !own_set_property, Hmerge.
      rewrite !bool_decide_eq_false_2; [done | ..]; intros <-; apply Hk.
      * apply list_elem_of_here.
      * apply list_elem_of_further, list_elem_of_here.
      * apply list_elem_of_further, list_elem_of_further, list_elem_of_here.
    + rewrite Hc. destruct text as [|c text]; [done |].
      rewrite !own_set_property, split_on_count, nat_N_Z.
      rewrite (bool_decide_eq_false_2 (lit "characterCount" = lit "wordCount"))
        by congruence.
      by rewrite !bool_decide_eq_true_2.
Qed.

Lemma update_lays_body_over_witness :
  let saved := [(lit "id", Str (lit "5")); (lit "title", Str (lit "Tea"));
                (lit "content", Str (lit "green tea"));
                (lit "apiKey", Str (lit "acc_alice"));
                (lit "wordCount", Num 2)] in
  let sent := [(lit "title", Str (lit "Coffee")); (lit "wordCount", Num 40)] in
  let contentStore : gmap JsString.t value := {[ lit "5" := Obj saved ]} in
  let req := content_request (Some (lit "acc_alice")) (lit "5") (Obj sent) in
  exists props,
    snd (update_content 1700000000123 req contentStore)
    = <[lit "5" := Obj props]> contentStore
    /\ own_property props (lit "updatedAt")
       = Some (Str (toISOString 1700000000123))
    /\ own_property props (lit "title") = Some (Str (lit "Coffee"))
    /\ own_property props (lit "content") = Some (Str (lit "green tea"))
    /\ own_property props (lit "wordCount") = Some (Num 40).
Proof.
  intros saved sent contentStore req.
  destruct (update_lays_body_over 1700000000123 req contentStore saved sent
              (answer_of (update_content 1700000000123 req contentStore))
              (snd (update_content 1700000000123 req contentStore)))
    as (props & _ & Hstore & Hat & Hother & _ & Hcounts).
  - reflexivity.
  - refine (bool_decide_unpack _ _). vm_compute. exact I.
  - reflexivity.
  - refine (bool_decide_unpack _ _). vm_compute. exact I.
  - reflexivity.
  - reflexivity.
  - exists props.
    refine (conj Hstore (conj Hat (conj (Hother (lit "title") _)
              (conj (Hother (lit "content") _) (Hcounts (lit "wordCount") _))))).
    + refine (proj1 (bool_decide_eq_false _) _). vm_compute. reflexivity.
    + refine (proj1 (bool_decide_eq_false _) _). vm_compute. reflexivity.
    + apply list_elem_of_here.
Defined.

(** X19. The owner is a property like the others: the validation in
    front of [PUT /:id] looks at the title, the content and the tags
    only, so an accepted update whose body names another [apiKey] hands
    the content over. The sender is refused from then on, and the key
    named in the body reads the content. *)
Theorem update_hands_over updated req contentStore saved sent answer
    contentStore' other :
  body req = Obj sent -> NoDup (map fst sent) ->
  contentStore !! id req = Some (Obj saved) ->
  update_content updated req contentStore = (Return answer, contentStore') ->
  status answer = 200%N ->
  own_property sent (lit "apiKey") = Some (Str other) ->
  other <> key_of (api_key req) ->
  get_content req contentStore'
  = (Return (failure 403 "Access denied"), contentStore')
  /\ (other <> [] ->
      exists props,
        get_content {| body := Undefined; api_key := Some other; id := id req;
                       format := Undefined; errors := [] |} contentStore'
        = (Return (success 200 (Obj props)), contentStore')
        /\ answer = success 200 (Obj props)).
Proof.
  intros Hbody Hnd Hsaved Hupdate Hstatus Hother Hne.
  destruct (update_accepted _ _ _ _ _ _ _ Hbody Hsaved Hupdate Hstatus)
    as (Hgiven & Hkey & props & -> & -> & Hprops).
  assert (lit "updatedAt" <> lit "apiKey" /\ lit "wordCount" <> lit "apiKey"
          /\ lit "characterCount" <> lit "apiKey") as (H1 & H2 & H3).
  { repeat split; refine (proj1 (bool_decide_eq_false _) _);
      vm_compute; reflexivity. }
  assert (own_property props (lit "apiKey") = Some (Str other)) as Hown.
  { destruct Hprops as [(_ & ->) | (text & _ & _ & ->)];
      rewrite !own_set_property, own_spread_into, last_own_nodup, Hother by done;
      by rewrite !bool_decide_eq_false_2 by done. }
  split.
  - unfold get_content, owned_content.
    rewrite Hgiven, lookup_insert_eq. cbn [truthy negb member].
    unfold obj_get. rewrite Hown. cbn [is_string_equal].
    by rewrite bool_decide_eq_false_2.
  - intros Hsome. exists props. split; [| done].
    unfold get_content, owned_content. cbn [api_key id].
    destruct other as [|c other]; [done |]. cbn [no_api_key key_of default].
    rewrite lookup_insert_eq. cbn [truthy negb member].
    unfold obj_get. rewrite Hown. cbn [is_string_equal].
    by rewrite bool_decide_eq_true_2.
Qed.

Lemma update_hands_over_witness :
  let saved := [(lit "id", Str (lit "5")); (lit "title", Str (lit "Tea"));
                (lit "apiKey", Str (lit "acc_alice"))] in
  let sent := [(lit "apiKey", Str (lit "acc_bob"))] in
  let contentStore : gmap JsString.t value := {[ lit "5" := Obj saved ]} in
  let req := content_request (Some (lit "acc_alice")) (lit "5") (Obj sent) in
  let contentStore' := snd (update_content 1700000000123 req contentStore) in
  get_content req contentStore'
  = (Return (failure 403 "Access denied"), contentStore').
Proof.
  intros saved sent contentStore req contentStore'.
  refine (proj1 (update_hands_over 1700000000123 req contentStore saved sent
                   (answer_of (update_content 1700000000123 req contentStore))
                   contentStore' (lit "acc_bob") _ _ _ _ _ _ _)).
  - reflexivity.
  - refine (bool_decide_unpack _ _). vm_compute. exact I.
  - reflexivity.
  - reflexivity.
  - reflexivity.
  - reflexivity.
  - refine (proj1 (bool_decide_eq_false _) _). vm_compute. reflexivity.
Defined.

(** ** Deleting *)



(** ** Exporting *)

Section Exporting.

Lemma replace_non_alphanumeric_ascii s :
  Forall (fun c => (c < 128)%N) (replace_non_alphanumeric s).
Proof.
  unfold replace_non_alphanumeric. apply Forall_forall.
  intros c [c0 [-> _]]%list_elem_of_fmap.
  destruct (is_alphanumeric c0) eqn:Ha; [| lia].
  unfold is_alphanumeric in Ha.
  rewrite !orb_true_iff, !andb_true_iff, !N.leb_le in Ha. lia.
Qed.

Lemma file_name_unit_replaced c :
  file_name_unit (ascii_lower (if is_alphanumeric c then c else 95%N)).
Proof.
  unfold file_name_unit, ascii_lower.
  destruct (is_alphanumeric c) eqn:Ha.
  - unfold is_alphanumeric in Ha.
    rewrite !orb_true_iff, !andb_true_iff, !N.leb_le in Ha.
    destruct ((65 <=? c) && (c <=? 90))%N eqn:Hu.
    + rewrite andb_true_iff, !N.leb_le in Hu. lia.
    + rewrite andb_false_iff, !N.leb_gt in Hu. lia.
  - right. right. reflexivity.
Qed.

(** The file name made from a title that is a string. *)
Lemma export_filename_string toLowerCase title extension :
  lowers_ascii toLowerCase ->
  exists stem,
    export_filename toLowerCase (Str title) extension
    = Return (stem ++ lit extension)
    /\ length stem = length title
    /\ Forall file_name_unit stem
    /\ forall i c, title !! i = Some c ->
         stem !! i = Some (if is_alphanumeric c then ascii_lower c else 95%N).
Proof.
  intros Hlower. exists (map ascii_lower (replace_non_alphanumeric title)).
  cbn [export_filename].
  rewrite (Hlower _ (replace_non_alphanumeric_ascii title)).
  split; [done |]. unfold replace_non_alphanumeric.
  split; [by rewrite !length_map |]. split.
  - apply Forall_forall. intros c [c1 [-> [c0 [-> _]]%list_elem_of_fmap]]%list_elem_of_fmap.
    apply file_name_unit_replaced.
  - intros i c Hi.
    change (map ascii_lower ?l) with (ascii_lower <$> l).
    change (map ?f title) with (f <$> title).
    rewrite !list_lookup_fmap, Hi. cbn. by destruct (is_alphanumeric c).
Qed.

End Exporting.

(** X21. The file name of an export is safe. When [GET /:id/export]
    answers 200, the title of the content is a string and the answer is
    an attachment whose file name is as long as the title plus one of
    the extensions [.txt], [.md] and [.json]; before the extension it
    holds lower-case ASCII letters, digits and underscores only, each
    letter and digit of the title at its place and an underscore for
    every other character. The text sent is the content for [.txt] and
    [.md], and the indented JSON text of the stored object for
    [.json]. *)
Theorem export_file_name toLowerCase req contentStore saved answer :
  lowers_ascii toLowerCase ->
  contentStore !! id req = Some saved ->
  fst (export_content toLowerCase req contentStore) = Return answer ->
  status answer = 200%N ->
  exists title stem extension media,
    member saved (lit "title") = Str title
    /\ (extension, media, payload answer)
       ∈ [ (".txt"%string, "text/plain"%string,
            Sent (member saved (lit "content")));
           (".md"%string, "text/markdown"%string,
            Sent (member saved (lit "content")));
           (".json"%string, "application/json"%string,
            Sent (stringify_indented saved)) ]
    /\ headers answer
       = [ (lit "Content-Type", lit media);
           (lit "Content-Disposition",
            lit "attachment; filename=" ++ [34%N] ++ (stem ++ lit extension)
              ++ [34%N]) ]
    /\ length stem = length title
    /\ Forall file_name_unit stem
    /\ forall i c, title !! i = Some c ->
         stem !! i = Some (if is_alphanumeric c then ascii_lower c else 95%N).
Proof.
  intros Hlower Hsaved Hexport Hstatus. unfold export_content in Hexport.
  pose proof (owned_content_cases req contentStore) as Hcases.
  destruct (owned_content req contentStore) as [refusal|saved'].
  { cbn [fst] in Hexport. injection Hexport as <-.
    destruct Hcases as [(Hin & _) _].
    exfalso. revert Hin. rewrite Hstatus.
    refine (proj1 (bool_decide_eq_false _) _). vm_compute. reflexivity. }
  destruct Hcases as (_ & Hs & _ & _). rewrite Hsaved in Hs.
  injection Hs as <-.
  destruct (with_default (Str (lit "txt")) (format req)) as [| | | | wanted | | |];
    try discriminate Hexport.
  destruct (member saved (lit "title")) as [| | | | title | | |] eqn:Htitle.
  1-4, 6-8: cbn [export_filename] in Hexport;
    repeat (destruct (bool_decide _) in Hexport; try discriminate Hexport);
    cbn [fst] in Hexport; injection Hexport as <-; discriminate Hstatus.
  exists title.
  destruct (bool_decide (toLowerCase wanted = lit "txt")).
  { destruct (export_filename_string toLowerCase title ".txt" Hlower)
      as (stem & Hname & Hlen & Hunits & Hat).
    rewrite Hname in Hexport. cbn [fst] in Hexport. injection Hexport as <-.
    exists stem, ".txt"%string, "text/plain"%string.
    split; [done |]. split; [apply list_elem_of_here |]. done. }
  destruct (bool_decide (toLowerCase wanted = lit "md"
                         \/ toLowerCase wanted = lit "markdown")).
  { destruct (export_filename_string toLowerCase title ".md" Hlower)
      as (stem & Hname & Hlen & Hunits & Hat).
    rewrite Hname in Hexport. cbn [fst] in Hexport. injection Hexport as <-.
    exists stem, ".md"%string, "text/markdown"%string.
    split; [done |].
    split; [apply list_elem_of_further, list_elem_of_here |]. done. }
  destruct (bool_decide (toLowerCase wanted = lit "json")).
  { destruct (export_filename_string toLowerCase title ".json" Hlower)
      as (stem & Hname & Hlen & Hunits & Hat).
    rewrite Hname in Hexport. cbn [fst] in Hexport. injection Hexport as <-.
    exists stem, ".json"%string, "application/json"%string.
    split; [done |].
    split; [apply list_elem_of_further, list_elem_of_further,
              list_elem_of_here |]. done. }
  cbn [fst] in Hexport. injection Hexport as <-. discriminate Hstatus.
Qed.

Lemma export_file_name_witness :
  let saved := Obj [(lit "id", Str (lit "5"));
                    (lit "title", Str (lit "Q3 Report: Tea/Coffee"));
                    (lit "content", Str (lit "green tea"));
                    (lit "apiKey", Str (lit "acc_alice"))] in
  let contentStore : gmap JsString.t value := {[ lit "5" := saved ]} in
  let req := {| body := Undefined; api_key := Some (lit "acc_alice");
                id := lit "5"; format := Str (lit "MD"); errors := [] |} in
  exists answer stem extension media,
    fst (export_content (map ascii_lower) req contentStore) = Return answer
    /\ headers answer
       = [ (lit "Content-Type", lit media);
           (lit "Content-Disposition",
            lit "attachment; filename=" ++ [34%N] ++ (stem ++ lit extension)
              ++ [34%N]) ]
    /\ length stem = 21
    /\ Forall file_name_unit stem.
Proof.
  intros saved contentStore req.
  pose (answer :=
          answer_of (export_content (map ascii_lower) req contentStore)).
  destruct (export_file_name (map ascii_lower) req contentStore saved answer)
    as (title & stem & extension & media & Htitle & _ & Hheaders & Hlen
        & Hunits & _).
  - by intros s _.
  - reflexivity.
  - reflexivity.
  - reflexivity.
  - exists answer, stem, extension, media. split; [reflexivity |].
    injection Htitle as <-.
    exact (conj Hheaders (conj Hlen Hunits)).
Defined.

(** A run of the content routes: a save, an export of the saved content
    as Markdown, an update of the title, a deletion, and a read after
    the deletion. *)
Example content_run :
  let key := Some (lit "acc_alice") in
  let '(saved, store1) :=
    save 1700000000123 1700000000123 1700000000124
      (content_request key []
         (Obj [(lit "title", Str (lit "Q3 Report: Tea/Coffee"));
               (lit "content", Str (lit "green tea  and black"));
               (lit "contentType", Str (lit "blog"))])) ∅ in
  let '(exported, store2) :=
    export_content (map ascii_lower)
      {| body := Undefined; api_key := key; id := lit "1700000000123";
         format := Str (lit "MD"); errors := [] |} store1 in
  let '(updated, store3) :=
    update_content 1700000000200
      (content_request key (lit "1700000000123")
         (Obj [(lit "title", Str (lit "Q4"))])) store2 in
  let '(deleted, store4) :=
    delete_content (content_request key (lit "1700000000123") Undefined) store3 in
  let '(read, _) :=
    get_content (content_request key (lit "1700000000123") Undefined) store4 in
  (exists answer, saved = Return answer /\ status answer = 201%N)
  /\ exported
     = Return (attachment "text/markdown" (lit "q3_report__tea_coffee.md")
                 (Str (lit "green tea  and black")))
  /\ (exists props,
        store3 !! lit "1700000000123" = Some (Obj props)
        /\ map fst props
           = map lit ["id"; "title"; "content"; "contentType"; "language";
                      "tone"; "tags"; "apiKey"; "createdAt"; "updatedAt";
                      "wordCount"; "characterCount"]%string
        /\ own_property props (lit "title") = Some (Str (lit "Q4"))
        /\ own_property props (lit "wordCount") = Some (Num 5)
        /\ own_property props (lit "updatedAt")
           = Some (Str (lit "2023-11-14T22:13:20.200Z")))
  /\ (exists answer, deleted = Return answer /\ status answer = 200%N)
  /\ read = Return (failure 404 "Content not found")
  /\ store4 = ∅.
Proof.
  vm_compute. split; [by eexists |]. split; [reflexivity |].
  split; [eexists; repeat split |]. split; [by eexists |].
  split; reflexivity.
Qed.

(** * The generation routes *)

Import AiRoutes.

Section Generate.

Variable net : Network.
Variable this : AIService.

Lemma generation_request_fingerprint sent :
  fingerprint (generation_request sent) = fingerprint sent.
Proof. reflexivity. Qed.

Lemma generation_request_well_formed sent :
  well_formed (generation_request sent) <-> well_formed sent.
Proof. reflexivity. Qed.

(** With providers that give strings, a well-formed request gets a
    string. *)
Lemma generateContent_string request w :
  reachable net this w -> string_results net -> well_formed request ->
  exists s w', generateContent net this request w = (Return (Str s), w')
               /\ s <> [].
Proof.
  intros Hw Hnet Hwf.
  pose proof (well_formed_resolvable _ Hwf) as Hct.
  destruct (generateContent_truthy net this request w Hct)
    as (r & w' & Hrun & Ht).
  assert (is_string r) as [s ->].
  { destruct (returned_is_cached net this _ _ _ _ Hrun) as (e & He & <-).
    apply (reachable_strings net this _ Hnet
             (reachable_served net this w request Hw) (fingerprint request)).
    by rewrite Hrun. }
  exists s, w'. split; [done |]. by intros ->.
Qed.

Lemma generate_string startTime finished stamp sent w s w' :
  generateContent net this (generation_request sent) w = (Return (Str s), w') ->
  generate net this startTime finished stamp [] sent w
  = (generated sent s (Z.of_N finished - Z.of_N startTime) stamp, w').
Proof.
  intros Hrun. unfold generate. rewrite Hrun. cbn [split_length string_length].
  by rewrite split_on_count, nat_N_Z.
Qed.

Lemma generate_not_string startTime finished stamp sent w v w' :
  generateContent net this (generation_request sent) w = (Return v, w') ->
  ~ is_string v ->
  generate net this startTime finished stamp [] sent w = (unavailable, w').
Proof.
  intros Hrun Hv. unfold generate. rewrite Hrun.
  destruct v; try done. exfalso. apply Hv. by eexists.
Qed.

End Generate.

(** X22. [POST /generate] serves a validated request. In every state
    the process can reach, when the providers give nothing truthy but
    strings, a request whose content type, language and tone are in the
    enumerations is answered 200: the content is the text that
    [generateContent] returns, it is not empty, and the metadata count
    one word more than the text has spaces and the code units of the
    text. *)
Theorem generate_serves_text net this startTime finished stamp sent w :
  reachable net this w -> string_results net -> well_formed sent ->
  exists content w',
    generateContent net this (generation_request sent) w
    = (Return (Str content), w')
    /\ content <> []
    /\ generate net this startTime finished stamp [] sent w
       = (generated sent content (Z.of_N finished - Z.of_N startTime) stamp, w').
Proof.
  intros Hw Hnet Hwf.
  destruct (generateContent_string net this (generation_request sent) w Hw Hnet)
    as (s & w' & Hrun & Hne); [done |].
  exists s, w'. split; [done |]. split; [done |].
  by apply generate_string.
Qed.

Lemma generate_serves_text_witness :
  let net := rejecting (lit "timeout of 30000ms exceeded") 30000 in
  exists content w',
    content <> []
    /\ generate net constructor 1000 91000 91001 [] blog_request (start 1000)
       = (generated blog_request content 90000 91001, w').
Proof.
  intros net.
  destruct (generate_serves_text net constructor 1000 91000 91001 blog_request
              (start 1000)) as (content & w' & _ & Hne & Hanswer).
  - constructor.
  - intros p fullPrompt w r Hcall _. exfalso. revert Hcall.
    unfold callProvider. destruct (requestData _ _); [| discriminate].
    cbn. discriminate.
  - repeat split; refine (bool_decide_unpack _ _); vm_compute; exact I.
  - exists content, w'. exact (conj Hne Hanswer).
Defined.

(** X23. A result that is not a text is served as an error until it
    expires. When [generateContent] misses the cache and returns a value
    that is not a string (a provider has answered with a number, say),
    [POST /generate] answers 500; and since the value is cached, the same
    request made again less than the time to live later is answered 500
    again, whatever the providers would answer now: none of them is
    asked. *)
Theorem non_text_result_is_served_as_error net this startTime finished stamp
    sent w v w1 :
  cache_miss (generation_request sent) w ->
  generateContent net this (generation_request sent) w = (Return v, w1) ->
  ~ is_string v ->
  generate net this startTime finished stamp [] sent w = (unavailable, w1)
  /\ forall net' startTime' finished' stamp' elapsed,
       (elapsed < NodeCache.stdTTL * 1000)%N ->
       generate net' this startTime' finished' stamp' [] sent (later elapsed w1)
       = (unavailable, later elapsed w1).
Proof.
  intros Hmiss Hrun Hv. split; [by eapply generate_not_string |].
  intros net' startTime' finished' stamp' elapsed Hlt.
  apply generate_not_string with (v := v); [| done].
  destruct (generateContent_writes net this _ _ _ _ Hrun)
    as [[_ [[_ Ht]|[message Hm]]]|(result & Hr & Ht & _ & Hc & _)].
  - unfold cache_miss in Hmiss. congruence.
  - congruence.
  - injection Hr as <-.
    assert (cache (later elapsed w1) !! fingerprint (generation_request sent)
            = Some {| NodeCache.v := v;
                      NodeCache.t := NodeCache.livetime (now w1) |}) as He.
    { cbn [later cache]. rewrite Hc. apply lookup_insert_eq. }
    apply (generateContent_hit net' this _ _ _ He); [| done].
    apply written_not_expired. cbn [later now]. lia.
Qed.

Lemma non_text_result_is_served_as_error_witness :
  let w1 := snd (generateContent (answering number_body 120) constructor
                   (generation_request blog_request) (start 0)) in
  generate (answering number_body 120) constructor 0 120 120 [] blog_request
    (start 0) = (unavailable, w1)
  /\ generate (answering text_body 120) constructor 1800000 1800000 1800000 []
       blog_request (later 1800000 w1)
     = (unavailable, later 1800000 w1).
Proof.
  intros w1.
  destruct (non_text_result_is_served_as_error (answering number_body 120)
              constructor 0 120 120 blog_request (start 0) (Num 42) w1)
    as [Hfirst Hlater].
  - reflexivity.
  - reflexivity.
  - intros [s Hs]. discriminate Hs.
  - refine (conj Hfirst
              (Hlater (answering text_body 120) 1800000%N 1800000%N 1800000%N
                 1800000%N _)).
    reflexivity.
Defined.

Section Batch.

Variable net : Network.
Variable this : AIService.

Lemma prefix_of_string language :
  prefix_of (Str language) language = language_marker language.
Proof.
  unfold prefix_of, language_marker. cbn [is_string_equal]. by case_bool_decide.
Qed.

Lemma toneNote_of_string tone :
  toneNote_of (Str tone) tone = tone_marker tone.
Proof.
  unfold toneNote_of, tone_marker. cbn [is_string_equal]. by case_bool_decide.
Qed.

Lemma generateFallbackContent_of_strings topic type language tone :
  generateFallbackContent_of (Str topic) type (Str language) language
    (Str tone) tone
  = Return (generateFallbackContent topic type language tone).
Proof.
  unfold generateFallbackContent_of, generateFallbackContent.
  rewrite prefix_of_string, toneNote_of_string.
  rewrite <- (generator_markers generatePresentationTemplate topic language tone)
    by apply presentation_listed.
  rewrite <- (generator_markers generateDocumentTemplate topic language tone)
    by apply document_listed.
  rewrite <- (generator_markers generateSocialTemplate topic language tone)
    by apply social_listed.
  rewrite <- (generator_markers generateBlogTemplate topic language tone)
    by apply blog_listed.
  rewrite <- (generator_markers generateEmailTemplate topic language tone)
    by apply email_listed.
  reflexivity.
Qed.

(** On a request of the data model, [generateContent_of] is
    [generateContent]. *)
Lemma generateContent_of_typed item request w :
  typed_request item = Some request ->
  generateContent_of net this item w = generateContent net this request w.
Proof.
  destruct item as [| | | | |items|props|]; try discriminate.
  unfold typed_request, generateContent_of, generateContent. cbn [member].
  destruct (obj_get props (lit "prompt")) as [| | | |topic| | |]; try discriminate.
  destruct (obj_get props (lit "contentType")) as [| | | |type| | |];
    try discriminate.
  destruct (obj_get props (lit "language")) as [| | | |chosen| | |];
    try discriminate;
    (destruct (obj_get props (lit "tone")) as [| | | |chosen'| | |];
     try discriminate);
    intros [= <-];
    cbn [prompt contentType language tone default with_default string_of
         to_string hashString_of];
    unfold cacheKey_of;
    (destruct (cache_get _ w) as [cached w0]);
    (destruct (truthy cached); [reflexivity |]);
    (destruct (buildPrompt _ _ _ _) as [fullPrompt|message]; [| reflexivity]);
    (destruct (try_providers _ _ _ _ _) as [[result|] w1]; [reflexivity |]);
    by rewrite generateFallbackContent_of_strings.
Qed.

Lemma generateFallbackContent_of_truthy topic type language shown tone shown' v :
  generateFallbackContent_of topic type language shown tone shown' = Return v ->
  truthy v = true.
Proof.
  unfold generateFallbackContent_of.
  destruct topic as [| | | |s| | |]; try discriminate. cbv zeta.
  intros [= <-]. unfold or_else.
  match goal with |- context [truthy (obj_get ?t type)] =>
    destruct (truthy (obj_get t type)) eqn:E end; [exact E |].
  pose proof (generator_truthy generateDocumentTemplate s (lit "english")
                (lit "professional") document_listed) as Hd.
  unfold obj_get, own_property. cbn [List.find fst]. eval_decisions.
  cbn [fmap option_fmap option_map snd truthy] in *.
  destruct (generateDocumentTemplate s (lit "english") (lit "professional"));
    [done |].
  by destruct (prefix_of language shown ++ toneNote_of tone shown' ++ _ :: _)
    eqn:Happ; [apply app_eq_nil in Happ as [_ [_ ?]%app_eq_nil] |].
Qed.

(** What [generateContent_of] returns is truthy. *)
Lemma generateContent_of_truthy item w r w' :
  generateContent_of net this item w = (Return r, w') -> truthy r = true.
Proof.
  unfold generateContent_of.
  destruct item; try discriminate.
  all: destruct (string_of (member _ (lit "contentType"))); [| discriminate].
  all: destruct (string_of (with_default _ (member _ (lit "language"))));
    [| discriminate].
  all: destruct (string_of (with_default _ (member _ (lit "tone"))));
    [| discriminate].
  all: destruct (hashString_of _); [| discriminate].
  all: destruct (cache_get _ w) as [cached w0].
  all: destruct (truthy cached) eqn:Hc; [by intros [= <- _] |].
  all: destruct (string_of (member _ (lit "prompt"))); [| discriminate].
  all: destruct (buildPrompt _ _ _ _); [| discriminate].
  all: destruct (try_providers _ _ _ _ _) as [[result|] w1] eqn:Hloop.
  all: try (intros [= <- _]; apply try_providers_trace in Hloop
              as (? & ? & ? & ? & ? & _ & _ & _ & _ & Ht & _); exact Ht).
  all: destruct (generateFallbackContent_of _ _ _ _ _ _) eqn:Hf;
    [| discriminate].
  all: intros [= <- _]; by eapply generateFallbackContent_of_truthy.
Qed.

(** The loop gives one result for each request, which comes from a call
    of [generateContent_of] on the request. *)
Lemma generate_each_lookup items w :
  length (fst (generate_each net this items w)) = length items
  /\ forall i item,
       items !! i = Some item ->
       exists w0,
         fst (generate_each net this items w) !! i
         = Some (pushed (fst (generateContent_of net this item w0)) item).
Proof.
  revert w. induction items as [|first rest IH]; intros w; [done |].
  cbn [generate_each].
  destruct (generateContent_of net this first w) as [r w1] eqn:Hrun.
  specialize (IH w1). destruct (generate_each net this rest w1) as [rs w2].
  cbn [fst] in *. destruct IH as [Hlen IH]. split; [cbn; by rewrite Hlen |].
  intros [|i] item Hi.
  - injection Hi as <-. exists w. by rewrite Hrun.
  - by apply IH.
Qed.

Lemma pushed_request r item : member (pushed r item) (lit "request") = item.
Proof. by destruct r. Qed.

Lemma pushed_success r item :
  member (pushed r item) (lit "success")
  = Bool (match r with Return _ => true | Throw _ => false end).
Proof. by destruct r. Qed.

End Batch.

(** X24. [POST /batch] answers 200 with one result for each element of
    [requests], in their order and each with its request, and
    [successfulRequests] counts the results that say success. An element
    of the data model (the four fields strings, language and tone where
    given) whose content type is no inherited member name is a success
    with a truthy content, whatever the providers do and whatever the
    other elements are. The validation of the route does not make every
    element one of these: an element whose prompt is an array that is
    not empty is a failure, with the error of [hashString]. *)
Theorem batch_counts_successes net this body items w :
  member body (lit "requests") = Arr items ->
  exists results w',
    batch net this [] body w
    = (Return
         (ContentRoutes.success 200
            (Obj [ (lit "results", Arr results);
                   (lit "totalRequests", Num (Z.of_nat (length items)));
                   (lit "successfulRequests",
                    Num (Z.of_nat
                           (length
                              (filter (fun r => truthy (member r (lit "success")) = true)
                                 results)))) ])),
       w')
    /\ length results = length items
    /\ (forall i item,
          items !! i = Some item ->
          exists r,
            results !! i = Some r
            /\ member r (lit "request") = item
            /\ (member r (lit "success") = Bool true
                  /\ truthy (member r (lit "content")) = true
                \/ member r (lit "success") = Bool false
                   /\ exists message, member r (lit "error") = Str message))
    /\ (forall i item request,
          items !! i = Some item ->
          typed_request item = Some request ->
          contentType request ∉ object_prototype_names ->
          exists r,
            results !! i = Some r /\ member r (lit "success") = Bool true)
    /\ (forall i props first rest type,
          items !! i = Some (Obj props) ->
          obj_get props (lit "prompt") = Arr (first :: rest) ->
          obj_get props (lit "contentType") = Str type ->
          text_or_missing (obj_get props (lit "language")) ->
          text_or_missing (obj_get props (lit "tone")) ->
          exists r,
            results !! i = Some r
            /\ member r (lit "success") = Bool false
            /\ member r (lit "error")
               = Str (lit "str.charCodeAt is not a function")).
Proof.
  intros Hrequests. unfold batch.
  destruct body as [| | | | | |fields|]; try discriminate.
  rewrite Hrequests. cbn [iterate length_of].
  destruct (generate_each_lookup net this items w) as [Hlen Hlookup].
  destruct (generate_each net this items w) as [results w'] eqn:Hloop.
  cbn [fst] in *. exists results, w'. split; [done |]. split; [done |].
  split; [| split].
  - intros i item Hi. destruct (Hlookup i item Hi) as [w0 Hr].
    eexists. split; [exact Hr |]. split; [apply pushed_request |].
    rewrite pushed_success.
    destruct (generateContent_of net this item w0) as [[r|message] w1] eqn:Hrun;
      cbn [fst].
    + left. split; [done |]. cbn. by eapply generateContent_of_truthy.
    + right. split; [done |]. by eexists.
  - intros i item request Hi Htyped Hct.
    destruct (Hlookup i item Hi) as [w0 Hr].
    eexists. split; [exact Hr |]. rewrite pushed_success.
    rewrite (generateContent_of_typed net this item request w0 Htyped).
    by destruct (generateContent_truthy net this request w0 Hct)
      as (r & w1 & -> & _).
  - intros i props first rest type Hi Hprompt Htype Hlanguage Htone.
    destruct (Hlookup i _ Hi) as [w0 Hr].
    eexists. split; [exact Hr |].
    assert (fst (generateContent_of net this (Obj props) w0)
            = Throw (lit "str.charCodeAt is not a function")) as ->; [| done].
    unfold generateContent_of. cbn [member]. rewrite Hprompt, Htype.
    by destruct Hlanguage as [-> | [l ->]], Htone as [-> | [t ->]].
Qed.

Lemma batch_counts_successes_witness :
  let net := rejecting (lit "timeout of 30000ms exceeded") 30000 in
  exists results w',
    fst (batch net constructor [] mixed_batch (start 0))
    = Return
        (ContentRoutes.success 200
           (Obj [ (lit "results", Arr results);
                  (lit "totalRequests", Num 3);
                  (lit "successfulRequests",
                   Num (Z.of_nat
                          (length
                             (filter (fun r => truthy (member r (lit "success")) = true)
                                results)))) ]))
    /\ snd (batch net constructor [] mixed_batch (start 0)) = w'
    /\ length results = 3.
Proof.
  intros net.
  destruct (batch_counts_successes net constructor mixed_batch
              [ Obj [(lit "prompt", Str (lit "renewable energy"));
                     (lit "contentType", Str (lit "blog"))];
                Obj [(lit "prompt", Num 12345678901);
                     (lit "contentType", Str (lit "blog"))];
                Obj [(lit "prompt", Arr [Str (lit "renewable energy")]);
                     (lit "contentType", Str (lit "blog"))] ]
              (start 0)) as (results & w' & Hbatch & Hlen & _).
  - reflexivity.
  - exists results, w'. rewrite Hbatch. exact (conj eq_refl (conj eq_refl Hlen)).
Defined.

(** The batch of three with every provider down: the text gets its
    fallback content, the number fails in the social template, the array
    fails in [hashString]; one success of three. *)
Example mixed_batch_run :
  let net := rejecting (lit "timeout of 30000ms exceeded") 30000 in
  exists answer data,
    fst (batch net constructor [] mixed_batch (start 0)) = Return answer
    /\ status answer = 200%N
    /\ payload answer = Json (Obj [(lit "success", Bool true); (lit "data", data)])
    /\ member data (lit "totalRequests") = Num 3
    /\ member data (lit "successfulRequests") = Num 1
    /\ (match member data (lit "results") with
        | Arr rs => map (fun r => (member r (lit "success"), member r (lit "error"))) rs
        | _ => []
        end)
       = [ (Bool true, Undefined);
           (Bool false, Str (lit "prompt.replace is not a function"));
           (Bool false, Str (lit "str.charCodeAt is not a function")) ].
Proof.
  intros net. eexists _, _. split; [vm_compute; reflexivity |].
  split; [reflexivity |]. split; [reflexivity |].
  split; [reflexivity |]. split; [reflexivity |]. vm_compute. reflexivity.
Qed.

Example string_of_samples :
  string_of (Arr [Num 1; Null; Arr [Str (lit "a"); Bool true]]) = Return (lit "1,,a,true")
  /\ string_of (Obj [(lit "a", Num 1)]) = Return (lit "[object Object]")
  /\ string_of (Arr [Obj [(lit "toString", Num 1)]])
     = Throw (lit "Cannot convert object to primitive value")
  /\ string_of (Num (10 ^ 21)) = Return (lit "1e+21").
Proof. vm_compute. repeat split. Qed.

Example positive_literal_samples :
  map positive_literal
    (map lit [" 12 "; "1e3"; "0x1F"; "+.5"; "5."; "Infinity"; "1e-323";
              "0.01e2"; "0B10"; "1e-324"; "1e-400"; "0.0"; "0e5"; "-1"; ".";
              "5e"; "0x"; "1_0"; "+0x10"; "12px"; " "; "0o8"]%string)
  = [true; true; true; true; true; true; true;
     true; true; false; false; false; false; false; false;
     false; false; false; false; false; false; false].
Proof. vm_compute. reflexivity. Qed.

(** A run of [/generate] with the two enabled providers down: the
    fallback text of the blog generator, after 60 seconds of timeouts. *)
Example generate_run :
  let net := rejecting (lit "timeout of 30000ms exceeded") 30000 in
  let '(answer, w) :=
    generate net constructor 1700000000000 1700000060000 1700000060001 []
      blog_request (start 1700000000000) in
  status answer = 200%N
  /\ (exists data,
        payload answer = Json (Obj [(lit "success", Bool true); (lit "data", data)])
        /\ member (member data (lit "metadata")) (lit "generationTime")
           = Str (lit "60000ms")
        /\ member (member data (lit "metadata")) (lit "timestamp")
           = Str (lit "2023-11-14T22:14:20.001Z")
        /\ member (member data (lit "metadata")) (lit "language")
           = Str (lit "english")
        /\ member data (lit "content") = fallback_of blog_request)
  /\ now w = 1700000060000%N /\ length (posted w) = 2 /\ length (console w) = 2.
Proof.
  vm_compute. split; [reflexivity |]. split; [eexists; repeat split |].
  repeat split.
Qed.

(** * The account routes *)

Import AuthRoutes.

Section Maps.

Lemma map_get_set m k r k' :
  map_get (map_set m k r) k'
  = if bool_decide (k = k') then Some r else map_get m k'.
Proof.
  unfold map_get. induction m as [|[k0 r0] m IH]; cbn [map_set].
  - cbn. by case_bool_decide.
  - destruct (decide (k0 = k)) as [->|Hne].
    + rewrite (bool_decide_eq_true_2 (k = k)) by done. cbn.
      by case_bool_decide.
    + rewrite (bool_decide_eq_false_2 (k0 = k)) by done. cbn.
      destruct (decide (k0 = k')) as [->|Hne'].
      * rewrite (bool_decide_eq_true_2 (k' = k')) by done.
        by rewrite (bool_decide_eq_false_2 (k = k')) by done.
      * by rewrite (bool_decide_eq_false_2 (k0 = k')) by done.
Qed.

Lemma map_get_None m k :
  map_get m k = None <-> k ∉ map fst m.
Proof.
  unfold map_get. induction m as [|[k0 r0] m IH]; cbn.
  - split; [intros _; apply not_elem_of_nil | done].
  - rewrite not_elem_of_cons. case_bool_decide as Hk; cbn in Hk.
    + split; [done | intros [Hne _]; by subst].
    + rewrite IH. split; [by intros ? | by intros [_ ?]].
Qed.

Lemma map_get_Some m k r :
  NoDup (map fst m) -> map_get m k = Some r <-> (k, r) ∈ m.
Proof.
  unfold map_get. induction m as [|[k0 r0] m IH]; cbn [map fst].
  - intros _. cbn. split; [done | intros H; by apply not_elem_of_nil in H].
  - intros [Hnot Hnd]%NoDup_cons. cbn. rewrite elem_of_cons.
    case_bool_decide as Hk; cbn in Hk.
    + subst k0. cbn. split; [intros [= ->]; by left |].
      intros [[= ->]|Hin]; [done |]. exfalso. apply Hnot.
      apply list_elem_of_fmap. by exists (k, r).
    + rewrite (IH Hnd). split; [by right |].
      intros [[= -> ->]|Hin]; [done | done].
Qed.

Lemma map_set_fresh m k r :
  map_get m k = None -> map_set m k r = m ++ [(k, r)].
Proof.
  unfold map_get. induction m as [|[k0 r0] m IH]; [done |]. cbn.
  case_bool_decide as Hk; cbn in Hk; [done |]. intros Hm.
  by rewrite IH.
Qed.

Lemma map_set_same m k r :
  map_get m k = Some r -> map_set m k r = m.
Proof.
  unfold map_get. induction m as [|[k0 r0] m IH]; [done |]. cbn.
  case_bool_decide as Hk; cbn in Hk.
  - subst k0. by intros [= ->].
  - intros Hm. by rewrite IH.
Qed.

End Maps.

Section Consistency.

Variable lib : Libraries.

Lemma consistent_no_accounts : consistent no_accounts.
Proof.
  split; [| split].
  - intros key ref. cbn. by rewrite lookup_empty.
  - intros address ref Hin. by apply not_elem_of_nil in Hin.
  - constructor.
Qed.

Lemma consistent_register s salt random1 random2 id_time created signed errors
    address word name :
  consistent s ->
  consistent (snd (register lib salt random1 random2 id_time created signed
                     errors address word name s)).
Proof.
  intros (Hkeys & Husers & Hnd). unfold register.
  destruct errors; [| done].
  destruct (map_get (users s) address) eqn:Hget; [done |].
  unfold consistent. cbn [snd objects users apiKeys]. rewrite (map_set_fresh _ _ _ Hget).
  split; [| split].
  - intros key ref. rewrite lookup_insert. case_decide as Hk.
    + intros [= <-]. eexists. split; [apply list_lookup_middle; done |].
      by subst key.
    + intros Hin. destruct (Hkeys _ _ Hin) as (u & Hu & Hk').
      exists u. split; [| done]. by apply lookup_app_l_Some.
  - intros e ref [Hin|Hin%list_elem_of_singleton]%elem_of_app.
    + destruct (Husers _ _ Hin) as (u & Hu & He & Hp).
      exists u. split; [by apply lookup_app_l_Some | done].
    + injection Hin as -> ->. eexists.
      split; [apply list_lookup_middle; done |]. split; [done |]. by eexists.
  - rewrite map_app. cbn. apply NoDup_app. split; [done |].
    split; [| apply NoDup_singleton].
    intros e He ->%list_elem_of_singleton. by apply map_get_None in Hget.
Qed.

Lemma token_user_found time authorization s ref user :
  token_user lib time authorization s = inr (ref, user) ->
  objects s !! ref = Some user /\ ref ∈ map snd (users s).
Proof.
  unfold token_user. destruct (bearer_token authorization); [| done].
  destruct (jwt_verify lib _ time) as [decoded|]; [| done].
  assert (match find_user s (member decoded (lit "userId")) with
          | Some ref0 =>
              match objects s !! ref0 with
              | Some user0 => inr (ref0, user0)
              | None => inl (failure 404 "User not found")
              end
          | None => inl (failure 404 "User not found")
          end = (inr (ref, user) : Response + nat * User) ->
          objects s !! ref = Some user /\ ref ∈ map snd (users s)) as Hfound.
  { destruct (find_user s _) as [ref0|] eqn:Hfind; [| done].
    destruct (objects s !! ref0) as [user0|] eqn:Hobj; [| done].
    intros [= <- <-]. split; [done |].
    apply find_some in Hfind as [Hin _]. by apply list_elem_of_In. }
  destruct decoded; done.
Qed.

Lemma consistent_regenerate s time random1 random2 authorization :
  consistent s ->
  consistent (snd (regenerate_key lib time random1 random2 authorization s)).
Proof.
  intros (Hkeys & Husers & Hnd). unfold regenerate_key.
  destruct (token_user lib time authorization s) as [refusal|[ref user]] eqn:Htoken;
    [done |].
  destruct (token_user_found _ _ _ _ _ Htoken) as [Hobj Hin].
  apply list_elem_of_fmap in Hin as ([address ref'] & Href & Hin).
  cbn in Href. subst ref'.
  destruct (Husers _ _ Hin) as (u & Hu & He & Hp).
  rewrite Hobj in Hu. injection Hu as <-.
  unfold consistent. cbn [snd objects users apiKeys].
  assert (map_set (users s) (email user) ref = users s) as ->.
  { apply map_set_same. apply map_get_Some; [done |]. by rewrite He. }
  assert (ref < length (objects s)) as Hlt by (by eapply lookup_lt_Some).
  split; [| split; [| done]].
  - intros key ref'. rewrite lookup_insert. case_decide as Hk.
    + intros [= <-]. eexists. split; [by apply list_lookup_insert_eq |].
      by subst key.
    + rewrite lookup_delete_Some. intros [Hold Hlook].
      destruct (Hkeys _ _ Hlook) as (u' & Hu' & Hk').
      exists u'. split; [| done].
      rewrite list_lookup_insert_ne; [done |].
      intros <-. rewrite Hobj in Hu'. injection Hu' as <-. congruence.
  - intros e ref' Hin'. destruct (Husers _ _ Hin') as (u' & Hu' & He' & Hp').
    destruct (decide (ref = ref')) as [<-|Hne].
    + rewrite Hobj in Hu'. injection Hu' as <-. eexists.
      split; [by apply list_lookup_insert_eq |]. done.
    + exists u'. by rewrite list_lookup_insert_ne.
Qed.

Lemma consistent_guest s key_time id_time created :
  consistent s -> consistent (snd (guest key_time id_time created s)).
Proof.
  intros (Hkeys & Husers & Hnd). unfold guest, consistent. cbn [snd objects users apiKeys].
  split; [| split; [| done]].
  - intros key ref. rewrite lookup_insert. case_decide as Hk.
    + intros [= <-]. eexists. split; [apply list_lookup_middle; done |].
      by subst key.
    + intros Hin. destruct (Hkeys _ _ Hin) as (u & Hu & Hk').
      exists u. split; [| done]. by apply lookup_app_l_Some.
  - intros e ref Hin. destruct (Husers _ _ Hin) as (u & Hu & He & Hp).
    exists u. split; [by apply lookup_app_l_Some | done].
Qed.

Lemma possible_consistent s : possible lib s -> consistent s.
Proof.
  induction 1.
  - apply consistent_no_accounts.
  - by apply consistent_register.
  - by apply consistent_regenerate.
  - by apply consistent_guest.
Qed.

End Consistency.

Section Accounts.

Variable lib : Libraries.

(** What an accepted [POST /register] has done. *)
Lemma register_accepted salt random1 random2 id_time created signed
    address word full_name s answer s' :
  register lib salt random1 random2 id_time created signed [] address word
    full_name s = (answer, s') ->
  status answer = 201%N ->
  map_get (users s) address = None
  /\ s' = {| objects :=
               objects s ++ [registered_user lib salt random1 random2 id_time
                               created address word full_name];
             users := users s ++ [(address, length (objects s))];
             apiKeys := <[generateApiKey random1 random2 := length (objects s)]>
                          (apiKeys s) |}.
Proof.
  unfold register. destruct (map_get (users s) address) eqn:Hget.
  { intros [= <- _]. discriminate. }
  intros [= _ <-] _. split; [done |]. by rewrite (map_set_fresh _ _ _ Hget).
Qed.

Lemma user_of_email_Some s address u :
  consistent s -> user_of_email s address = Some u ->
  email u = address /\ is_Some (password u).
Proof.
  intros (_ & Husers & Hnd). unfold user_of_email.
  destruct (map_get (users s) address) as [ref|] eqn:Hget; [| done].
  cbn. intros Hobj. apply map_get_Some in Hget; [| done].
  destruct (Husers _ _ Hget) as (u' & Hu' & He & Hp).
  rewrite Hobj in Hu'. by injection Hu' as <-.
Qed.

Lemma bearer_token_prefixed token :
  token <> [] -> bearer_token (Some (lit "Bearer " ++ token)) = Some token.
Proof.
  intros Hne. unfold bearer_token. cbn [fmap option_fmap option_map].
  assert (remove_first (lit "Bearer ") (lit "Bearer " ++ token) = token) as ->.
  { change (lit "Bearer ") with [66; 101; 97; 114; 101; 114; 32]%N.
    cbn [app remove_first]. rewrite bool_decide_eq_true_2; [done |].
    by exists token. }
  by destruct token.
Qed.

End Accounts.

(** X25. A key belongs to one user object and an object has one key. In
    every state that the handlers can lead to, the user that a key of
    [apiKeys] leads to has this key as its [apiKey], so that two keys
    never lead to the same object; and the user that an email of [users]
    leads to has this email and a password, so that [POST /login] never
    fails with an error of the password comparison. *)
Theorem key_leads_to_its_owner lib s :
  possible lib s ->
  (forall key u, user_of_key s key = Some u -> apiKey u = key)
  /\ (forall key1 key2 ref,
        apiKeys s !! key1 = Some ref -> apiKeys s !! key2 = Some ref ->
        key1 = key2)
  /\ (forall address u,
        user_of_email s address = Some u ->
        email u = address /\ is_Some (password u))
  /\ (forall signed errors address word,
        exists answer, login lib signed errors address word s = (Return answer, s)).
Proof.
  intros Hs%possible_consistent.
  pose proof Hs as (Hkeys & Husers & Hnd).
  split; [| split; [| split]].
  - intros key u. unfold user_of_key.
    destruct (apiKeys s !! key) as [ref|] eqn:Hkey; [| done]. cbn.
    destruct (Hkeys _ _ Hkey) as (u' & Hu' & Hk). congruence.
  - intros key1 key2 ref H1 H2.
    destruct (Hkeys _ _ H1) as (u1 & Hu1 & Hk1).
    destruct (Hkeys _ _ H2) as (u2 & Hu2 & Hk2). congruence.
  - intros address u. by apply user_of_email_Some.
  - intros signed errors address word. unfold login.
    destruct errors; [| by eexists].
    pose proof (user_of_email_Some s address) as Hsome.
    unfold user_of_email in Hsome.
    destruct (map_get (users s) address ≫= _) as [user|]; [| by eexists].
    destruct (Hsome user Hs eq_refl) as [_ [hashed ->]].
    destruct (negb _); by eexists.
Qed.

Lemma key_leads_to_its_owner_witness :
  let s := snd (guest 5 5 5
             (snd (register plain_libraries (lit "salt") (lit "k3y") (lit "9xz")
                     5 5 5 [] (lit "ann@demo.com") (lit "secret") (lit "Ann")
                     no_accounts))) in
  (forall key u, user_of_key s key = Some u -> apiKey u = key)
  /\ exists answer,
       login plain_libraries 6 [] (lit "guest@demo.com") (lit "secret") s
       = (Return answer, s).
Proof.
  intros s.
  destruct (key_leads_to_its_owner plain_libraries s) as (Hkey & _ & _ & Hlogin).
  - apply possible_guest, possible_register, possible_empty.
  - exact (conj Hkey (Hlogin 6%N [] (lit "guest@demo.com") (lit "secret"))).
Defined.

(** X26. A new key revokes the old one. After an accepted
    [POST /regenerate-key], in a state that the handlers can lead to, the
    new key leads to the user of the token and the old key leads to
    nobody, every other key leads to whom it led before, and the user
    that the email leads to has the new key: [users] and [apiKeys] share
    the object. *)
Theorem regenerate_key_revokes lib time random1 random2 authorization s
    answer s' :
  possible lib s ->
  regenerate_key lib time random1 random2 authorization s = (answer, s') ->
  status answer = 200%N ->
  exists ref user,
    token_user lib time authorization s = inr (ref, user)
    /\ answer = ContentRoutes.success 200
                  (Obj [(lit "apiKey", Str (generateApiKey random1 random2))])
    /\ user_of_key s' (generateApiKey random1 random2)
       = Some (with_key (generateApiKey random1 random2) user)
    /\ (apiKey user <> generateApiKey random1 random2 ->
        user_of_key s' (apiKey user) = None)
    /\ (forall key, key <> generateApiKey random1 random2 ->
          key <> apiKey user -> user_of_key s' key = user_of_key s key)
    /\ user_of_email s' (email user)
       = Some (with_key (generateApiKey random1 random2) user).
Proof.
  intros Hs%possible_consistent Hrun Hstatus.
  pose proof Hs as (Hkeys & Husers & Hnd).
  unfold regenerate_key in Hrun.
  destruct (token_user lib time authorization s) as [refusal|[ref user]] eqn:Htoken.
  { injection Hrun as <- _. exfalso. revert Hstatus. unfold token_user in Htoken.
    destruct (bearer_token authorization); [| by injection Htoken as <-].
    destruct (jwt_verify lib _ time) as [decoded|]; [| by injection Htoken as <-].
    assert (status refusal = 401%N \/ status refusal = 404%N) as [-> | ->];
      [| done | done].
    destruct decoded; try (injection Htoken as <-; by left);
      (destruct (find_user s _); [| injection Htoken as <-; by right]);
      (destruct (objects s !! _); [done | injection Htoken as <-; by right]). }
  injection Hrun as <- <-.
  destruct (token_user_found _ _ _ _ _ _ Htoken) as [Hobj Hin].
  apply list_elem_of_fmap in Hin as ([address ref'] & Href & Hin).
  cbn in Href. subst ref'.
  destruct (Husers _ _ Hin) as (u & Hu & He & Hp).
  rewrite Hobj in Hu. injection Hu as <-.
  assert (ref < length (objects s)) as Hlt by (by eapply lookup_lt_Some).
  exists ref, user. split; [done |]. split; [done |].
  unfold user_of_key, user_of_email. cbn [objects users apiKeys].
  split; [| split; [| split]].
  - rewrite lookup_insert_eq. cbn. by apply list_lookup_insert_eq.
  - intros Hne. rewrite lookup_insert_ne by done. by rewrite lookup_delete_eq.
  - intros key Hnew Hold.
    rewrite lookup_insert_ne, lookup_delete_ne by done.
    destruct (apiKeys s !! key) as [ref'|] eqn:Hkey; [| done]. cbn.
    rewrite list_lookup_insert_ne; [done |]. intros <-.
    destruct (Hkeys _ _ Hkey) as (u' & Hu' & Hk). congruence.
  - rewrite map_get_set, bool_decide_eq_true_2 by done. cbn.
    by apply list_lookup_insert_eq.
Qed.

Lemma regenerate_key_revokes_witness :
  let s := snd (register plain_libraries (lit "salt") (lit "k3y") (lit "9xz")
                  5 5 5 [] (lit "ann@demo.com") (lit "secret") (lit "Ann")
                  no_accounts) in
  let s' := snd (regenerate_key plain_libraries 9 (lit "n3w") (lit "k3y")
                   (Some (lit "Bearer 5.ann@demo.com")) s) in
  exists ref user,
    token_user plain_libraries 9 (Some (lit "Bearer 5.ann@demo.com")) s
    = inr (ref, user)
    /\ user_of_key s' (generateApiKey (lit "n3w") (lit "k3y"))
       = Some (with_key (generateApiKey (lit "n3w") (lit "k3y")) user)
    /\ user_of_email s' (email user)
       = Some (with_key (generateApiKey (lit "n3w") (lit "k3y")) user).
Proof.
  intros s s'.
  destruct (regenerate_key_revokes plain_libraries 9 (lit "n3w") (lit "k3y")
              (Some (lit "Bearer 5.ann@demo.com")) s
              (fst (regenerate_key plain_libraries 9 (lit "n3w") (lit "k3y")
                      (Some (lit "Bearer 5.ann@demo.com")) s)) s')
    as (ref & user & Htoken & _ & Hnew & _ & _ & Hemail).
  - apply possible_register, possible_empty.
  - reflexivity.
  - reflexivity.
  - exists ref, user. exact (conj Htoken (conj Hnew Hemail)).
Defined.

(** X27. Who has registered can log in. After an accepted
    [POST /register], with a library whose comparison accepts the
    password it has hashed, [POST /login] with the same email and
    password answers 200 with the id and the key of the registration;
    and a wrong password gets the very answer that an unknown email
    gets. *)
Theorem login_after_register lib salt random1 random2 id_time created signed
    signed' address word full_name s answer s' :
  register lib salt random1 random2 id_time created signed [] address word
    full_name s = (answer, s') ->
  status answer = 201%N ->
  bcrypt_compare lib word (bcrypt_hash lib word salt) = true ->
  (exists data,
     login lib signed' [] address word s'
     = (Return (ContentRoutes.success 200 data), s')
     /\ member (member data (lit "user")) (lit "id") = Str (time_string id_time)
     /\ member (member data (lit "user")) (lit "apiKey")
        = Str (generateApiKey random1 random2)
     /\ member data (lit "token")
        = Str (jwt_sign lib (time_string id_time) address signed'))
  /\ (forall other,
        bcrypt_compare lib other (bcrypt_hash lib word salt) = false ->
        login lib signed' [] address other s'
        = (Return (failure 401 "Invalid credentials"), s'))
  /\ (forall unknown other,
        user_of_email s' unknown = None ->
        login lib signed' [] unknown other s'
        = (Return (failure 401 "Invalid credentials"), s')).
Proof.
  intros Hreg Hstatus Hcompare.
  destruct (register_accepted lib _ _ _ _ _ _ _ _ _ _ _ _ Hreg Hstatus)
    as [Hfresh ->].
  assert (map_get (users s ++ [(address, length (objects s))]) address
            ≫= (fun ref =>
                  (objects s ++ [registered_user lib salt random1 random2 id_time
                                   created address word full_name]) !! ref)
          = Some (registered_user lib salt random1 random2 id_time created
                    address word full_name)) as Hfound.
  { rewrite <- (map_set_fresh _ _ _ Hfresh), map_get_set.
    rewrite bool_decide_eq_true_2 by done. cbn.
    by apply list_lookup_middle. }
  split; [| split].
  - unfold login. cbn [users objects]. rewrite Hfound.
    cbn [password registered_user]. rewrite Hcompare. cbn [negb].
    eexists. split; [reflexivity |].
    unfold member, obj_get, own_property. cbn [List.find fst].
    eval_decisions. cbn [fmap option_fmap option_map snd List.find fst].
    eval_decisions. by cbn.
  - intros other Hother. unfold login. cbn [users objects]. rewrite Hfound.
    cbn [password registered_user]. by rewrite Hother.
  - intros unknown other Hunknown. unfold login.
    unfold user_of_email in Hunknown. by rewrite Hunknown.
Qed.

Lemma login_after_register_witness :
  let s' := snd (register plain_libraries (lit "salt") (lit "k3y") (lit "9xz")
                   5 5 5 [] (lit "ann@demo.com") (lit "secret") (lit "Ann")
                   no_accounts) in
  (exists data,
     login plain_libraries 7 [] (lit "ann@demo.com") (lit "secret") s'
     = (Return (ContentRoutes.success 200 data), s')
     /\ member (member data (lit "user")) (lit "apiKey")
        = Str (generateApiKey (lit "k3y") (lit "9xz")))
  /\ login plain_libraries 7 [] (lit "ann@demo.com") (lit "Secret") s'
     = (Return (failure 401 "Invalid credentials"), s')
  /\ login plain_libraries 7 [] (lit "bob@demo.com") (lit "secret") s'
     = (Return (failure 401 "Invalid credentials"), s').
Proof.
  intros s'.
  destruct (login_after_register plain_libraries (lit "salt") (lit "k3y")
              (lit "9xz") 5 5 5 7 (lit "ann@demo.com") (lit "secret") (lit "Ann")
              no_accounts
              (fst (register plain_libraries (lit "salt") (lit "k3y") (lit "9xz")
                      5 5 5 [] (lit "ann@demo.com") (lit "secret") (lit "Ann")
                      no_accounts))
              s')
    as ((data & Hlogin & _ & Hkey & _) & Hwrong & Hunknown).
  - reflexivity.
  - reflexivity.
  - vm_compute. reflexivity.
  - split; [exists data; exact (conj Hlogin Hkey) |].
    split.
    + apply Hwrong. vm_compute. reflexivity.
    + apply Hunknown. vm_compute. reflexivity.
Defined.

Section SameId.

Variable lib : Libraries.

Lemma find_user_app s more extra userId :
  (forall ref, ref ∈ map snd (users s) -> ref < length (objects s)) ->
  find_user {| objects := objects s ++ more; users := users s ++ extra;
               apiKeys := apiKeys s |} userId
  = match find_user s userId with
    | Some ref => Some ref
    | None =>
        List.find
          (fun ref =>
             match (objects s ++ more) !! ref with
             | Some u => is_string_equal userId (id u)
             | None => false
             end)
          (map snd extra)
    end.
Proof.
  unfold find_user. cbn [objects users]. rewrite map_app.
  generalize (map snd extra) as later_refs.
  induction (map snd (users s)) as [|ref refs IH]; intros later_refs Hvalid;
    [done |].
  cbn [app List.find].
  assert (ref < length (objects s)) as Hlt by (apply Hvalid; by left).
  rewrite lookup_app_l by done.
  destruct (objects s !! ref) as [u|]; [destruct (is_string_equal _ _) |];
    try done; apply IH; intros r Hr; apply Hvalid; by right.
Qed.

Lemma consistent_valid s :
  consistent s ->
  forall ref, ref ∈ map snd (users s) -> ref < length (objects s).
Proof.
  intros (_ & Husers & _) ref ([address ref'] & -> & Hin)%list_elem_of_fmap.
  destruct (Husers _ _ Hin) as (u & Hu & _). by eapply lookup_lt_Some.
Qed.

End SameId.

(** X28. The id of an account is the clock reading in milliseconds, and
    the token names the account by its id alone. When two accounts are
    registered in the same millisecond, with an id that no earlier
    account has, the token that the second registration hands out is
    taken for the first account: [GET /profile] with it shows the email
    and the key of the first account, and [POST /regenerate-key] with it
    takes the key of the first account away. *)
Theorem same_millisecond_accounts lib s (id_time : N)
    salt1 random11 random12 created1 signed1 address1 word1 name1 answer1 s1
    salt2 random21 random22 created2 signed2 address2 word2 name2 answer2 s2
    time decoded random1 random2 :
  possible lib s ->
  find_user s (Str (time_string id_time)) = None ->
  register lib salt1 random11 random12 id_time created1 signed1 [] address1
    word1 name1 s = (answer1, s1) ->
  status answer1 = 201%N ->
  register lib salt2 random21 random22 id_time created2 signed2 [] address2
    word2 name2 s1 = (answer2, s2) ->
  status answer2 = 201%N ->
  let token := jwt_sign lib (time_string id_time) address2 signed2 in
  let first := registered_user lib salt1 random11 random12 id_time created1
                 address1 word1 name1 in
  token <> [] ->
  jwt_verify lib token time = Some decoded ->
  member decoded (lit "userId") = Str (time_string id_time) ->
  token_user lib time (Some (lit "Bearer " ++ token)) s2
  = inr (length (objects s), first)
  /\ (exists data,
        profile lib time (Some (lit "Bearer " ++ token)) s2
        = (ContentRoutes.success 200 data, s2)
        /\ member (member data (lit "user")) (lit "email") = Str address1
        /\ member (member data (lit "user")) (lit "apiKey")
           = Str (generateApiKey random11 random12))
  /\ (generateApiKey random1 random2 <> generateApiKey random11 random12 ->
      user_of_key
        (snd (regenerate_key lib time random1 random2
                (Some (lit "Bearer " ++ token)) s2))
        (generateApiKey random11 random12) = None).
Proof.
  intros Hs Hnone Hreg1 Hst1 Hreg2 Hst2 token first Htoken Hverify Hid.
  destruct (register_accepted lib _ _ _ _ _ _ _ _ _ _ _ _ Hreg1 Hst1)
    as [Hfresh1 ->].
  destruct (register_accepted lib _ _ _ _ _ _ _ _ _ _ _ _ Hreg2 Hst2)
    as [Hfresh2 ->].
  cbn [objects users apiKeys] in *. fold first.
  set (second := registered_user lib salt2 random21 random22 id_time created2
                   address2 word2 name2).
  assert (token_user lib time (Some (lit "Bearer " ++ token))
            {| objects := (objects s ++ [first]) ++ [second];
               users := (users s ++ [(address1, length (objects s))])
                          ++ [(address2, length (objects s ++ [first]))];
               apiKeys := <[generateApiKey random21 random22 :=
                              length (objects s ++ [first])]>
                            (<[generateApiKey random11 random12 :=
                                 length (objects s)]> (apiKeys s)) |}
          = inr (length (objects s), first)) as Hfound.
  { unfold token_user. rewrite (bearer_token_prefixed token Htoken), Hverify.
    assert (find_user
              {| objects := (objects s ++ [first]) ++ [second];
                 users := (users s ++ [(address1, length (objects s))])
                            ++ [(address2, length (objects s ++ [first]))];
                 apiKeys := <[generateApiKey random21 random22 :=
                                length (objects s ++ [first])]>
                              (<[generateApiKey random11 random12 :=
                                   length (objects s)]> (apiKeys s)) |}
              (member decoded (lit "userId"))
            = Some (length (objects s))) as ->.
    { rewrite Hid. unfold find_user. cbn [objects users].
      rewrite <- !app_assoc. cbn [app].
      pose proof (find_user_app s [first; second]
                    [(address1, length (objects s));
                     (address2, length (objects s ++ [first]))]
                    (Str (time_string id_time))
                    (consistent_valid s (possible_consistent lib s Hs))) as Happ.
      unfold find_user at 1 in Happ. cbn [objects users] in Happ.
      rewrite Happ, Hnone. cbn [map snd List.find].
      rewrite list_lookup_middle by done. cbn [is_string_equal first
        registered_user id]. by rewrite bool_decide_eq_true_2. }
    cbn [objects]. rewrite <- app_assoc. cbn [app].
    rewrite list_lookup_middle by done.
    by destruct decoded. }
  split; [done |]. split.
  - unfold profile. rewrite Hfound. eexists. split; [reflexivity |].
    unfold member, obj_get, own_property. cbn [List.find fst].
    eval_decisions. cbn [fmap option_fmap option_map snd List.find fst].
    eval_decisions. by cbn.
  - intros Hne. unfold regenerate_key. rewrite Hfound.
    unfold user_of_key. cbn [snd apiKeys objects first registered_user apiKey].
    rewrite lookup_insert_ne by done. by rewrite lookup_delete_eq.
Qed.

Lemma same_millisecond_accounts_witness :
  let registered address s :=
    snd (register plain_libraries (lit "salt") address (lit "9xz") 5 5 5 []
           address (lit "secret") (lit "A") s) in
  let s2 := registered (lit "bob@demo.com") (registered (lit "ann@demo.com") no_accounts) in
  let token := jwt_sign plain_libraries (time_string 5) (lit "bob@demo.com") 5 in
  exists data,
    profile plain_libraries 9 (Some (lit "Bearer " ++ token)) s2
    = (ContentRoutes.success 200 data, s2)
    /\ member (member data (lit "user")) (lit "email") = Str (lit "ann@demo.com").
Proof.
  intros registered s2 token.
  destruct (same_millisecond_accounts plain_libraries no_accounts 5
              (lit "salt") (lit "ann@demo.com") (lit "9xz") 5 5
              (lit "ann@demo.com") (lit "secret") (lit "A")
              (fst (register plain_libraries (lit "salt") (lit "ann@demo.com")
                      (lit "9xz") 5 5 5 [] (lit "ann@demo.com") (lit "secret")
                      (lit "A") no_accounts))
              (registered (lit "ann@demo.com") no_accounts)
              (lit "salt") (lit "bob@demo.com") (lit "9xz") 5 5
              (lit "bob@demo.com") (lit "secret") (lit "A")
              (fst (register plain_libraries (lit "salt") (lit "bob@demo.com")
                      (lit "9xz") 5 5 5 [] (lit "bob@demo.com") (lit "secret")
                      (lit "A") (registered (lit "ann@demo.com") no_accounts)))
              s2 9 (default Undefined (jwt_verify plain_libraries token 9))
              [] [])
    as (_ & (data & Hprofile & Hemail & _) & _).
  - apply possible_empty.
  - reflexivity.
  - reflexivity.
  - reflexivity.
  - reflexivity.
  - reflexivity.
  - vm_compute. discriminate.
  - reflexivity.
  - vm_compute. reflexivity.
  - exists data. exact (conj Hprofile Hemail).
Defined.

(** A run of the account routes: a registration, a login, a new key, and
    the old key and the new one put to [/validate-key]. *)
Example account_run :
  let lib := plain_libraries in
  let '(registered, s1) :=
    register lib (lit "salt") (lit "k3y") (lit "9xz") 1700000000123
      1700000000123 1700000000124 [] (lit "ann@demo.com") (lit "secret")
      (lit "Ann") no_accounts in
  let '(logged_in, s2) :=
    login lib 1700000000200 [] (lit "ann@demo.com") (lit "secret") s1 in
  let '(renewed, s3) :=
    regenerate_key lib 1700000000300 (lit "n3w") (lit "k3y")
      (Some (lit "Bearer 1700000000123.ann@demo.com")) s2 in
  let '(old_key, _) := validate_key [] (lit "acc_k3y9xz") s3 in
  let '(new_key, _) := validate_key [] (lit "acc_n3wk3y") s3 in
  status registered = 201%N
  /\ (exists answer, logged_in = Return answer /\ status answer = 200%N)
  /\ renewed = ContentRoutes.success 200 (Obj [(lit "apiKey", Str (lit "acc_n3wk3y"))])
  /\ old_key = failure 401 "Invalid API key"
  /\ status new_key = 200%N
  /\ length (objects s3) = 1 /\ size (apiKeys s3) = 1.
Proof.
  vm_compute. split; [reflexivity |]. split; [by eexists |].
  repeat split.
Qed.
